(** * Hello Naz page controller

    A shallow embedding of [src/script.js], the single source file of the
    Hello Naz front end, and the properties its specification states about it.

    The script is an event-driven controller: module-level variables
    ([currentThemeIndex], [isAnimating], [elements]) are mutated by callbacks
    that the browser invokes (event listeners, timers, animation frames) and
    by the three operations of the public handle [window.HelloNazApp].  The
    embedding threads one [State] through every function; a callback handed to
    [setTimeout], [setInterval] or [requestAnimationFrame] is represented by a
    constructor of [Task] that holds what the closure captured, and the
    pending callbacks live in a timer table.  A function that can raise
    returns an [Outcome] that keeps the state reached when the error was
    thrown, because JavaScript does not roll mutations back.

    Numbers that are only counted (indices, delays in milliseconds) are [Z] or
    [nat]; numbers the script computes on as IEEE-754 doubles (coordinates,
    sizes, random draws) are [spec_float] at binary64 precision. *)

From Stdlib Require Import ZArith String Ascii List Bool Lia.
From Stdlib Require Import Floats.SpecFloat.
From stdpp Require Import base gmap strings list.
Import ListNotations.

Local Open Scope string_scope.
Local Open Scope Z_scope.
Local Open Scope list_scope.

(** ** JavaScript numbers *)

Module Num.

(** A JavaScript Number is a binary64 float. *)
Definition num : Type := spec_float.

Definition prec : Z := 53.
Definition emax : Z := 1024.

Definition NaN : num := S754_nan.
Definition of_Z (z : Z) : num := binary_normalize prec emax z 0 false.

Definition add : num -> num -> num := SFadd prec emax.
Definition sub : num -> num -> num := SFsub prec emax.
Definition mul : num -> num -> num := SFmul prec emax.
Definition div : num -> num -> num := SFdiv prec emax.

(** The literal [0.5]. *)
Definition half : num := div (of_Z 1) (of_Z 2).

(** [Math.max(a, b)]: NaN if either argument is NaN, otherwise the larger
    one, [+0] counting as larger than [-0]. *)
Definition max (a b : num) : num :=
  match SFcompare a b with
  | None => NaN
  | Some Lt => b
  | Some Gt => a
  | Some Eq =>
      match a, b with
      | S754_zero true, S754_zero false => b
      | _, _ => a
      end
  end.

(** [Number.isFinite(x)]: neither NaN nor an infinity. *)
Definition is_finite (x : num) : bool :=
  match x with
  | S754_zero _ | S754_finite _ _ _ => true
  | S754_infinity _ | S754_nan => false
  end.

(** [x < 0]; [-0] is not below zero. *)
Definition is_negative (x : num) : bool :=
  match x with
  | S754_finite true _ _ | S754_infinity true => true
  | _ => false
  end.

(** [0 <= x && x < 1], the range of [Math.random()]. *)
Definition in_unit (x : num) : bool :=
  match SFcompare (of_Z 0) x, SFcompare x (of_Z 1) with
  | Some (Lt | Eq), Some Lt => true
  | _, _ => false
  end.

(** A value read from a property that may be absent. *)
Inductive value : Type :=
| Undefined
| Number (x : num).

(** [ToNumber]: [undefined] converts to NaN. *)
Definition to_number (v : value) : num :=
  match v with
  | Undefined => NaN
  | Number x => x
  end.

End Num.

(** ** The host's timer table

    [setTimeout], [setInterval] and [requestAnimationFrame] put a callback in
    the table; the table is generic in the representation [T] of callbacks. *)

Module Timers.

Inductive Kind : Type := Timeout | Interval | Frame.

#[global] Instance Kind_eq_dec : EqDecision Kind.
Proof. solve_decision. Defined.

Section WithTask.
Context {T : Type}.

Record Timer : Type := mkTimer {
  tid : nat;        (* the handle returned to the script *)
  tkind : Kind;
  tdue : Z;         (* earliest time, in ms, at which the callback may run *)
  tperiod : Z;      (* the delay argument *)
  ttask : T
}.

Record t : Type := mk {
  now : Z;
  next_id : nat;
  pending : list Timer
}.

Definition empty : t := mk 0 1%nat [].

Definition set_now (time : Z) (tm : t) : t :=
  mk (Z.max (now tm) time) (next_id tm) (pending tm).

Definition set_pending (l : list Timer) (tm : t) : t :=
  mk (now tm) (next_id tm) l.

Definition schedule (k : Kind) (task : T) (delay : Z) (tm : t) : nat * t :=
  (next_id tm,
   mk (now tm) (S (next_id tm))
      (pending tm ++ [mkTimer (next_id tm) k (now tm + delay) delay task])).

Definition setTimeout : T -> Z -> t -> nat * t := schedule Timeout.
Definition setInterval : T -> Z -> t -> nat * t := schedule Interval.
Definition requestAnimationFrame (task : T) : t -> nat * t :=
  schedule Frame task 0.

(** Timeouts and intervals share one pool of handles; animation frames
    have their own, so a frame is never cancelled by [clearTimeout]. *)
Definition cancelled_by (id : nat) (x : Timer) : bool :=
  Nat.eqb (tid x) id && negb (bool_decide (tkind x = Frame)).

(** [clearTimeout(id)] and [clearInterval(id)]; an [undefined] handle, or
    one that is not pending, cancels nothing. *)
Definition clearTimeout (id : option nat) (tm : t) : t :=
  match id with
  | None => tm
  | Some i => set_pending (List.filter (fun x => negb (cancelled_by i x)) (pending tm)) tm
  end.

Definition clearInterval : option nat -> t -> t := clearTimeout.

Definition find (id : nat) (tm : t) : option Timer :=
  List.find (fun x => Nat.eqb (tid x) id) (pending tm).

Definition remove (id : nat) (tm : t) : t :=
  set_pending (List.filter (fun x => negb (Nat.eqb (tid x) id)) (pending tm)) tm.

(** What the host does with an entry when its callback is about to run:
    a timeout or a frame leaves the table, an interval is armed again. *)
Definition rearm (x : Timer) (tm : t) : t :=
  match tkind x with
  | Interval =>
      set_pending
        (List.map (fun y => if Nat.eqb (tid y) (tid x)
                            then mkTimer (tid y) (tkind y) (tdue y + tperiod y) (tperiod y) (ttask y)
                            else y)
                  (pending tm)) tm
  | _ => remove (tid x) tm
  end.

(** Replaces the callback of entry [id] (a closure whose captured
    variables changed). *)
Definition set_task (id : nat) (task : T) (tm : t) : t :=
  set_pending
    (List.map (fun y => if Nat.eqb (tid y) id
                        then mkTimer (tid y) (tkind y) (tdue y) (tperiod y) task
                        else y)
              (pending tm)) tm.

(** The entry that runs next: the earliest due time, the oldest entry
    first among equal due times. *)
Fixpoint earliest (l : list Timer) : option Timer :=
  match l with
  | [] => None
  | x :: r =>
      match earliest r with
      | Some y => if tdue y <? tdue x then Some y else Some x
      | None => Some x
      end
  end.

Definition next_due (time : Z) (tm : t) : option Timer :=
  match earliest (pending tm) with
  | Some x => if tdue x <=? time then Some x else None
  | None => None
  end.

End WithTask.

Arguments Timer : clear implicits.
Arguments t : clear implicits.

End Timers.

(** ** [debounce(func, wait)]

    The closure returned by [debounce] owns one variable, [timeout].  Both of
    its functions are given here over that variable and the timer table;
    [mk_later args] is the callback [later] that captured [args]. *)

Module Debounce.

Section Generic.
Context {A T : Type}.
Variable mk_later : A -> T.
Variable wait : Z.

(** [executedFunction(...args)]:
    [clearTimeout(timeout); timeout = setTimeout(later, wait)]. *)
Definition executedFunction (args : A) (timeout : option nat) (tm : Timers.t T)
  : option nat * Timers.t T :=
  let tm1 := Timers.clearTimeout timeout tm in
  let '(id, tm2) := Timers.setTimeout (mk_later args) wait tm1 in
  (Some id, tm2).

(** The first statement of [later]: [clearTimeout(timeout)].  The second,
    [func(...args)], belongs to the host of the wrapped function. *)
Definition later_clear (timeout : option nat) (tm : Timers.t T) : Timers.t T :=
  Timers.clearTimeout timeout tm.
End Generic.

(** A host for one debounced function in isolation: the wrapped function
    [func] is observed through the log of the arguments it was invoked
    with. *)
Section Standalone.
Context {A : Type}.
Variable wait : Z.

Record Host : Type := mkHost {
  timeout : option nat;
  timers : Timers.t A;
  calls : list A
}.

Definition executed (args : A) (h : Host) : Host :=
  let '(id, tm) := executedFunction (fun a => a) wait args (timeout h) (timers h) in
  mkHost id tm (calls h).

(** [later]: [clearTimeout(timeout); func(...args)]. *)
Definition later (args : A) (h : Host) : Host :=
  mkHost (timeout h) (later_clear (timeout h) (timers h)) (calls h ++ [args]).

(** The event loop runs a due timeout: the entry leaves the table, the
    clock is at least its due time, the callback runs. *)
Definition fire (x : Timers.Timer A) (h : Host) : Host :=
  later (Timers.ttask x)
        (mkHost (timeout h)
                (Timers.set_now (Timers.tdue x) (Timers.rearm x (timers h)))
                (calls h)).

Fixpoint run_due (fuel : nat) (time : Z) (h : Host) : Host :=
  match fuel with
  | O => h
  | S fuel' =>
      match Timers.next_due time (timers h) with
      | Some x => run_due fuel' time (fire x h)
      | None => h
      end
  end.

(** Time passes until [time]: every timeout due by then runs, in order. *)
Definition advance (time : Z) (h : Host) : Host :=
  let h' := run_due (length (Timers.pending (timers h))) time h in
  mkHost (timeout h') (Timers.set_now time (timers h')) (calls h').

(** The debounced handler is called at [time] with [args]. *)
Definition call (time : Z) (args : A) (h : Host) : Host :=
  executed args (advance time h).

Definition run_burst (l : list (Z * A)) (h : Host) : Host :=
  fold_left (fun h c => call (fst c) (snd c) h) l h.

(** A burst: each call comes no earlier than the one before it and
    strictly before the delay pending from that one has elapsed. *)
Fixpoint is_burst (time : Z) (rest : list (Z * A)) : Prop :=
  match rest with
  | [] => True
  | c :: rest' => time <= fst c /\ fst c < time + wait /\ is_burst (fst c) rest'
  end.

(** After a call at [time] with [args] that found no due callback, the
    closure holds one pending timeout, due [wait] later and carrying
    [args]. *)
Definition settled (h : Host) (time : Z) (args : A) : Prop :=
  exists id,
    timeout h = Some id /\
    Timers.pending (timers h) = [Timers.mkTimer id Timers.Timeout (time + wait) wait args] /\
    Timers.now (timers h) = time.
End Standalone.

End Debounce.

(** ** The page controller *)

Module App.
Import Num.

(** *** Configuration and palette *)

(** [CONFIG]. *)
Definition animationDuration : Z := 300.
Definition typewriterSpeed : Z := 100.
Definition colorCycleInterval : Z := 3000.
Definition particleCount : nat := 50.

Record Theme : Type := mkTheme {
  primary : string;
  secondary : string;
  accent : string
}.

Definition THEMES : list Theme := [
  mkTheme "#667eea" "#764ba2" "#f093fb";
  mkTheme "#4facfe" "#00f2fe" "#43e97b";
  mkTheme "#fa709a" "#fee140" "#a8edea";
  mkTheme "#ffecd2" "#fcb69f" "#667eea";
  mkTheme "#a8edea" "#fed6e3" "#ff9a9e"
].

(** [THEMES[i]]: [undefined] outside the array. *)
Definition theme_at (i : Z) : option Theme :=
  if i <? 0 then None else nth_error THEMES (Z.to_nat i).

(** *** Nodes of the page *)

(** A node of the document is known by its identity. *)
Definition Elem : Type := nat.

(** The value of an inline style declaration: a literal of the script, or
    the template [translate(${x}px, ${y}px)] with the two numbers it
    interpolates. *)
Inductive StyleValue : Type :=
| Lit (s : string)
| TranslatePx (x y : num).

(** What the script reads and writes of a node that is in the page when the
    script starts.  [style] holds the inline declarations, custom properties
    included; [setProperty] and an assignment to [style.p] both insert. *)
Record Element : Type := mkElement {
  textContent : string;
  style : gmap string StyleValue;
  classList : list string;
  attributes : gmap string string
}.

Definition blank : Element := mkElement "" ∅ [] ∅.

(** The nodes the script creates with [document.createElement] are new
    nodes, distinct from every node of the page.  A particle is kept with
    the numbers its [cssText] was built from, a notification with its text,
    a ripple with the declarations its inline style holds. *)

(** A [div.particle] appended to [host]:
    [width: ${size}px; height: ${size}px; left: ${x}%; top: ${y}%;
     animation: float ${duration}s ${delay}s infinite ease-in-out]. *)
Record Particle : Type := mkParticle {
  p_host : Elem;
  p_size : num;
  p_left : num;
  p_top : num;
  p_duration : num;
  p_delay : num
}.

(** What the [cssText] setter keeps of a declaration whose value is the
    template [${x}px].  A number that is not finite is printed as [NaN],
    [Infinity] or [-Infinity]; none of them is a CSS length, and a
    declaration that does not parse is dropped.  A finite number is printed
    as a CSS number, so its declaration is kept. *)
Definition css_px (x : num) : option num :=
  if is_finite x then Some x else None.

(** [width] and [height] refuse a negative length as well. *)
Definition css_size (x : num) : option num :=
  if is_finite x && negb (is_negative x) then Some x else None.

(** A [span.ripple] appended to [r_button], which was given the [cssText]
    [width: ${size}px; height: ${size}px; left: ${x}px; top: ${y}px].
    [r_size] is the length of both [width] and [height]; a property that is
    [None] has no inline declaration, and the stylesheet's value for
    [.ripple] applies. *)
Record Ripple : Type := mkRipple {
  r_id : nat;
  r_button : Elem;
  r_size : option num;
  r_left : option num;
  r_top : option num
}.

(** A [div.notification] with [role="status"] and [aria-live="polite"]
    appended to [document.body]; [n_show] is the class [show]. *)
Record Notification : Type := mkNotification {
  n_id : nat;
  n_message : string;
  n_show : bool
}.

(** [getBoundingClientRect()]. *)
Record Rect : Type := mkRect {
  left : num;
  top : num;
  width : num;
  height : num
}.

(** The module variable [elements]: a property is [None] when it is absent
    (the initial [{}]) or [null] (the selector matched nothing). *)
Record Elements : Type := mkElements {
  container : option Elem;
  title : option Elem;
  subtitle : option Elem;
  interactiveBtn : option Elem;
  body : option Elem;
  particles : option Elem
}.

Definition no_elements : Elements := mkElements None None None None None None.

(** What the script asks of [document]. *)
Record Document : Type := mkDocument {
  query_container : option Elem;        (* querySelector('.container') *)
  query_h1 : option Elem;               (* querySelector('h1') *)
  query_subtitle : option Elem;         (* querySelector('.subtitle') *)
  query_interactive_btn : option Elem;  (* querySelector('.interactive-btn') *)
  query_particles : option Elem;        (* querySelector('.particles') *)
  document_body : option Elem;          (* document.body *)
  hidden : bool;                        (* document.hidden *)
  loading : bool                        (* document.readyState === 'loading' *)
}.

(** *** Errors, events, callbacks *)

Inductive Error : Type :=
| Err (message : string)        (* new Error(message) *)
| TypeErr (message : string).   (* a property read of null or undefined *)

(** [console.error(label, error)]. *)
Inductive LogEntry : Type :=
| ConsoleError (label : string) (error : option Error).

(** An event object, by the properties the handlers read; a property the
    object does not have is [None] or [Undefined]. *)
Record Event : Type := mkEvent {
  key : option string;
  target : option Elem;
  currentTarget : option Elem;
  clientX : value;
  clientY : value;
  error : option Error
}.

(** The two functions the script wraps with [debounce]. *)
Inductive DebouncedFn : Type := HandleResize | HandleMouseMove.

(** The callbacks the script hands to [setTimeout], [setInterval] and
    [requestAnimationFrame], each with what its closure captured. *)
Inductive Task : Type :=
| ContainerFadeIn                                   (* line 89 *)
| StartTypewriter                                   (* line 97 *)
| AnimateSubtitle                                   (* line 102 *)
| AnimateButton                                     (* line 107 *)
| TypewriterTick (element : Elem) (text : string) (index : nat)  (* line 120 *)
| AnimateFrame (element : Elem) (animationClass : string)        (* line 138 *)
| ButtonScaleBack (button : Elem)                   (* line 157 *)
| ClearAnimating                                    (* line 170 *)
| ColorCycleTick                                    (* line 231 *)
| RippleRemove (ripple : nat)                       (* line 311 *)
| NotificationShow (notification : nat)             (* line 326 *)
| NotificationHide (notification : nat)             (* line 330 *)
| NotificationRemove (notification : nat)           (* line 332 *)
| DebounceLater (closure : nat) (func : DebouncedFn) (args : Event). (* line 368 *)

(** The functions the script registers as event listeners. *)
Inductive Handler : Type :=
| HandleInteractiveClick
| HandleKeydown
| Debounced (closure : nat) (func : DebouncedFn) (wait : Z)
| HandleVisibilityChange
| FocusOnTab         (* line 353 *)
| FocusOnMouseDown   (* line 359 *)
| ReportError        (* line 378 *)
| Init.              (* line 384 *)

Inductive Target : Type := OnElement (e : Elem) | OnDocument | OnWindow.

Record Listener : Type := mkListener {
  l_target : Target;
  l_type : string;
  l_handler : Handler
}.

Record State : Type := mkState {
  (* module-level variables *)
  currentThemeIndex : Z;
  isAnimating : bool;
  elements : Elements;
  (* the [timeout] variable of each closure made by [debounce]; a closure
     without an entry holds [undefined] *)
  closures : gmap nat nat;
  next_closure : nat;
  (* the page and the window, as the script reads them *)
  document : Document;
  innerWidth : num;
  innerHeight : num;
  layout : Elem -> Rect;
  random : nat -> num;
  random_pos : nat;
  (* the nodes of the page *)
  dom : gmap Elem Element;
  particle_nodes : list Particle;
  ripples : list Ripple;
  notifications : list Notification;
  next_node : nat;
  (* what the script registered with the host *)
  listeners : list Listener;
  timers : Timers.t Task;
  console : list LogEntry;
  exposed : bool
}.

(** Field updates. *)

Definition with_currentThemeIndex (v : Z) (s : State) : State :=
  mkState v (isAnimating s) (elements s) (closures s) (next_closure s)
    (document s) (innerWidth s) (innerHeight s) (layout s) (random s)
    (random_pos s) (dom s) (particle_nodes s) (ripples s)
    (notifications s) (next_node s) (listeners s) (timers s) (console s)
    (exposed s).

Definition with_isAnimating (v : bool) (s : State) : State :=
  mkState (currentThemeIndex s) v (elements s) (closures s) (next_closure s)
    (document s) (innerWidth s) (innerHeight s) (layout s) (random s)
    (random_pos s) (dom s) (particle_nodes s) (ripples s)
    (notifications s) (next_node s) (listeners s) (timers s) (console s)
    (exposed s).

Definition with_elements (v : Elements) (s : State) : State :=
  mkState (currentThemeIndex s) (isAnimating s) v (closures s) (next_closure s)
    (document s) (innerWidth s) (innerHeight s) (layout s) (random s)
    (random_pos s) (dom s) (particle_nodes s) (ripples s)
    (notifications s) (next_node s) (listeners s) (timers s) (console s)
    (exposed s).

Definition with_closures (v : gmap nat nat) (s : State) : State :=
  mkState (currentThemeIndex s) (isAnimating s) (elements s) v (next_closure s)
    (document s) (innerWidth s) (innerHeight s) (layout s) (random s)
    (random_pos s) (dom s) (particle_nodes s) (ripples s)
    (notifications s) (next_node s) (listeners s) (timers s) (console s)
    (exposed s).

Definition with_next_closure (v : nat) (s : State) : State :=
  mkState (currentThemeIndex s) (isAnimating s) (elements s) (closures s) v
    (document s) (innerWidth s) (innerHeight s) (layout s) (random s)
    (random_pos s) (dom s) (particle_nodes s) (ripples s)
    (notifications s) (next_node s) (listeners s) (timers s) (console s)
    (exposed s).

Definition with_document (v : Document) (s : State) : State :=
  mkState (currentThemeIndex s) (isAnimating s) (elements s) (closures s)
    (next_closure s) v (innerWidth s) (innerHeight s) (layout s)
    (random s) (random_pos s) (dom s) (particle_nodes s) (ripples s)
    (notifications s) (next_node s) (listeners s) (timers s) (console s)
    (exposed s).

Definition with_random_pos (v : nat) (s : State) : State :=
  mkState (currentThemeIndex s) (isAnimating s) (elements s) (closures s)
    (next_closure s) (document s) (innerWidth s) (innerHeight s)
    (layout s) (random s) v (dom s) (particle_nodes s) (ripples s)
    (notifications s) (next_node s) (listeners s) (timers s) (console s)
    (exposed s).

Definition with_dom (v : gmap Elem Element) (s : State) : State :=
  mkState (currentThemeIndex s) (isAnimating s) (elements s) (closures s)
    (next_closure s) (document s) (innerWidth s) (innerHeight s)
    (layout s) (random s) (random_pos s) v (particle_nodes s) (ripples s)
    (notifications s) (next_node s) (listeners s) (timers s) (console s)
    (exposed s).

Definition with_particle_nodes (v : list Particle) (s : State) : State :=
  mkState (currentThemeIndex s) (isAnimating s) (elements s) (closures s)
    (next_closure s) (document s) (innerWidth s) (innerHeight s)
    (layout s) (random s) (random_pos s) (dom s) v (ripples s)
    (notifications s) (next_node s) (listeners s) (timers s) (console s)
    (exposed s).

Definition with_ripples (v : list Ripple) (s : State) : State :=
  mkState (currentThemeIndex s) (isAnimating s) (elements s) (closures s)
    (next_closure s) (document s) (innerWidth s) (innerHeight s)
    (layout s) (random s) (random_pos s) (dom s) (particle_nodes s) v
    (notifications s) (next_node s) (listeners s) (timers s) (console s)
    (exposed s).

Definition with_notifications (v : list Notification) (s : State) : State :=
  mkState (currentThemeIndex s) (isAnimating s) (elements s) (closures s)
    (next_closure s) (document s) (innerWidth s) (innerHeight s)
    (layout s) (random s) (random_pos s) (dom s) (particle_nodes s)
    (ripples s) v (next_node s) (listeners s) (timers s) (console s)
    (exposed s).

Definition with_next_node (v : nat) (s : State) : State :=
  mkState (currentThemeIndex s) (isAnimating s) (elements s) (closures s)
    (next_closure s) (document s) (innerWidth s) (innerHeight s)
    (layout s) (random s) (random_pos s) (dom s) (particle_nodes s)
    (ripples s) (notifications s) v (listeners s) (timers s) (console s)
    (exposed s).

Definition with_listeners (v : list Listener) (s : State) : State :=
  mkState (currentThemeIndex s) (isAnimating s) (elements s) (closures s)
    (next_closure s) (document s) (innerWidth s) (innerHeight s)
    (layout s) (random s) (random_pos s) (dom s) (particle_nodes s)
    (ripples s) (notifications s) (next_node s) v (timers s) (console s)
    (exposed s).

Definition with_timers (v : Timers.t Task) (s : State) : State :=
  mkState (currentThemeIndex s) (isAnimating s) (elements s) (closures s)
    (next_closure s) (document s) (innerWidth s) (innerHeight s)
    (layout s) (random s) (random_pos s) (dom s) (particle_nodes s)
    (ripples s) (notifications s) (next_node s) (listeners s) v
    (console s) (exposed s).

Definition with_console (v : list LogEntry) (s : State) : State :=
  mkState (currentThemeIndex s) (isAnimating s) (elements s) (closures s)
    (next_closure s) (document s) (innerWidth s) (innerHeight s)
    (layout s) (random s) (random_pos s) (dom s) (particle_nodes s)
    (ripples s) (notifications s) (next_node s) (listeners s) (timers s) v
    (exposed s).

Definition with_exposed (v : bool) (s : State) : State :=
  mkState (currentThemeIndex s) (isAnimating s) (elements s) (closures s)
    (next_closure s) (document s) (innerWidth s) (innerHeight s)
    (layout s) (random s) (random_pos s) (dom s) (particle_nodes s)
    (ripples s) (notifications s) (next_node s) (listeners s) (timers s)
    (console s) v.

(** *** Outcomes

    A function either returns or throws; in both cases the mutations made so
    far stay. *)
Inductive Outcome : Type :=
| Done (s : State)
| Threw (e : Error) (s : State).

Definition out_state (o : Outcome) : State :=
  match o with
  | Done s => s
  | Threw _ s => s
  end.

Definition Comp : Type := State -> Outcome.

Definition ret : Comp := Done.

Definition seq (c1 c2 : Comp) : Comp :=
  fun s =>
    match c1 s with
    | Done s' => c2 s'
    | Threw e s' => Threw e s'
    end.

Declare Scope comp_scope.
Delimit Scope comp_scope with comp.
Bind Scope comp_scope with Comp.
Notation "c1 ;; c2" := (seq c1 c2)
  (at level 100, c2 at level 200, right associativity) : comp_scope.

(** A statement that cannot throw. *)
Definition exec (f : State -> State) : Comp := fun s => Done (f s).

(** [if (c) stmt]. *)
Definition when (c : bool) (stmt : Comp) : Comp := if c then stmt else ret.

(** An object is truthy, [null] and [undefined] are not. *)
Definition truthy {A : Type} (o : option A) : bool :=
  match o with
  | Some _ => true
  | None => false
  end.

(** *** Host operations on the state *)

Definition node (e : Elem) (s : State) : Element :=
  default blank (dom s !! e).

Definition update_node (e : Elem) (f : Element -> Element) (s : State) : State :=
  with_dom (<[e := f (node e s)]> (dom s)) s.

(** [e.style.prop = v] and [e.style.setProperty(prop, v)]. *)
Definition set_style (e : Elem) (prop : string) (v : StyleValue) : State -> State :=
  update_node e (fun n =>
    mkElement (textContent n) (<[prop := v]> (style n)) (classList n) (attributes n)).

(** [e.textContent = txt]. *)
Definition set_text (e : Elem) (txt : string) : State -> State :=
  update_node e (fun n => mkElement txt (style n) (classList n) (attributes n)).

Definition class_add (c : string) (l : list string) : list string :=
  if existsb (String.eqb c) l then l else l ++ [c].

Definition class_remove (c : string) (l : list string) : list string :=
  List.filter (fun x => negb (String.eqb c x)) l.

(** [e.classList.add(c)] and [e.classList.remove(c)]. *)
Definition add_class (e : Elem) (c : string) : State -> State :=
  update_node e (fun n =>
    mkElement (textContent n) (style n) (class_add c (classList n)) (attributes n)).

Definition remove_class (e : Elem) (c : string) : State -> State :=
  update_node e (fun n =>
    mkElement (textContent n) (style n) (class_remove c (classList n)) (attributes n)).

(** [e.setAttribute(name, v)]. *)
Definition set_attribute (e : Elem) (name v : string) : State -> State :=
  update_node e (fun n =>
    mkElement (textContent n) (style n) (classList n) (<[name := v]> (attributes n))).

(** [setTimeout(task, delay)], [setInterval(task, delay)] and
    [requestAnimationFrame(task)] where the script drops the handle. *)
Definition setTimeout (task : Task) (delay : Z) (s : State) : State :=
  with_timers (snd (Timers.setTimeout task delay (timers s))) s.

Definition setInterval (task : Task) (delay : Z) (s : State) : State :=
  with_timers (snd (Timers.setInterval task delay (timers s))) s.

Definition requestAnimationFrame (task : Task) (s : State) : State :=
  with_timers (snd (Timers.requestAnimationFrame task (timers s))) s.

(** [Math.random()]: the next draw of the host's source. *)
Definition math_random (s : State) : num * State :=
  (random s (random_pos s), with_random_pos (S (random_pos s)) s).

Definition console_error (label : string) (e : option Error) (s : State) : State :=
  with_console (console s ++ [ConsoleError label e]) s.

Definition addEventListener (on : Target) (type : string) (h : Handler) (s : State) : State :=
  with_listeners (listeners s ++ [mkListener on type h]) s.

(** *** The functions of the script, in its order *)

(** [cacheElements] (line 45). *)
Definition cacheElements : Comp :=
  fun s =>
    let d := document s in
    let s' := with_elements
                (mkElements (query_container d) (query_h1 d) (query_subtitle d)
                            (query_interactive_btn d) (document_body d)
                            (query_particles d)) s in
    if negb (truthy (container (elements s'))) || negb (truthy (title (elements s')))
    then Threw (Err "Essential DOM elements not found") s'
    else Done s'.

(** [debounce(func, wait)] (line 365) makes a closure whose [timeout] is
    [undefined]; the listener it returns is [executedFunction]. *)
Definition debounce (func : DebouncedFn) (wait : Z) (s : State) : Handler * State :=
  (Debounced (next_closure s) func wait,
   with_next_closure (S (next_closure s))
     (with_closures (delete (next_closure s) (closures s)) s)).

(** [setupEventListeners] (line 62). *)
Definition setupEventListeners : Comp :=
  exec (fun s =>
    let s1 := match interactiveBtn (elements s) with
              | Some btn => addEventListener (OnElement btn) "click" HandleInteractiveClick s
              | None => s
              end in
    let s2 := addEventListener OnDocument "keydown" HandleKeydown s1 in
    let '(resize, s3) := debounce HandleResize 250 s2 in
    let s4 := addEventListener OnWindow "resize" resize s3 in
    let '(move, s5) := debounce HandleMouseMove 16 s4 in
    let s6 := addEventListener OnDocument "mousemove" move s5 in
    addEventListener OnDocument "visibilitychange" HandleVisibilityChange s6).

(** [initializeAnimations] (line 82). *)
Definition initializeAnimations : Comp :=
  exec (fun s =>
    match container (elements s) with
    | None => s
    | Some c =>
        let s1 := set_style c "opacity" (Lit "0") s in
        let s2 := set_style c "transform" (Lit "translateY(30px)") s1 in
        let s3 := requestAnimationFrame ContainerFadeIn s2 in
        let s4 := if truthy (title (elements s3)) then setTimeout StartTypewriter 500 s3 else s3 in
        let s5 := if truthy (subtitle (elements s4)) then setTimeout AnimateSubtitle 1000 s4 else s4 in
        if truthy (interactiveBtn (elements s5)) then setTimeout AnimateButton 1500 s5 else s5
    end).

(** The callback of line 89; [elements.container] is read when it runs. *)
Definition containerFadeIn : Comp :=
  fun s =>
    match container (elements s) with
    | None => Threw (TypeErr "Cannot read properties of null (reading 'style')") s
    | Some c =>
        Done (set_style c "transform" (Lit "translateY(0)")
             (set_style c "opacity" (Lit "1")
             (set_style c "transition" (Lit "opacity 300ms ease, transform 300ms ease") s)))
    end.

(** [typewriterEffect] (line 112): empties the element and starts the
    interval whose callback captures [element], [text] and [index = 0]. *)
Definition typewriterEffect (element : option Elem) : Comp :=
  exec (fun s =>
    match element with
    | None => s
    | Some el =>
        let text := textContent (node el s) in
        let s1 := set_text el "" s in
        let s2 := set_style el "opacity" (Lit "1") s1 in
        setInterval (TypewriterTick el text 0) typewriterSpeed s2
    end).

(** [text[index]]: a one-character string, or [undefined] past the end.
    JavaScript indexes a string, and measures its length, by UTF-16 code
    unit; a text is kept here as a string of bytes.  The two agree on a text
    of ASCII characters, which is one byte and one code unit each. *)
Definition char_at (text : string) (index : nat) : option string :=
  option_map (fun c => String c EmptyString) (String.get index text).

(** A text of ASCII characters only. *)
Definition is_ascii_text (text : string) : bool :=
  forallb (fun c => Nat.ltb (nat_of_ascii c) 128) (list_ascii_of_string text).

(** String concatenation converts [undefined] to the text "undefined". *)
Definition to_display (v : option string) : string :=
  default "undefined" v.

(** The callback of the interval (line 120); [timer] is the handle of the
    interval itself.  The new [index] is kept in the pending callback. *)
Definition typewriterTick (timer : nat) (element : Elem) (text : string) (index : nat) : Comp :=
  exec (fun s =>
    let s1 := set_text element (textContent (node element s) +:+ to_display (char_at text index)) s in
    let index' := S index in
    let s2 := with_timers (Timers.set_task timer (TypewriterTick element text index') (timers s1)) s1 in
    if Nat.leb (String.length text) index'
    then add_class element "typewriter-complete"
           (with_timers (Timers.clearInterval (Some timer) (timers s2)) s2)
    else s2).

(** [animateElement] (line 132) and the callback of its animation frame. *)
Definition animateElement (element : option Elem) (animationClass : string) : Comp :=
  exec (fun s =>
    match element with
    | None => s
    | Some el =>
        requestAnimationFrame (AnimateFrame el animationClass)
          (set_style el "transform" (Lit "translateY(20px)")
          (set_style el "opacity" (Lit "0") s))
    end).

Definition animateFrame (element : Elem) (animationClass : string) : Comp :=
  exec (fun s =>
    add_class element animationClass
      (set_style element "transform" (Lit "translateY(0)")
      (set_style element "opacity" (Lit "1")
      (set_style element "transition" (Lit "all 300ms ease") s)))).

(** [applyTheme] (line 243): nothing is written without [elements.body];
    with it, reading [theme.primary] of [undefined] throws. *)
Definition applyTheme (theme : option Theme) : Comp :=
  fun s =>
    match body (elements s) with
    | None => Done s
    | Some b =>
        match theme with
        | None => Threw (TypeErr "Cannot read properties of undefined (reading 'primary')") s
        | Some t =>
            Done (set_style b "--accent-color" (Lit (accent t))
                 (set_style b "--secondary-color" (Lit (secondary t))
                 (set_style b "--primary-color" (Lit (primary t)) s)))
        end
    end.

(** [cycleTheme] (line 238); [%] is the remainder of truncated division. *)
Definition cycleTheme : Comp :=
  fun s =>
    let s' := with_currentThemeIndex
                (Z.rem (currentThemeIndex s + 1) (Z.of_nat (length THEMES))) s in
    applyTheme (theme_at (currentThemeIndex s')) s'.

(** [createRippleEffect] (line 292). *)
Definition createRippleEffect (event : Event) : Comp :=
  fun s =>
    match currentTarget event with
    | None => Threw (TypeErr "Cannot read properties of undefined (reading 'getBoundingClientRect')") s
    | Some button =>
        let rect := layout s button in
        let size := Num.max (width rect) (height rect) in
        let x := sub (sub (to_number (clientX event)) (left rect)) (div size (of_Z 2)) in
        let y := sub (sub (to_number (clientY event)) (top rect)) (div size (of_Z 2)) in
        let ripple := next_node s in
        let s1 := with_next_node (S ripple)
                    (with_ripples
                       (ripples s ++
                        [mkRipple ripple button (css_size size) (css_px x) (css_px y)]) s) in
        Done (setTimeout (RippleRemove ripple) 600 s1)
    end.

(** [showNotification] (line 317). *)
Definition showNotification (message : string) : Comp :=
  fun s =>
    match document_body (document s) with
    | None => Threw (TypeErr "Cannot read properties of null (reading 'appendChild')") s
    | Some _ =>
        let n := next_node s in
        let s1 := with_next_node (S n)
                    (with_notifications (notifications s ++ [mkNotification n message false]) s) in
        let s2 := requestAnimationFrame (NotificationShow n) s1 in
        Done (setTimeout (NotificationHide n) 2000 s2)
    end.

Definition set_show (n : nat) (v : bool) (s : State) : State :=
  with_notifications
    (List.map (fun x => if Nat.eqb (n_id x) n then mkNotification (n_id x) (n_message x) v else x)
              (notifications s)) s.

(** The callbacks of lines 326, 330 and 332. *)
Definition notificationShow (n : nat) : Comp := exec (set_show n true).

Definition notificationHide (n : nat) : Comp :=
  exec (fun s => setTimeout (NotificationRemove n) 300 (set_show n false s)).

Definition notificationRemove (n : nat) : Comp :=
  exec (fun s =>
    with_notifications (List.filter (fun x => negb (Nat.eqb (n_id x) n)) (notifications s)) s).

(** The callback of line 311: [ripple.remove()]. *)
Definition rippleRemove (ripple : nat) : Comp :=
  exec (fun s =>
    with_ripples (List.filter (fun x => negb (Nat.eqb (r_id x) ripple)) (ripples s)) s).

(** [handleInteractiveClick] (line 147).  [event.preventDefault()] marks the
    event object only and leaves the state as it is. *)
Definition handleInteractiveClick (event : Event) : Comp :=
  fun s =>
    if isAnimating s then Done s
    else
      let s1 := with_isAnimating true s in
      match currentTarget event with
      | None => Threw (TypeErr "Cannot read properties of undefined (reading 'style')") s1
      | Some button =>
          (exec (set_style button "transform" (Lit "scale(0.95)")) ;;
           exec (setTimeout (ButtonScaleBack button) 150) ;;
           cycleTheme ;;
           createRippleEffect event ;;
           showNotification "Theme changed! ✨" ;;
           exec (setTimeout ClearAnimating animationDuration))%comp s1
      end.

(** The callbacks of lines 157 and 170. *)
Definition buttonScaleBack (button : Elem) : Comp :=
  exec (set_style button "transform" (Lit "scale(1)")).

Definition clearAnimating : Comp := exec (with_isAnimating false).

(** [a === b] for two node references: [null] and [undefined] are no
    node. *)
Definition same_node (a b : option Elem) : bool :=
  match a, b with
  | Some x, Some y => Nat.eqb x y
  | _, _ => false
  end.

(** The object literal of line 182:
    [{ currentTarget: elements.interactiveBtn, preventDefault: () => {} }]. *)
Definition synthesized_click (s : State) : Event :=
  mkEvent None None (interactiveBtn (elements s)) Undefined Undefined None.

Definition key_is (event : Event) (k : string) : bool :=
  match key event with
  | Some k' => String.eqb k' k
  | None => false
  end.

(** [handleKeydown] (line 176). *)
Definition handleKeydown (event : Event) : Comp :=
  fun s =>
    if key_is event " " || key_is event "Enter" then
      if same_node (target event) (interactiveBtn (elements s))
      then handleInteractiveClick (synthesized_click s) s
      else Done s
    else if key_is event "Escape" then
      let s' := with_currentThemeIndex 0 s in
      applyTheme (theme_at (currentThemeIndex s')) s'
    else Done s.

(** [updateParticles] (line 282): every [.particle] under the host gets a
    new [left] and [top], in document order. *)
Fixpoint reposition (host : Elem) (l : list Particle) (s : State) : list Particle * State :=
  match l with
  | [] => ([], s)
  | p :: rest =>
      if Nat.eqb (p_host p) host then
        let '(x, s1) := math_random s in
        let '(y, s2) := math_random s1 in
        let '(rest', s3) := reposition host rest s2 in
        (mkParticle (p_host p) (p_size p) (mul x (of_Z 100)) (mul y (of_Z 100))
                    (p_duration p) (p_delay p) :: rest', s3)
      else
        let '(rest', s1) := reposition host rest s in
        (p :: rest', s1)
  end.

Definition updateParticles : Comp :=
  fun s =>
    match particles (elements s) with
    | None => Threw (TypeErr "Cannot read properties of null (reading 'querySelectorAll')") s
    | Some host =>
        let '(l, s1) := reposition host (particle_nodes s) s in
        Done (with_particle_nodes l s1)
    end.

(** [handleResize] (line 194). *)
Definition handleResize : Comp :=
  fun s => if truthy (particles (elements s)) then updateParticles s else Done s.

(** [handleMouseMove] (line 202). *)
Definition handleMouseMove (event : Event) : Comp :=
  exec (fun s =>
    match container (elements s) with
    | None => s
    | Some c =>
        let xPercent := mul (sub (div (to_number (clientX event)) (innerWidth s)) half) (of_Z 2) in
        let yPercent := mul (sub (div (to_number (clientY event)) (innerHeight s)) half) (of_Z 2) in
        let translateX := mul xPercent (of_Z 10) in
        let translateY := mul yPercent (of_Z 10) in
        set_style c "transform" (TranslatePx translateX translateY) s
    end).

(** [pauseAnimations] and [resumeAnimations] (line 337). *)
Definition setAnimationPlayState (v : string) : Comp :=
  fun s =>
    match body (elements s) with
    | None => Threw (TypeErr "Cannot read properties of undefined (reading 'style')") s
    | Some b => Done (set_style b "animation-play-state" (Lit v) s)
    end.

Definition pauseAnimations : Comp := setAnimationPlayState "paused".
Definition resumeAnimations : Comp := setAnimationPlayState "running".

(** [handleVisibilityChange] (line 219). *)
Definition handleVisibilityChange : Comp :=
  fun s => if hidden (document s) then pauseAnimations s else resumeAnimations s.

(** [startColorCycle] (line 230) and the callback of its interval. *)
Definition startColorCycle : Comp :=
  exec (setInterval ColorCycleTick colorCycleInterval).

Definition colorCycleTick : Comp :=
  fun s =>
    if negb (hidden (document s)) && negb (isAnimating s) then cycleTheme s else Done s.

(** [createParticle] (line 260). *)
Definition createParticle : Comp :=
  fun s =>
    let '(r1, s1) := math_random s in
    let size := add (mul r1 (of_Z 4)) (of_Z 2) in
    let '(r2, s2) := math_random s1 in
    let x := mul r2 (of_Z 100) in
    let '(r3, s3) := math_random s2 in
    let y := mul r3 (of_Z 100) in
    let '(r4, s4) := math_random s3 in
    let duration := add (mul r4 (of_Z 20)) (of_Z 10) in
    let '(r5, s5) := math_random s4 in
    let delay := mul r5 (of_Z 5) in
    match particles (elements s5) with
    | None => Threw (TypeErr "Cannot read properties of null (reading 'appendChild')") s5
    | Some host =>
        Done (with_particle_nodes
                (particle_nodes s5 ++ [mkParticle host size x y duration delay]) s5)
    end.

(** A loop [for (let i = 0; i < n; i++) body()]. *)
Fixpoint repeat_comp (n : nat) (c : Comp) : Comp :=
  match n with
  | O => ret
  | S n' => (c ;; repeat_comp n' c)%comp
  end.

(** [createParticleSystem] (line 252). *)
Definition createParticleSystem : Comp :=
  fun s =>
    if truthy (particles (elements s)) then repeat_comp particleCount createParticle s
    else Done s.

(** [setupAccessibility] (line 346) and its two listeners. *)
Definition setupAccessibility : Comp :=
  exec (fun s =>
    let s1 := match interactiveBtn (elements s) with
              | Some btn => set_attribute btn "aria-label" "Change color theme" s
              | None => s
              end in
    addEventListener OnDocument "mousedown" FocusOnMouseDown
      (addEventListener OnDocument "keydown" FocusOnTab s1)).

Definition focusOnTab (event : Event) : Comp :=
  fun s =>
    if key_is event "Tab" then
      match document_body (document s) with
      | None => Threw (TypeErr "Cannot read properties of null (reading 'classList')") s
      | Some b => Done (add_class b "keyboard-navigation" s)
      end
    else Done s.

Definition focusOnMouseDown : Comp :=
  fun s =>
    match document_body (document s) with
    | None => Threw (TypeErr "Cannot read properties of null (reading 'classList')") s
    | Some b => Done (remove_class b "keyboard-navigation" s)
    end.

(** [init] (line 31): the body of the [try], and the whole function. *)
Definition init_body : Comp :=
  (cacheElements ;;
   setupEventListeners ;;
   initializeAnimations ;;
   startColorCycle ;;
   createParticleSystem ;;
   setupAccessibility)%comp.

Definition init (s : State) : State :=
  match init_body s with
  | Done s' => s'
  | Threw e s' => console_error "Failed to initialize Hello Naz app:" (Some e) s'
  end.

(** The listener returned by [debounce(func, wait)], called with [event]:
    [executedFunction] over the closure's own [timeout]. *)
Definition debounced (closure : nat) (func : DebouncedFn) (wait : Z) (event : Event) : Comp :=
  exec (fun s =>
    let '(timeout, tm) :=
      Debounce.executedFunction (DebounceLater closure func) wait event
        (closures s !! closure) (timers s) in
    with_timers tm
      (with_closures
         (match timeout with
          | Some id => <[closure := id]> (closures s)
          | None => delete closure (closures s)
          end) s)).

(** The wrapped function of a closure. *)
Definition debounced_func (func : DebouncedFn) (args : Event) : Comp :=
  match func with
  | HandleResize => handleResize
  | HandleMouseMove => handleMouseMove args
  end.

(** [later] (line 368): [clearTimeout(timeout); func(...args)]. *)
Definition debounceLater (closure : nat) (func : DebouncedFn) (args : Event) : Comp :=
  (exec (fun s => with_timers (Debounce.later_clear (closures s !! closure) (timers s)) s) ;;
   debounced_func func args)%comp.

(** The listener of line 378. *)
Definition reportError (event : Event) : Comp :=
  exec (console_error "Hello Naz App Error:" (error event)).

(** A pending callback runs; [id] is its handle. *)
Definition run_task (id : nat) (task : Task) : Comp :=
  match task with
  | ContainerFadeIn => containerFadeIn
  | StartTypewriter => fun s => typewriterEffect (title (elements s)) s
  | AnimateSubtitle => fun s => animateElement (subtitle (elements s)) "fadeInUp" s
  | AnimateButton => fun s => animateElement (interactiveBtn (elements s)) "fadeInUp" s
  | TypewriterTick element text index => typewriterTick id element text index
  | AnimateFrame element animationClass => animateFrame element animationClass
  | ButtonScaleBack button => buttonScaleBack button
  | ClearAnimating => clearAnimating
  | ColorCycleTick => colorCycleTick
  | RippleRemove ripple => rippleRemove ripple
  | NotificationShow n => notificationShow n
  | NotificationHide n => notificationHide n
  | NotificationRemove n => notificationRemove n
  | DebounceLater closure func args => debounceLater closure func args
  end.

(** A registered listener runs with [event]. *)
Definition run_handler (h : Handler) (event : Event) : Comp :=
  match h with
  | HandleInteractiveClick => handleInteractiveClick event
  | HandleKeydown => handleKeydown event
  | Debounced closure func wait => debounced closure func wait event
  | HandleVisibilityChange => handleVisibilityChange
  | FocusOnTab => focusOnTab event
  | FocusOnMouseDown => focusOnMouseDown
  | ReportError => reportError event
  | Init => exec init
  end.

(** *** The event loop

    One step is one callback run to completion, one call of the public
    handle, or a change of the environment. *)

#[global] Instance DebouncedFn_eq_dec : EqDecision DebouncedFn.
Proof. solve_decision. Defined.

#[global] Instance Handler_eq_dec : EqDecision Handler.
Proof. solve_decision. Defined.

#[global] Instance Target_eq_dec : EqDecision Target.
Proof. solve_decision. Defined.

#[global] Instance Listener_eq_dec : EqDecision Listener.
Proof. solve_decision. Defined.

Definition is_error_listener (l : Listener) : bool :=
  bool_decide (l = mkListener OnWindow "error" ReportError).

(** An error no callback caught is reported to the [error] listeners of
    [window]. *)
Definition report_uncaught (e : Error) (s : State) : State :=
  fold_left
    (fun s' l => if is_error_listener l then out_state (reportError (mkEvent None None None Undefined Undefined (Some e)) s') else s')
    (listeners s) s.

Definition settle (o : Outcome) : State :=
  match o with
  | Done s => s
  | Threw e s => report_uncaught e s
  end.

(** [event.currentTarget] is the node the listener was registered on. *)
Definition delivered (l : Listener) (event : Event) : Event :=
  mkEvent (key event) (target event)
          (match l_target l with OnElement e => Some e | _ => None end)
          (clientX event) (clientY event) (error event).

Definition dispatch (l : Listener) (event : Event) (s : State) : State :=
  if bool_decide (l ∈ listeners s)
  then settle (run_handler (l_handler l) (delivered l event) s)
  else s.

Definition fire (id : nat) (s : State) : State :=
  match Timers.find id (timers s) with
  | Some x =>
      if Timers.tdue x <=? Timers.now (timers s)
      then settle (run_task id (Timers.ttask x)
                     (with_timers (Timers.rearm x (timers s)) s))
      else s
  | None => s
  end.

Definition set_hidden (h : bool) (s : State) : State :=
  let d := document s in
  with_document
    (mkDocument (query_container d) (query_h1 d) (query_subtitle d)
                (query_interactive_btn d) (query_particles d) (document_body d)
                h (loading d)) s.

Inductive Input : Type :=
| Dispatch (l : Listener) (event : Event)   (* the host calls a registered listener *)
| Fire (id : nat)                           (* the host runs a due callback *)
| Elapse (time : Z)                         (* the clock reaches [time] *)
| SetHidden (h : bool)                      (* the page is hidden or shown *)
| ApiCycleTheme                             (* HelloNazApp.cycleTheme() *)
| ApiShowNotification (message : string)    (* HelloNazApp.showNotification(message) *)
| ApiApplyTheme (theme : Theme).            (* HelloNazApp.applyTheme(theme) *)

(** A call of the public handle by another script of the page; an error it
    throws goes to the caller. *)
Definition api_call (c : Comp) (s : State) : State :=
  if exposed s then out_state (c s) else s.

Definition step (i : Input) (s : State) : State :=
  match i with
  | Dispatch l event => dispatch l event s
  | Fire id => fire id s
  | Elapse time => with_timers (Timers.set_now time (timers s)) s
  | SetHidden h => set_hidden h s
  | ApiCycleTheme => api_call cycleTheme s
  | ApiShowNotification message => api_call (showNotification message) s
  | ApiApplyTheme theme => api_call (applyTheme (Some theme)) s
  end.

Definition run (inputs : list Input) (s : State) : State :=
  fold_left (fun s' i => step i s') inputs s.

(** The state in which the script starts: its variables as lines 24-28
    initialise them, nothing registered, and the page as the host gives it. *)
Definition pristine (d : Document) (w h : num) (rects : Elem -> Rect)
    (rnd : nat -> num) (page : gmap Elem Element) : State :=
  mkState 0 false no_elements ∅ 0%nat d w h rects rnd 0%nat page [] [] [] 0%nat
          [] Timers.empty [] false.

(** The body of the script (lines 377-394): the [error] listener, [init]
    now or on [DOMContentLoaded], then the public handle. *)
Definition script (s : State) : State :=
  let s1 := addEventListener OnWindow "error" ReportError s in
  let s2 := if loading (document s1)
            then addEventListener OnDocument "DOMContentLoaded" Init s1
            else init s1 in
  with_exposed true s2.

(** The states the page can be in. *)
Definition boot (d : Document) (w h : num) (rects : Elem -> Rect)
    (rnd : nat -> num) (page : gmap Elem Element) : State :=
  script (pristine d w h rects rnd page).

(** *** What the properties observe *)

(** The style variables the stylesheet reads its colours from. *)
Definition COLOR_VARS : list string :=
  ["--primary-color"; "--secondary-color"; "--accent-color"].

Definition is_color_var (k : string) : bool := existsb (String.eqb k) COLOR_VARS.

(** The inline declaration [k] of node [e]. *)
Definition style_of (k : string) (e : Elem) (s : State) : option StyleValue :=
  style (node e s) !! k.

(** [s'] has the colour variables of [s], on every node. *)
Definition same_vars (s s' : State) : Prop :=
  forall e k, is_color_var k = true -> style_of k e s' = style_of k e s.

(** The range of [CurrentThemeIndex]. *)
Definition index_ok (s : State) : Prop :=
  0 <= currentThemeIndex s < Z.of_nat (length THEMES).

(** *** A page to run the script on *)

Definition sample_document : Document :=
  mkDocument (Some 1%nat) (Some 2%nat) (Some 3%nat) (Some 4%nat) (Some 5%nat)
             (Some 0%nat) false false.

Definition sample_page : gmap Elem Element :=
  <[2%nat := mkElement "Hello Naz" ∅ [] ∅]> ∅.

Definition sample_rects (e : Elem) : Rect :=
  mkRect (of_Z 40) (of_Z 20) (of_Z 120) (of_Z 40).

(** The script has run on the sample page, which was already parsed. *)
Definition sample_state : State :=
  boot sample_document (of_Z 1280) (of_Z 720) sample_rects (fun _ => half) sample_page.

(** The script has run while the sample page was still loading: [init] is
    yet to come. *)
Definition sample_loading_state : State :=
  boot (mkDocument (Some 1%nat) (Some 2%nat) (Some 3%nat) (Some 4%nat) (Some 5%nat)
                   (Some 0%nat) false true)
       (of_Z 1280) (of_Z 720) sample_rects (fun _ => half) sample_page.

(** The sample page with an empty heading. *)
Definition empty_title_state : State :=
  boot sample_document (of_Z 1280) (of_Z 720) sample_rects (fun _ => half)
       (<[2%nat := mkElement "" ∅ [] ∅]> ∅).

(** *** Running one interval

    The interval [id] ticks once: the clock reaches its due time and the
    host runs its callback.  Nothing happens once it is cleared. *)
Definition tick (id : nat) (s : State) : State :=
  match Timers.find id (timers s) with
  | Some x => step (Fire id) (step (Elapse (Timers.tdue x)) s)
  | None => s
  end.

Fixpoint ticks (n : nat) (id : nat) (s : State) : State :=
  match n with
  | O => s
  | S n' => ticks n' id (tick id s)
  end.

End App.

(** * Notions the properties are stated with *)

Import Num App.

(** [s'] has the theme index, the element cache and the colour variables
    of [s]. *)
Definition calm (s s' : State) : Prop :=
  currentThemeIndex s' = currentThemeIndex s /\
  elements s' = elements s /\
  same_vars s s'.

(** The same of a function of the script, however it ends. *)
Definition Calm (c : Comp) : Prop := forall s, calm s (out_state (c s)).

(** The value [applyTheme] gives to the colour variable [k]. *)
Definition theme_value (t : Theme) (k : string) : string :=
  if String.eqb k "--primary-color" then primary t
  else if String.eqb k "--secondary-color" then secondary t
  else accent t.

(** [s'] has the cache of [s], and its colour variables are those of [s] or
    those [applyTheme] leaves when it is called in [s] with a theme of the
    palette. *)
Definition themed (s s' : State) : Prop :=
  elements s' = elements s /\
  (same_vars s s' \/
   exists t, In t THEMES /\ same_vars (out_state (applyTheme (Some t) s)) s').

(** The same of a function of the script. *)
Definition Themed (c : Comp) : Prop := forall s, themed s (out_state (c s)).

(** [s'] has the theme index and the colour variables of [s]. *)
Definition still (s s' : State) : Prop :=
  currentThemeIndex s' = currentThemeIndex s /\ same_vars s s'.

(** The colour variables of [s'] are those of [s], or those [applyTheme]
    leaves when it is called in [s] with a theme of the palette. *)
Definition recoloured (s s' : State) : Prop :=
  same_vars s s' \/
  exists t, In t THEMES /\ same_vars (out_state (applyTheme (Some t) s)) s'.

(** The themes a step may apply: those of the palette, and the argument of
    the public [applyTheme]. *)
Definition may_apply (i : Input) (t : Theme) : Prop :=
  In t THEMES \/ i = ApiApplyTheme t.

(** The state [applyTheme] leaves when [elements.body] is [b]: the three
    declarations, and nothing else, entered in the inline style of [b]. *)
Definition write_theme (b : Elem) (t : Theme) : State -> State :=
  update_node b (fun n =>
    mkElement (textContent n)
              (<["--accent-color" := Lit (accent t)]>
                 (<["--secondary-color" := Lit (secondary t)]>
                    (<["--primary-color" := Lit (primary t)]> (style n))))
              (classList n) (attributes n)).

(** A function that keeps the theme index in range. *)
Definition Keeps (c : Comp) : Prop :=
  forall s, index_ok s -> index_ok (out_state (c s)).

(** A function that leaves the flag and the index as they were. *)
Definition Steady (c : Comp) : Prop :=
  forall s,
    isAnimating (out_state (c s)) = isAnimating s /\
    currentThemeIndex (out_state (c s)) = currentThemeIndex s.

(** A function that never throws. *)
Definition Returns (c : Comp) : Prop := forall s, exists s', c s = Done s'.

(** The cache [cacheElements] fills. *)
Definition cached (s : State) : State :=
  let d := document s in
  with_elements
    (mkElements (query_container d) (query_h1 d) (query_subtitle d)
                (query_interactive_btn d) (document_body d) (query_particles d)) s.

(** A function that neither adds nor removes a ripple. *)
Definition KeepsRipples (c : Comp) : Prop :=
  forall s, ripples (out_state (c s)) = ripples s.

(** The entries of the table that carry the handle [id]. *)
Definition entries (id : nat) (tm : Timers.t Task) : list (Timers.Timer Task) :=
  List.filter (fun x => Nat.eqb (Timers.tid x) id) (Timers.pending tm).

(** The first [k] characters of [text]. *)
Definition prefix (k : nat) (text : string) : string := substring 0 k text.

(** The typewriter on [el] has revealed [k] characters of [text], the
    interval [id] is pending with [index = k], and the classes of [el] are
    [cls]. *)
Definition typing (id : nat) (el : Elem) (text : string) (cls : list string)
    (k : nat) (s : State) : Prop :=
  (exists due,
      entries id (timers s) =
      [Timers.mkTimer id Timers.Interval due typewriterSpeed (TypewriterTick el text k)]) /\
  textContent (node el s) = prefix k text /\
  classList (node el s) = cls.

(** The typewriter on [el] is over: the interval is cleared, [el] shows
    [shown] and has the class [typewriter-complete] besides [cls]. *)
Definition typed (id : nat) (el : Elem) (cls : list string) (shown : string)
    (s : State) : Prop :=
  Timers.find id (timers s) = None /\
  textContent (node el s) = shown /\
  classList (node el s) = class_add "typewriter-complete" cls.

(** What [reposition] does to one particle: only [left] and [top] change,
    and only under [host]. *)
Definition repositioned (host : Elem) (p p' : Particle) : Prop :=
  p_host p' = p_host p /\
  p_size p' = p_size p /\
  p_duration p' = p_duration p /\
  p_delay p' = p_delay p /\
  (p_host p <> host -> p' = p).

(** What an entry of the timer table is armed with: its kind, its delay and
    its callback. *)
Definition timer_key (x : Timers.Timer Task) : Timers.Kind * Z * Task :=
  (Timers.tkind x, Timers.tperiod x, Timers.ttask x).

(** What the registration statements of [init] leave alone. *)
Definition regs (s : State) : list Listener * list LogEntry * Z * bool * Elements :=
  (listeners s, console s, currentThemeIndex s, isAnimating s, elements s).

(** [s'] has the listeners of [s], and as many particles. *)
Definition fixed (s s' : State) : Prop :=
  listeners s' = listeners s /\
  length (particle_nodes s') = length (particle_nodes s).

(** The same of a function of the script, however it ends. *)
Definition Fixed (c : Comp) : Prop := forall s, fixed s (out_state (c s)).

(** The cached body is [b], and its colour variables are those of the theme
    at the current index. *)
Definition shows_theme (b : Elem) (s : State) : Prop :=
  body (elements s) = Some b /\
  exists t,
    theme_at (currentThemeIndex s) = Some t /\
    forall k, is_color_var k = true -> style_of k b s = Some (Lit (theme_value t k)).

(** A function after which the body still shows the theme at the index,
    however it ends. *)
Definition Shows (c : Comp) : Prop :=
  forall b s, shows_theme b s -> shows_theme b (out_state (c s)).

(** A step of the page itself: neither the public [applyTheme], whose
    argument is the caller's, nor the delivery of [DOMContentLoaded]. *)
Definition ordinary (i : Input) : Prop :=
  (forall t, i <> ApiApplyTheme t) /\
  (forall l event, i = Dispatch l event -> l_handler l <> Init).

(** * Properties *)

(** ** Debounced handlers *)

Section DebounceFacts.
Context {A : Type}.
Variable wait : Z.

Import Debounce.

Lemma call_when_idle (h : Host) (time : Z) (args : A) :
  Timers.pending (timers h) = [] ->
  Timers.now (timers h) <= time ->
  settled wait (call wait time args h) time args /\ calls (call wait time args h) = calls h.
Proof.
  intros Hp Hn. destruct h as [to [n k p] c]. simpl in Hp, Hn. subst p.
  unfold call, advance, executed, executedFunction; simpl.
  split; [|reflexivity].
  exists k. destruct to; simpl; rewrite Z.max_r by lia; auto.
Qed.

Lemma call_when_settled (h : Host) (t0 : Z) (a0 : A) (time : Z) (args : A) :
  settled wait h t0 a0 ->
  t0 <= time ->
  time < t0 + wait ->
  settled wait (call wait time args h) time args /\ calls (call wait time args h) = calls h.
Proof.
  intros (id & Hto & Hp & Hn) Hle Hlt.
  destruct h as [to [n k p] c]. simpl in Hto, Hp, Hn. subst to p n.
  unfold call, advance, executed, executedFunction; simpl.
  unfold Timers.next_due; simpl.
  destruct (Z.leb_spec (t0 + wait) time) as [?|_]; [lia|]. simpl.
  unfold Timers.cancelled_by; simpl. rewrite Nat.eqb_refl. simpl.
  split; [|reflexivity].
  exists k. simpl. rewrite Z.max_r by lia. auto.
Qed.

Lemma advance_when_settled (h : Host) (t0 : Z) (a0 : A) (time : Z) :
  settled wait h t0 a0 ->
  t0 + wait <= time ->
  calls (advance time h) = calls h ++ [a0] /\
  Timers.pending (timers (advance time h)) = [].
Proof.
  intros (id & Hto & Hp & Hn) Hle.
  destruct h as [to [n k p] c]. simpl in Hto, Hp, Hn. subst to p n.
  unfold advance; simpl. unfold Timers.next_due; simpl.
  destruct (Z.leb_spec (t0 + wait) time) as [_|?]; [|lia]. simpl.
  unfold fire, later, later_clear; simpl.
  unfold Timers.rearm, Timers.remove; simpl. rewrite Nat.eqb_refl. simpl. auto.
Qed.

(** A call that comes when the delay has elapsed is not part of the burst:
    the pending callback has run, and the call arms one of its own. *)
Lemma call_after_delay (h : Host) (t0 : Z) (a0 : A) (time : Z) (args : A) :
  settled wait h t0 a0 ->
  t0 + wait <= time ->
  t0 <= time ->
  settled wait (call wait time args h) time args /\
  calls (call wait time args h) = calls h ++ [a0].
Proof.
  intros (id & Hto & Hp & Hn) Hle Hle'.
  destruct h as [to [n k p] c]. simpl in Hto, Hp, Hn. subst to p n.
  unfold call, advance, executed, executedFunction; simpl.
  unfold Timers.next_due; simpl.
  destruct (Z.leb_spec (t0 + wait) time) as [_|?]; [|lia]. simpl.
  unfold Timers.rearm, Timers.remove, Timers.cancelled_by; simpl.
  rewrite Nat.eqb_refl. simpl.
  split; [|reflexivity].
  exists k. simpl. split; [reflexivity|].
  replace (Z.max (Z.max t0 (t0 + wait)) time) with time by lia. auto.
Qed.

Lemma burst_settles (rest : list (Z * A)) :
  forall (h : Host) (t0 : Z) (a0 : A),
    settled wait h t0 a0 ->
    is_burst wait t0 rest ->
    settled wait (run_burst wait rest h) (fst (List.last rest (t0, a0))) (snd (List.last rest (t0, a0))) /\
    calls (run_burst wait rest h) = calls h.
Proof.
  induction rest as [|[t1 a1] rest IH]; intros h t0 a0 Hs Hb.
  - simpl. auto.
  - destruct Hb as (Hle & Hlt & Hb). simpl in Hle, Hlt, Hb.
    destruct (call_when_settled h t0 a0 t1 a1 Hs Hle Hlt) as [Hs1 Hc1].
    destruct (IH _ _ _ Hs1 Hb) as [Hs2 Hc2].
    change (run_burst wait ((t1, a1) :: rest) h)
      with (run_burst wait rest (call wait t1 a1 h)).
    rewrite Hc2, Hc1. split; [|reflexivity].
    replace (List.last ((t1, a1) :: rest) (t0, a0)) with (List.last rest (t1, a1)); [exact Hs2|].
    clear. destruct rest; [reflexivity|]. simpl.
    generalize p; induction rest; intros; simpl; auto.
Qed.

(** C7. For every burst of calls to a debounced handler, each call arriving
    before the delay pending from the previous one has elapsed, the wrapped
    function is not invoked during the burst, the only callback left pending
    after it is the one of the last call (the earlier ones were cancelled),
    and once the delay has elapsed the wrapped function has been invoked
    exactly once, with the arguments of the last call, and nothing is
    pending. *)
Theorem debounce_burst_invokes_last_call_once
    (h : Host) (t1 : Z) (a1 : A) (rest : list (Z * A)) (time : Z) :
  Timers.pending (timers h) = [] ->
  Timers.now (timers h) <= t1 ->
  is_burst wait t1 rest ->
  fst (List.last rest (t1, a1)) + wait <= time ->
  let h' := run_burst wait ((t1, a1) :: rest) h in
  calls h' = calls h /\
  List.map Timers.ttask (Timers.pending (timers h')) = [snd (List.last rest (t1, a1))] /\
  calls (advance time h') = calls h ++ [snd (List.last rest (t1, a1))] /\
  Timers.pending (timers (advance time h')) = [].
Proof.
  intros Hp Hn Hb Ht. cbv zeta.
  change (run_burst wait ((t1, a1) :: rest) h)
    with (run_burst wait rest (call wait t1 a1 h)).
  destruct (call_when_idle h t1 a1 Hp Hn) as [Hs1 Hc1].
  destruct (burst_settles rest _ _ _ Hs1 Hb) as [Hs2 Hc2].
  destruct (advance_when_settled _ _ _ time Hs2 Ht) as [Hc3 Hp3].
  rewrite Hc3, Hp3, Hc2, Hc1.
  destruct Hs2 as (id & _ & Hp2 & _). rewrite Hp2. simpl. auto.
Qed.

End DebounceFacts.

Lemma debounce_burst_witness :
  let h := Debounce.mkHost None Timers.empty ([] : list nat) in
  let h' := Debounce.run_burst 250 [(0, 1%nat); (100, 2%nat); (300, 3%nat)] h in
  Debounce.calls h' = [] /\
  List.map Timers.ttask (Timers.pending (Debounce.timers h')) = [3%nat] /\
  Debounce.calls (Debounce.advance 550 h') = [3%nat] /\
  Timers.pending (Debounce.timers (Debounce.advance 550 h')) = [].
Proof.
  apply (debounce_burst_invokes_last_call_once 250
           (Debounce.mkHost None Timers.empty []) 0 1%nat
           [(100, 2%nat); (300, 3%nat)] 550); simpl; try reflexivity; lia.
Defined.

(** ** Frame lemmas: what a statement leaves alone *)

Lemma same_vars_refl (s : State) : same_vars s s.
Proof. intros e k _. reflexivity. Qed.

Lemma same_vars_trans (s1 s2 s3 : State) :
  same_vars s1 s2 -> same_vars s2 s3 -> same_vars s1 s3.
Proof. intros H12 H23 e k Hk. rewrite (H23 e k Hk). apply (H12 e k Hk). Qed.

Lemma calm_refl (s : State) : calm s s.
Proof. split; [|split]; auto using same_vars_refl. Qed.

Lemma calm_trans (s1 s2 s3 : State) : calm s1 s2 -> calm s2 s3 -> calm s1 s3.
Proof.
  intros (Hi & He & Hv) (Hi' & He' & Hv'). split; [|split]; try congruence.
  eapply same_vars_trans; eassumption.
Qed.

(** A statement that touches neither the index, nor the cache, nor a node
    of the page. *)
Lemma calm_fields (s s' : State) :
  currentThemeIndex s' = currentThemeIndex s ->
  elements s' = elements s ->
  dom s' = dom s ->
  calm s s'.
Proof.
  intros Hi He Hd. split; [|split]; auto.
  intros e k _. unfold style_of, node. rewrite Hd. reflexivity.
Qed.

Lemma node_update_node (e' e : Elem) (f : Element -> Element) (s : State) :
  node e' (update_node e f s) = if decide (e' = e) then f (node e s) else node e' s.
Proof.
  unfold update_node, node at 1. simpl.
  destruct (decide (e' = e)) as [->|Hne].
  - rewrite lookup_insert_eq. reflexivity.
  - rewrite lookup_insert_ne by congruence. reflexivity.
Qed.

Lemma style_of_set_style (k : string) (e' e : Elem) (p : string) (v : StyleValue) (s : State) :
  style_of k e' (set_style e p v s) =
  if decide (e' = e /\ k = p) then Some v else style_of k e' s.
Proof.
  unfold style_of, set_style. rewrite node_update_node.
  destruct (decide (e' = e)) as [->|Hne]; simpl.
  - destruct (decide (k = p)) as [->|Hk].
    + rewrite lookup_insert_eq. rewrite decide_True by auto. reflexivity.
    + rewrite lookup_insert_ne by congruence. rewrite decide_False by tauto. reflexivity.
  - rewrite decide_False by tauto. reflexivity.
Qed.

Lemma calm_update_style (e : Elem) (f : Element -> Element) (s : State) :
  (forall n, style (f n) = style n) -> calm s (update_node e f s).
Proof.
  intros Hf. split; [|split]; try reflexivity.
  intros e' k _. unfold style_of. rewrite node_update_node.
  destruct (decide (e' = e)) as [->|]; [rewrite Hf|]; reflexivity.
Qed.

Lemma calm_set_style (e : Elem) (p : string) (v : StyleValue) (s : State) :
  is_color_var p = false -> calm s (set_style e p v s).
Proof.
  intros Hp. split; [|split]; try reflexivity.
  intros e' k Hk. rewrite style_of_set_style.
  rewrite decide_False; [reflexivity|].
  intros [_ ->]. congruence.
Qed.

Lemma calm_set_text (e : Elem) (txt : string) (s : State) : calm s (set_text e txt s).
Proof. apply calm_update_style. reflexivity. Qed.

Lemma calm_add_class (e : Elem) (c : string) (s : State) : calm s (add_class e c s).
Proof. apply calm_update_style. reflexivity. Qed.

Lemma calm_remove_class (e : Elem) (c : string) (s : State) : calm s (remove_class e c s).
Proof. apply calm_update_style. reflexivity. Qed.

Lemma calm_set_attribute (e : Elem) (k v : string) (s : State) :
  calm s (set_attribute e k v s).
Proof. apply calm_update_style. reflexivity. Qed.

Lemma calm_setTimeout (task : Task) (d : Z) (s : State) : calm s (setTimeout task d s).
Proof. apply calm_fields; reflexivity. Qed.

Lemma calm_setInterval (task : Task) (d : Z) (s : State) : calm s (setInterval task d s).
Proof. apply calm_fields; reflexivity. Qed.

Lemma calm_requestAnimationFrame (task : Task) (s : State) :
  calm s (requestAnimationFrame task s).
Proof. apply calm_fields; reflexivity. Qed.

Lemma calm_console_error (label : string) (e : option Error) (s : State) :
  calm s (console_error label e s).
Proof. apply calm_fields; reflexivity. Qed.

Lemma calm_addEventListener (on : Target) (type : string) (h : Handler) (s : State) :
  calm s (addEventListener on type h s).
Proof. apply calm_fields; reflexivity. Qed.

Lemma calm_with_isAnimating (v : bool) (s : State) : calm s (with_isAnimating v s).
Proof. apply calm_fields; reflexivity. Qed.

Lemma calm_with_timers (v : Timers.t Task) (s : State) : calm s (with_timers v s).
Proof. apply calm_fields; reflexivity. Qed.

Lemma calm_set_show (n : nat) (v : bool) (s : State) : calm s (set_show n v s).
Proof. apply calm_fields; reflexivity. Qed.

Lemma calm_set_hidden (h : bool) (s : State) : calm s (set_hidden h s).
Proof. apply calm_fields; reflexivity. Qed.

Create HintDb calm discriminated.

#[local] Hint Resolve calm_refl calm_set_style calm_set_text calm_add_class
  calm_remove_class calm_set_attribute calm_setTimeout calm_setInterval
  calm_requestAnimationFrame calm_console_error calm_addEventListener
  calm_with_isAnimating calm_with_timers calm_set_show calm_set_hidden : calm.
#[local] Hint Extern 1 (is_color_var _ = false) => reflexivity : calm.

(** Peels the statements of a straight-line body, last one first. *)
Ltac calm_chain :=
  repeat first
    [ apply calm_refl
    | progress cbv zeta
    | match goal with
      | |- calm _ (if ?b then _ else _) => destruct b
      | |- calm _ (match ?x with _ => _ end) => destruct x
      | |- calm ?s (?f ?s1) =>
          apply (calm_trans s s1 (f s1)); [|solve [auto with calm]]
      end ].

Lemma Calm_ret : Calm ret.
Proof. intros s. apply calm_refl. Qed.

Lemma Calm_exec (f : State -> State) : (forall s, calm s (f s)) -> Calm (exec f).
Proof. intros H s. apply H. Qed.

Lemma Calm_seq (c1 c2 : Comp) : Calm c1 -> Calm c2 -> Calm (seq c1 c2).
Proof.
  intros H1 H2 s. unfold seq. specialize (H1 s).
  destruct (c1 s) as [s1|e s1]; simpl in *; [|exact H1].
  eapply calm_trans; [exact H1|apply H2].
Qed.

Lemma Calm_repeat (n : nat) (c : Comp) : Calm c -> Calm (repeat_comp n c).
Proof.
  intros H. induction n as [|n IH]; simpl; [apply Calm_ret|].
  apply Calm_seq; assumption.
Qed.

(** Splits on what a body tests, until each branch is straight-line. *)
Ltac split_tests :=
  repeat match goal with
         | |- context [if ?b then _ else _] => destruct b
         | |- context [match ?x with _ => _ end] => destruct x
         end.

Ltac calm_untouched := split_tests; simpl; apply calm_fields; reflexivity.

Lemma Calm_setupEventListeners : Calm setupEventListeners.
Proof. intros s. unfold setupEventListeners, exec, debounce. calm_untouched. Qed.

Lemma Calm_initializeAnimations : Calm initializeAnimations.
Proof.
  apply Calm_exec. intros s. destruct (container (elements s)); calm_chain.
Qed.

Lemma Calm_containerFadeIn : Calm containerFadeIn.
Proof.
  intros s. unfold containerFadeIn. destruct (container (elements s)); simpl; calm_chain.
Qed.

Lemma Calm_typewriterEffect (element : option Elem) : Calm (typewriterEffect element).
Proof. apply Calm_exec. intros s. destruct element; calm_chain. Qed.

Lemma Calm_typewriterTick (timer : nat) (element : Elem) (text : string) (index : nat) :
  Calm (typewriterTick timer element text index).
Proof. apply Calm_exec. intros s. cbv zeta. calm_chain. Qed.

Lemma Calm_animateElement (element : option Elem) (animationClass : string) :
  Calm (animateElement element animationClass).
Proof. apply Calm_exec. intros s. destruct element; calm_chain. Qed.

Lemma Calm_animateFrame (element : Elem) (animationClass : string) :
  Calm (animateFrame element animationClass).
Proof. apply Calm_exec. intros s. calm_chain. Qed.

Lemma Calm_createRippleEffect (event : Event) : Calm (createRippleEffect event).
Proof. intros s. unfold createRippleEffect. calm_untouched. Qed.

Lemma Calm_showNotification (message : string) : Calm (showNotification message).
Proof. intros s. unfold showNotification. calm_untouched. Qed.

Lemma Calm_notificationShow (n : nat) : Calm (notificationShow n).
Proof. apply Calm_exec. auto with calm. Qed.

Lemma Calm_notificationHide (n : nat) : Calm (notificationHide n).
Proof. apply Calm_exec. intros s. calm_chain. Qed.

Lemma Calm_notificationRemove (n : nat) : Calm (notificationRemove n).
Proof. intros s. apply calm_fields; reflexivity. Qed.

Lemma Calm_rippleRemove (ripple : nat) : Calm (rippleRemove ripple).
Proof. intros s. apply calm_fields; reflexivity. Qed.

Lemma Calm_buttonScaleBack (button : Elem) : Calm (buttonScaleBack button).
Proof. apply Calm_exec. auto with calm. Qed.

Lemma Calm_clearAnimating : Calm clearAnimating.
Proof. apply Calm_exec. auto with calm. Qed.

Lemma reposition_untouched (host : Elem) (l : list Particle) :
  forall s,
    currentThemeIndex (snd (reposition host l s)) = currentThemeIndex s /\
    elements (snd (reposition host l s)) = elements s /\
    dom (snd (reposition host l s)) = dom s.
Proof.
  induction l as [|p l IH]; intros s; simpl; [auto|].
  destruct (Nat.eqb (p_host p) host).
  - specialize (IH (snd (math_random (snd (math_random s))))).
    simpl in *. destruct (reposition host l _); simpl in *. exact IH.
  - specialize (IH s). destruct (reposition host l s); simpl in *. exact IH.
Qed.

Lemma Calm_updateParticles : Calm updateParticles.
Proof.
  intros s. unfold updateParticles. destruct (particles (elements s)) as [host|].
  - pose proof (reposition_untouched host (particle_nodes s) s) as (Hi & He & Hd).
    destruct (reposition host (particle_nodes s) s) as [l s1]; simpl in *.
    apply calm_fields; assumption.
  - apply calm_refl.
Qed.

Lemma Calm_handleResize : Calm handleResize.
Proof.
  intros s. unfold handleResize. destruct (truthy _); [apply Calm_updateParticles|apply calm_refl].
Qed.

Lemma Calm_handleMouseMove (event : Event) : Calm (handleMouseMove event).
Proof. apply Calm_exec. intros s. destruct (container (elements s)); calm_chain. Qed.

Lemma Calm_setAnimationPlayState (v : string) : Calm (setAnimationPlayState v).
Proof.
  intros s. unfold setAnimationPlayState. destruct (body (elements s)); simpl; calm_chain.
Qed.

Lemma Calm_handleVisibilityChange : Calm handleVisibilityChange.
Proof.
  intros s. unfold handleVisibilityChange, pauseAnimations, resumeAnimations.
  destruct (hidden (document s)); apply Calm_setAnimationPlayState.
Qed.

Lemma Calm_startColorCycle : Calm startColorCycle.
Proof. apply Calm_exec. auto with calm. Qed.

Lemma Calm_createParticle : Calm createParticle.
Proof. intros s. unfold createParticle. simpl. calm_untouched. Qed.

Lemma Calm_createParticleSystem : Calm createParticleSystem.
Proof.
  intros s. unfold createParticleSystem. destruct (truthy _); [|apply calm_refl].
  apply Calm_repeat, Calm_createParticle.
Qed.

Lemma Calm_setupAccessibility : Calm setupAccessibility.
Proof.
  apply Calm_exec. intros s. cbv zeta. destruct (interactiveBtn (elements s)); calm_chain.
Qed.

Lemma Calm_focusOnTab (event : Event) : Calm (focusOnTab event).
Proof. intros s. unfold focusOnTab. split_tests; simpl; calm_chain. Qed.

Lemma Calm_focusOnMouseDown : Calm focusOnMouseDown.
Proof. intros s. unfold focusOnMouseDown. split_tests; simpl; calm_chain. Qed.

Lemma Calm_debounced (closure : nat) (func : DebouncedFn) (wait : Z) (event : Event) :
  Calm (debounced closure func wait event).
Proof. intros s. apply calm_fields; reflexivity. Qed.

Lemma Calm_debounceLater (closure : nat) (func : DebouncedFn) (args : Event) :
  Calm (debounceLater closure func args).
Proof.
  apply Calm_seq; [apply Calm_exec; auto with calm|].
  destruct func; [apply Calm_handleResize|apply Calm_handleMouseMove].
Qed.

Lemma Calm_reportError (event : Event) : Calm (reportError event).
Proof. apply Calm_exec. auto with calm. Qed.

Lemma calm_report_uncaught (e : Error) (s : State) : calm s (report_uncaught e s).
Proof.
  unfold report_uncaught. generalize (listeners s) as ls.
  assert (H : forall ls s', calm s s' ->
            calm s (fold_left (fun s' l => if is_error_listener l then out_state (reportError (mkEvent None None None Undefined Undefined (Some e)) s') else s') ls s')).
  { induction ls as [|l ls IH]; intros s' Hs'; simpl; [exact Hs'|].
    apply IH. destruct (is_error_listener l); [|exact Hs'].
    eapply calm_trans; [exact Hs'|apply calm_console_error]. }
  intros ls. apply H, calm_refl.
Qed.

(** ** What [applyTheme] writes *)

Lemma is_color_var_cases (k : string) :
  is_color_var k = true ->
  k = "--primary-color" \/ k = "--secondary-color" \/ k = "--accent-color".
Proof.
  unfold is_color_var, COLOR_VARS. simpl.
  rewrite !orb_true_iff, !String.eqb_eq. intuition discriminate.
Qed.

Lemma style_of_applyTheme (k : string) (e : Elem) (t : Theme) (s : State) :
  is_color_var k = true ->
  style_of k e (out_state (applyTheme (Some t) s)) =
  match body (elements s) with
  | Some b => if decide (e = b) then Some (Lit (theme_value t k)) else style_of k e s
  | None => style_of k e s
  end.
Proof.
  intros Hk. unfold applyTheme. destruct (body (elements s)) as [b|]; [|reflexivity].
  simpl. rewrite !style_of_set_style.
  destruct (decide (e = b)) as [->|Hne].
  - destruct (is_color_var_cases k Hk) as [->|[->| ->]];
      repeat first [ rewrite decide_True by (split; reflexivity)
                   | rewrite decide_False by (intros [_ ?]; discriminate) ];
      reflexivity.
  - rewrite !decide_False by tauto. reflexivity.
Qed.

Lemma applyTheme_elements (theme : option Theme) (s : State) :
  elements (out_state (applyTheme theme s)) = elements s.
Proof. unfold applyTheme. destruct (body (elements s)), theme; reflexivity. Qed.

Lemma applyTheme_index (theme : option Theme) (s : State) :
  currentThemeIndex (out_state (applyTheme theme s)) = currentThemeIndex s.
Proof. unfold applyTheme. destruct (body (elements s)), theme; reflexivity. Qed.

Lemma applyTheme_isAnimating (theme : option Theme) (s : State) :
  isAnimating (out_state (applyTheme theme s)) = isAnimating s.
Proof. unfold applyTheme. destruct (body (elements s)), theme; reflexivity. Qed.

Lemma calm_themed (s s' : State) : calm s s' -> themed s s'.
Proof. intros (_ & He & Hv). split; auto. Qed.

Lemma applyTheme_after (t : Theme) (s s1 s2 : State) :
  elements s1 = elements s ->
  (same_vars s s1 \/
   exists t1, In t1 THEMES /\ same_vars (out_state (applyTheme (Some t1) s)) s1) ->
  same_vars (out_state (applyTheme (Some t) s1)) s2 ->
  same_vars (out_state (applyTheme (Some t) s)) s2.
Proof.
  intros He H1 H2 e k Hk. rewrite (H2 e k Hk), !style_of_applyTheme by exact Hk.
  rewrite He. destruct (body (elements s)) as [b|] eqn:Hb.
  - destruct (decide (e = b)); [reflexivity|].
    destruct H1 as [H1|(t1 & _ & H1)]; rewrite (H1 e k Hk); [reflexivity|].
    rewrite style_of_applyTheme, Hb by exact Hk. rewrite decide_False by assumption. reflexivity.
  - destruct H1 as [H1|(t1 & _ & H1)]; rewrite (H1 e k Hk); [reflexivity|].
    rewrite style_of_applyTheme, Hb by exact Hk. reflexivity.
Qed.

Lemma themed_refl (s : State) : themed s s.
Proof. split; [reflexivity|left; apply same_vars_refl]. Qed.

Lemma themed_trans (s1 s2 s3 : State) : themed s1 s2 -> themed s2 s3 -> themed s1 s3.
Proof.
  intros (He & H12) (He' & H23). split; [congruence|].
  destruct H23 as [H23|(t & Ht & H23)].
  - destruct H12 as [H12|(t & Ht & H12)]; [left|right; exists t; split; [exact Ht|]];
      eapply same_vars_trans; eassumption.
  - right. exists t. split; [exact Ht|]. eapply applyTheme_after; eassumption.
Qed.

Lemma Themed_Calm (c : Comp) : Calm c -> Themed c.
Proof. intros H s. apply calm_themed, H. Qed.

Lemma Themed_seq (c1 c2 : Comp) : Themed c1 -> Themed c2 -> Themed (seq c1 c2).
Proof.
  intros H1 H2 s. unfold seq. specialize (H1 s).
  destruct (c1 s) as [s1|e s1]; simpl in *; [|exact H1].
  eapply themed_trans; [exact H1|apply H2].
Qed.

Lemma theme_at_palette (i : Z) (t : Theme) : theme_at i = Some t -> In t THEMES.
Proof.
  unfold theme_at. destruct (i <? 0); [discriminate|]. apply nth_error_In.
Qed.

Lemma Themed_applyTheme (i : Z) : Themed (applyTheme (theme_at i)).
Proof.
  intros s. split; [apply applyTheme_elements|].
  destruct (theme_at i) as [t|] eqn:Ht.
  - right. exists t. split; [exact (theme_at_palette i t Ht)|apply same_vars_refl].
  - left. unfold applyTheme. destruct (body (elements s)); apply same_vars_refl.
Qed.

Lemma calm_with_currentThemeIndex_themed (v : Z) (s : State) :
  themed s (with_currentThemeIndex v s).
Proof. split; [reflexivity|left]. intros e k _. reflexivity. Qed.

Lemma Themed_cycleTheme : Themed cycleTheme.
Proof.
  intros s. unfold cycleTheme.
  eapply themed_trans; [apply calm_with_currentThemeIndex_themed|apply Themed_applyTheme].
Qed.

Lemma Themed_handleInteractiveClick (event : Event) : Themed (handleInteractiveClick event).
Proof.
  intros s. unfold handleInteractiveClick.
  destruct (isAnimating s); [apply themed_refl|].
  destruct (currentTarget event) as [button|]; [|apply calm_themed; simpl; auto with calm].
  eapply themed_trans; [apply calm_themed, (calm_with_isAnimating true)|].
  generalize (with_isAnimating true s). clear s.
  repeat apply Themed_seq;
    first [ apply Themed_cycleTheme
          | apply Themed_Calm;
            first [ apply Calm_createRippleEffect | apply Calm_showNotification
                  | apply Calm_exec; auto with calm ] ].
Qed.

Lemma Themed_handleKeydown (event : Event) : Themed (handleKeydown event).
Proof.
  intros s. unfold handleKeydown.
  destruct (key_is event " " || key_is event "Enter").
  - destruct (same_node _ _); [apply Themed_handleInteractiveClick|apply themed_refl].
  - destruct (key_is event "Escape"); [|apply themed_refl].
    eapply themed_trans; [apply calm_with_currentThemeIndex_themed|apply Themed_applyTheme].
Qed.

Lemma Themed_colorCycleTick : Themed colorCycleTick.
Proof.
  intros s. unfold colorCycleTick.
  destruct (_ && _); [apply Themed_cycleTheme|apply themed_refl].
Qed.

(** Every callback but the tick of the colour cycle is calm. *)
Lemma run_task_calm (id : nat) (task : Task) :
  task = ColorCycleTick \/ Calm (run_task id task).
Proof.
  destruct task; cbn [run_task];
    [ right; exact Calm_containerFadeIn
    | right; intros s; apply (Calm_typewriterEffect (title (elements s)))
    | right; intros s; apply (Calm_animateElement (subtitle (elements s)))
    | right; intros s; apply (Calm_animateElement (interactiveBtn (elements s)))
    | right; apply Calm_typewriterTick
    | right; apply Calm_animateFrame
    | right; apply Calm_buttonScaleBack
    | right; exact Calm_clearAnimating
    | left; reflexivity
    | right; apply Calm_rippleRemove
    | right; apply Calm_notificationShow
    | right; apply Calm_notificationHide
    | right; apply Calm_notificationRemove
    | right; apply Calm_debounceLater ].
Qed.

Lemma Themed_run_task (id : nat) (task : Task) : Themed (run_task id task).
Proof.
  destruct (run_task_calm id task) as [->|H];
    [exact Themed_colorCycleTick|apply Themed_Calm, H].
Qed.

(** ** Initialisation leaves the index and the colours alone *)

Lemma calm_still (s s' : State) : calm s s' -> still s s'.
Proof. intros (Hi & _ & Hv). split; assumption. Qed.

Lemma still_trans (s1 s2 s3 : State) : still s1 s2 -> still s2 s3 -> still s1 s3.
Proof.
  intros (Hi & Hv) (Hi' & Hv'). split; [congruence|].
  eapply same_vars_trans; eassumption.
Qed.

Lemma still_cacheElements (s : State) : still s (out_state (cacheElements s)).
Proof.
  unfold cacheElements. cbv zeta.
  destruct (_ || _); simpl; (split; [reflexivity|intros e k _; reflexivity]).
Qed.

Lemma Calm_after_cache :
  Calm (setupEventListeners ;; initializeAnimations ;; startColorCycle ;;
        createParticleSystem ;; setupAccessibility)%comp.
Proof.
  repeat apply Calm_seq;
    first [ apply Calm_setupEventListeners | apply Calm_initializeAnimations
          | apply Calm_startColorCycle | apply Calm_createParticleSystem
          | apply Calm_setupAccessibility ].
Qed.

Lemma still_init_body (s : State) : still s (out_state (init_body s)).
Proof.
  unfold init_body. unfold seq at 1.
  pose proof (still_cacheElements s) as H.
  destruct (cacheElements s) as [s1|e s1]; simpl in H |- *; [|exact H].
  eapply still_trans; [exact H|]. apply calm_still, Calm_after_cache.
Qed.

Lemma still_init (s : State) : still s (init s).
Proof.
  unfold init. pose proof (still_init_body s) as H.
  destruct (init_body s) as [s1|e s1]; simpl in H; [exact H|].
  eapply still_trans; [exact H|]. apply calm_still, calm_console_error.
Qed.

(** ** Every step, seen from the colour variables *)

Lemma themed_recoloured (s s' : State) : themed s s' -> recoloured s s'.
Proof. intros [_ H]. exact H. Qed.

(** Every listener but the click, the keydown and [init] is calm. *)
Lemma run_handler_calm (h : Handler) (event : Event) :
  h = HandleInteractiveClick \/ h = HandleKeydown \/ h = Init \/
  Calm (run_handler h event).
Proof.
  destruct h; cbn [run_handler];
    [ left; reflexivity
    | right; left; reflexivity
    | right; right; right; apply Calm_debounced
    | right; right; right; exact Calm_handleVisibilityChange
    | right; right; right; apply Calm_focusOnTab
    | right; right; right; exact Calm_focusOnMouseDown
    | right; right; right; apply Calm_reportError
    | right; right; left; reflexivity ].
Qed.

Lemma recoloured_run_handler (h : Handler) (event : Event) (s : State) :
  recoloured s (out_state (run_handler h event s)).
Proof.
  destruct (run_handler_calm h event) as [->|[->|[->|H]]].
  - apply themed_recoloured, Themed_handleInteractiveClick.
  - apply themed_recoloured, Themed_handleKeydown.
  - left. apply still_init.
  - apply themed_recoloured, Themed_Calm, H.
Qed.

Lemma recoloured_calm (s s1 s2 : State) : recoloured s s1 -> calm s1 s2 -> recoloured s s2.
Proof.
  intros [H|(t & Ht & H)] (_ & _ & Hv); [left|right; exists t; split; [exact Ht|]];
    eapply same_vars_trans; eassumption.
Qed.

Lemma recoloured_settle (s : State) (o : Outcome) :
  recoloured s (out_state o) -> recoloured s (settle o).
Proof.
  destruct o as [s1|e s1]; simpl; [auto|].
  intros H. eapply recoloured_calm; [exact H|apply calm_report_uncaught].
Qed.

Lemma recoloured_themed_after_calm (s s1 s2 : State) :
  calm s s1 -> themed s1 s2 -> recoloured s s2.
Proof.
  intros Hc Ht. apply themed_recoloured.
  eapply themed_trans; [apply calm_themed, Hc|exact Ht].
Qed.

Lemma recoloured_step (i : Input) (s : State) :
  same_vars s (step i s) \/
  exists t, may_apply i t /\ same_vars (out_state (applyTheme (Some t) s)) (step i s).
Proof.
  assert (Hr : forall s', recoloured s s' ->
            same_vars s s' \/
            exists t, may_apply i t /\ same_vars (out_state (applyTheme (Some t) s)) s').
  { intros s' [H|(t & Ht & H)]; [left; exact H|right; exists t; split; [left; exact Ht|exact H]]. }
  destruct i as [l event|id|time|h| |message|theme]; cbn [step].
  - apply Hr. unfold dispatch. destruct (bool_decide _); [|left; apply same_vars_refl].
    apply recoloured_settle, recoloured_run_handler.
  - apply Hr. unfold fire.
    destruct (Timers.find id (timers s)) as [x|]; [|left; apply same_vars_refl].
    destruct (_ <=? _); [|left; apply same_vars_refl].
    apply recoloured_settle.
    eapply recoloured_themed_after_calm; [apply calm_with_timers|apply Themed_run_task].
  - left. apply calm_with_timers.
  - left. apply calm_set_hidden.
  - apply Hr. unfold api_call. destruct (exposed s); [|left; apply same_vars_refl].
    apply themed_recoloured, Themed_cycleTheme.
  - apply Hr. unfold api_call. destruct (exposed s); [|left; apply same_vars_refl].
    apply themed_recoloured, Themed_Calm, Calm_showNotification.
  - unfold api_call. destruct (exposed s); [|left; apply same_vars_refl].
    right. exists theme. split; [right; reflexivity|apply same_vars_refl].
Qed.

Lemma update_node_twice (e : Elem) (f g : Element -> Element) (s : State) :
  update_node e f (update_node e g s) = update_node e (fun n => f (g n)) s.
Proof.
  unfold update_node at 1. rewrite node_update_node, decide_True by reflexivity.
  unfold update_node. simpl. rewrite insert_insert_eq. reflexivity.
Qed.

Lemma applyTheme_write_theme (t : Theme) (s : State) :
  applyTheme (Some t) s =
  Done (match body (elements s) with
        | Some b => write_theme b t s
        | None => s
        end).
Proof.
  unfold applyTheme. destruct (body (elements s)) as [b|]; [|reflexivity].
  unfold set_style, write_theme. rewrite !update_node_twice. reflexivity.
Qed.

Lemma same_vars_script (s : State) : same_vars s (script s).
Proof.
  unfold script. cbv zeta.
  destruct (loading _); [intros e k _; reflexivity|].
  eapply same_vars_trans; [|intros e k _; reflexivity].
  eapply same_vars_trans; [|apply still_init].
  intros e k _. reflexivity.
Qed.

(** C9, as the script has it.  An application of a theme triple writes the
    three colour variables of the cached body, each from the triple, and
    nothing else; it writes nothing while no body is cached.  The body of
    the script leaves the colour variables of every node as they were, and
    every step of the page (a listener, a timer callback, a call of the
    public handle, a change of the environment) leaves them as they were or
    as a call of [applyTheme] leaves them, the theme being one of the palette
    or the argument of the public [applyTheme]. *)
Theorem applyTheme_only_writer_of_colours :
  (forall (t : Theme) (s : State),
      applyTheme (Some t) s =
      Done (match body (elements s) with
            | Some b => write_theme b t s
            | None => s
            end)) /\
  (forall s : State, same_vars s (script s)) /\
  (forall (i : Input) (s : State),
      same_vars s (step i s) \/
      exists t, may_apply i t /\
                same_vars (out_state (applyTheme (Some t) s)) (step i s)).
Proof.
  split; [exact applyTheme_write_theme|].
  split; [exact same_vars_script|exact recoloured_step].
Qed.

(** C9 as stated fails on a page that is still loading: the public handle is
    there, [elements] is still empty, and an application writes nothing. *)
Lemma applyTheme_before_init_writes_nothing :
  exposed sample_loading_state = true /\
  step (ApiApplyTheme (mkTheme "#4facfe" "#00f2fe" "#43e97b")) sample_loading_state
    = sample_loading_state /\
  document_body (document sample_loading_state) = Some 0%nat /\
  style_of "--primary-color" 0%nat
    (step (ApiApplyTheme (mkTheme "#4facfe" "#00f2fe" "#43e97b")) sample_loading_state)
    = None.
Proof. repeat split. Qed.

(** ** The theme index stays in range *)

Lemma index_ok_same (s s' : State) :
  currentThemeIndex s' = currentThemeIndex s -> index_ok s -> index_ok s'.
Proof. unfold index_ok. intros ->. auto. Qed.

Lemma Keeps_Calm (c : Comp) : Calm c -> Keeps c.
Proof. intros H s. apply index_ok_same, H. Qed.

Lemma Keeps_seq (c1 c2 : Comp) : Keeps c1 -> Keeps c2 -> Keeps (seq c1 c2).
Proof.
  intros H1 H2 s Hs. unfold seq. specialize (H1 s Hs).
  destruct (c1 s) as [s1|e s1]; simpl in *; auto.
Qed.

Lemma Keeps_applyTheme (theme : option Theme) : Keeps (applyTheme theme).
Proof. intros s. apply index_ok_same, applyTheme_index. Qed.

Lemma cycleTheme_index (s : State) :
  currentThemeIndex (out_state (cycleTheme s)) = Z.rem (currentThemeIndex s + 1) 5.
Proof. unfold cycleTheme. rewrite applyTheme_index. reflexivity. Qed.

Lemma Keeps_cycleTheme : Keeps cycleTheme.
Proof.
  intros s Hs. unfold index_ok in *. rewrite cycleTheme_index.
  change (Z.of_nat (length THEMES)) with 5 in *.
  apply Z.rem_bound_pos; lia.
Qed.

Lemma Keeps_handleInteractiveClick (event : Event) : Keeps (handleInteractiveClick event).
Proof.
  intros s Hs. unfold handleInteractiveClick.
  destruct (isAnimating s); [exact Hs|].
  destruct (currentTarget event) as [button|]; [|exact Hs].
  assert (Hs1 : index_ok (with_isAnimating true s)) by exact Hs.
  revert Hs1. generalize (with_isAnimating true s). clear s Hs.
  repeat apply Keeps_seq;
    first [ apply Keeps_cycleTheme
          | apply Keeps_Calm;
            first [ apply Calm_createRippleEffect | apply Calm_showNotification
                  | apply Calm_exec; auto with calm ] ].
Qed.

Lemma Keeps_handleKeydown (event : Event) : Keeps (handleKeydown event).
Proof.
  intros s Hs. unfold handleKeydown.
  destruct (key_is event " " || key_is event "Enter").
  - destruct (same_node _ _); [apply Keeps_handleInteractiveClick|]; exact Hs.
  - destruct (key_is event "Escape"); [|exact Hs].
    apply Keeps_applyTheme. unfold index_ok. simpl. lia.
Qed.

Lemma Keeps_colorCycleTick : Keeps colorCycleTick.
Proof.
  intros s Hs. unfold colorCycleTick.
  destruct (_ && _); [apply Keeps_cycleTheme|]; exact Hs.
Qed.

Lemma Keeps_run_task (id : nat) (task : Task) : Keeps (run_task id task).
Proof.
  destruct (run_task_calm id task) as [->|H];
    [exact Keeps_colorCycleTick|apply Keeps_Calm, H].
Qed.

Lemma Keeps_run_handler (h : Handler) (event : Event) : Keeps (run_handler h event).
Proof.
  destruct (run_handler_calm h event) as [->|[->|[->|H]]].
  - apply Keeps_handleInteractiveClick.
  - apply Keeps_handleKeydown.
  - intros s. apply index_ok_same, still_init.
  - apply Keeps_Calm, H.
Qed.

Lemma index_ok_settle (o : Outcome) : index_ok (out_state o) -> index_ok (settle o).
Proof.
  destruct o as [s|e s]; simpl; [auto|].
  apply index_ok_same, calm_report_uncaught.
Qed.

Lemma index_ok_step (i : Input) (s : State) : index_ok s -> index_ok (step i s).
Proof.
  intros Hs. destruct i as [l event|id|time|h| |message|theme]; cbn [step].
  - unfold dispatch. destruct (bool_decide _); [|exact Hs].
    apply index_ok_settle, Keeps_run_handler, Hs.
  - unfold fire. destruct (Timers.find id (timers s)) as [x|]; [|exact Hs].
    destruct (_ <=? _); [|exact Hs].
    apply index_ok_settle, Keeps_run_task. exact Hs.
  - exact Hs.
  - exact Hs.
  - unfold api_call. destruct (exposed s); [apply Keeps_cycleTheme|]; exact Hs.
  - unfold api_call. destruct (exposed s); [|exact Hs].
    apply (Keeps_Calm _ (Calm_showNotification message)), Hs.
  - unfold api_call. destruct (exposed s); [apply Keeps_applyTheme|]; exact Hs.
Qed.

Lemma index_ok_run (inputs : list Input) :
  forall s, index_ok s -> index_ok (run inputs s).
Proof.
  induction inputs as [|i inputs IH]; intros s Hs; simpl; [exact Hs|].
  apply IH, index_ok_step, Hs.
Qed.

Lemma boot_index (d : Document) (w h : num) (rects : Elem -> Rect)
    (rnd : nat -> num) (page : gmap Elem Element) :
  currentThemeIndex (boot d w h rects rnd page) = 0.
Proof.
  unfold boot, script. cbv zeta.
  destruct (loading _); [reflexivity|].
  change (currentThemeIndex (init (addEventListener OnWindow "error" ReportError
                                     (pristine d w h rects rnd page))) = 0).
  destruct (still_init (addEventListener OnWindow "error" ReportError
                          (pristine d w h rects rnd page))) as [-> _].
  reflexivity.
Qed.

(** C6. [currentThemeIndex] is 0 when the script has run, and an integer of
    [0, 5) in every state the page reaches from there, whatever listeners,
    timer callbacks and calls of the public handle run (theme cycles, ticks
    of the periodic timer, clicks of the action, the Escape reset among
    them). *)
Theorem currentThemeIndex_in_range
    (d : Document) (w h : num) (rects : Elem -> Rect) (rnd : nat -> num)
    (page : gmap Elem Element) (inputs : list Input) :
  currentThemeIndex (boot d w h rects rnd page) = 0 /\
  0 <= currentThemeIndex (run inputs (boot d w h rects rnd page)) < 5.
Proof.
  split; [apply boot_index|].
  apply (index_ok_run inputs). unfold index_ok. rewrite boot_index. simpl. lia.
Qed.

(** ** Cycling and resetting the theme *)

Lemma theme_at_in_range (i : Z) : 0 <= i < 5 -> exists t, theme_at i = Some t.
Proof.
  intros Hi.
  assert (H : i = 0 \/ i = 1 \/ i = 2 \/ i = 3 \/ i = 4) by lia.
  destruct H as [->|[->|[->|[->| ->]]]]; eexists; reflexivity.
Qed.

(** In range, [cycleTheme] returns: the palette has a theme at the new
    index. *)
Lemma cycleTheme_returns (s : State) :
  index_ok s ->
  exists s', cycleTheme s = Done s' /\
             currentThemeIndex s' = (currentThemeIndex s + 1) mod 5.
Proof.
  intros Hs. pose proof (Keeps_cycleTheme s Hs) as Hk.
  pose proof (cycleTheme_index s) as Hi.
  unfold index_ok in Hs, Hk. change (Z.of_nat (length THEMES)) with 5 in *.
  rewrite Z.rem_mod_nonneg in Hi by lia.
  unfold cycleTheme in *. cbv zeta in *.
  set (s1 := with_currentThemeIndex _ s) in *.
  unfold applyTheme in *. destruct (body (elements s1)) as [b|].
  - destruct (theme_at_in_range (currentThemeIndex s1)) as [t Ht].
    { subst s1. simpl. apply Z.rem_bound_pos; lia. }
    rewrite Ht in *. eexists. split; [reflexivity|exact Hi].
  - eexists. split; [reflexivity|exact Hi].
Qed.

Lemma cycleTheme_repeated (n : nat) :
  forall s,
    index_ok s ->
    exists s', repeat_comp n cycleTheme s = Done s' /\
               currentThemeIndex s' = (currentThemeIndex s + Z.of_nat n) mod 5.
Proof.
  induction n as [|n IH]; intros s Hs.
  - exists s. split; [reflexivity|].
    unfold index_ok in Hs. change (Z.of_nat (length THEMES)) with 5 in Hs.
    rewrite Z.add_0_r, Z.mod_small by lia. reflexivity.
  - destruct (cycleTheme_returns s Hs) as (s1 & H1 & Hi1).
    assert (Hs1 : index_ok s1).
    { pose proof (Keeps_cycleTheme s Hs) as Hk. rewrite H1 in Hk. exact Hk. }
    destruct (IH s1 Hs1) as (s' & H' & Hi').
    exists s'. split.
    + simpl. unfold seq. rewrite H1. exact H'.
    + rewrite Hi', Hi1, Zplus_mod_idemp_l. f_equal. lia.
Qed.

(** C1. From [currentThemeIndex = 0], [N] calls of [cycleTheme] in a row all
    return, and leave the index at [N mod 5]. *)
Theorem cycleTheme_N_times (N : nat) (s : State) :
  currentThemeIndex s = 0 ->
  exists s', repeat_comp N cycleTheme s = Done s' /\
             currentThemeIndex s' = Z.of_nat N mod Z.of_nat (length THEMES).
Proof.
  intros H0.
  destruct (cycleTheme_repeated N s) as (s' & H' & Hi').
  { unfold index_ok. rewrite H0. simpl. lia. }
  exists s'. split; [exact H'|]. rewrite Hi', H0. reflexivity.
Qed.

Lemma cycleTheme_N_times_witness :
  currentThemeIndex sample_state = 0 /\
  exists s', repeat_comp 7 cycleTheme sample_state = Done s' /\
             currentThemeIndex s' = 2.
Proof.
  split; [reflexivity|]. exact (cycleTheme_N_times 7 sample_state eq_refl).
Defined.

(** C5. Whatever the index was, the Escape key returns with the index at 0,
    having applied the first theme of the palette: the listener does what
    [applyTheme] does with that theme once the index is 0, so that the
    colour variables of a cached body are those of the first theme. *)
Theorem escape_resets_theme
    (s : State) (tgt cur : option Elem) (x y : value) (err : option Error) :
  let event := mkEvent (Some "Escape") tgt cur x y err in
  handleKeydown event s = applyTheme (head THEMES) (with_currentThemeIndex 0 s) /\
  exists s',
    handleKeydown event s = Done s' /\
    currentThemeIndex s' = 0 /\
    match body (elements s) with
    | Some b =>
        style_of "--primary-color" b s' = Some (Lit "#667eea") /\
        style_of "--secondary-color" b s' = Some (Lit "#764ba2") /\
        style_of "--accent-color" b s' = Some (Lit "#f093fb")
    | None => dom s' = dom s
    end.
Proof.
  cbv zeta. split; [reflexivity|].
  unfold handleKeydown. simpl. unfold applyTheme. simpl.
  destruct (body (elements s)) as [b|]; eexists; (split; [reflexivity|]).
  - split; [reflexivity|].
    rewrite !style_of_set_style.
    repeat first [ rewrite decide_True by (split; reflexivity)
                 | rewrite decide_False by (intros [_ ?]; discriminate) ].
    auto.
  - split; reflexivity.
Qed.

(** ** The re-entrancy guard of the action *)

Lemma handleInteractiveClick_guarded (event : Event) (s : State) :
  isAnimating s = true -> handleInteractiveClick event s = Done s.
Proof. intros H. unfold handleInteractiveClick. rewrite H. reflexivity. Qed.

Lemma Steady_seq (c1 c2 : Comp) : Steady c1 -> Steady c2 -> Steady (seq c1 c2).
Proof.
  intros H1 H2 s. unfold seq. specialize (H1 s).
  destruct (c1 s) as [s1|e s1]; simpl in *; [|exact H1].
  destruct (H2 s1) as [Ha Hi]. destruct H1 as [Ha1 Hi1]. split; congruence.
Qed.

Lemma Steady_createRippleEffect (event : Event) : Steady (createRippleEffect event).
Proof. intros s. unfold createRippleEffect. split_tests; split; reflexivity. Qed.

Lemma Steady_showNotification (message : string) : Steady (showNotification message).
Proof. intros s. unfold showNotification. split_tests; split; reflexivity. Qed.

(** After a first statement, statements that are steady do not change what
    the flag and the index are. *)
Lemma seq_then_steady (c1 c2 : Comp) (s : State) :
  Steady c2 ->
  isAnimating (out_state (seq c1 c2 s)) = isAnimating (out_state (c1 s)) /\
  currentThemeIndex (out_state (seq c1 c2 s)) = currentThemeIndex (out_state (c1 s)).
Proof.
  intros H2. unfold seq. destruct (c1 s) as [s1|e s1]; simpl; [apply H2|auto].
Qed.

(** What the first, effective, invocation leaves, however it ends. *)
Lemma handleInteractiveClick_effective (event : Event) (button : Elem) (s : State) :
  isAnimating s = false ->
  currentTarget event = Some button ->
  isAnimating (out_state (handleInteractiveClick event s)) = true /\
  currentThemeIndex (out_state (handleInteractiveClick event s))
    = Z.rem (currentThemeIndex s + 1) 5.
Proof.
  intros Hf Hb. unfold handleInteractiveClick. rewrite Hf, Hb.
  set (s2 := setTimeout (ButtonScaleBack button) 150
               (set_style button "transform" (Lit "scale(0.95)") (with_isAnimating true s))).
  change (isAnimating
            (out_state
               (seq cycleTheme
                    (createRippleEffect event ;; showNotification "Theme changed! ✨" ;;
                     exec (setTimeout ClearAnimating animationDuration))%comp s2)) = true /\
          currentThemeIndex
            (out_state
               (seq cycleTheme
                    (createRippleEffect event ;; showNotification "Theme changed! ✨" ;;
                     exec (setTimeout ClearAnimating animationDuration))%comp s2))
          = Z.rem (currentThemeIndex s + 1) 5).
  match goal with
  | |- context [seq cycleTheme ?rest s2] =>
      destruct (seq_then_steady cycleTheme rest s2) as [Ha Hi]
  end.
  { repeat apply Steady_seq;
      first [ apply Steady_createRippleEffect | apply Steady_showNotification
            | intros s0; split; reflexivity ]. }
  rewrite Ha, Hi, cycleTheme_index. unfold cycleTheme. cbv zeta.
  rewrite applyTheme_isAnimating. split; reflexivity.
Qed.

(** C4. When the action handler runs with the flag clear it sets the flag
    and advances the index by one step; invoked again in any state in which
    the flag is still set, it returns that state unchanged, so the two
    invocations make one theme-cycle step. *)
Theorem second_click_in_cooldown_is_noop
    (first second : Event) (button : Elem) (s : State) :
  isAnimating s = false ->
  currentTarget first = Some button ->
  let s1 := out_state (handleInteractiveClick first s) in
  isAnimating s1 = true /\
  currentThemeIndex s1 = Z.rem (currentThemeIndex s + 1) 5 /\
  handleInteractiveClick second s1 = Done s1 /\
  (forall s2, isAnimating s2 = true -> handleInteractiveClick second s2 = Done s2).
Proof.
  intros Hf Hb. cbv zeta.
  destruct (handleInteractiveClick_effective first button s Hf Hb) as [Ha Hi].
  repeat split; auto using handleInteractiveClick_guarded.
Qed.

Lemma second_click_in_cooldown_witness :
  let click := mkEvent None (Some 4%nat) (Some 4%nat)
                       (Number (of_Z 100)) (Number (of_Z 50)) None in
  let s1 := out_state (handleInteractiveClick click sample_state) in
  isAnimating s1 = true /\
  currentThemeIndex s1 = 1 /\
  handleInteractiveClick click s1 = Done s1 /\
  (forall s2, isAnimating s2 = true -> handleInteractiveClick click s2 = Done s2).
Proof.
  exact (second_click_in_cooldown_is_noop
           (mkEvent None (Some 4%nat) (Some 4%nat) (Number (of_Z 100)) (Number (of_Z 50)) None)
           (mkEvent None (Some 4%nat) (Some 4%nat) (Number (of_Z 100)) (Number (of_Z 50)) None)
           4%nat sample_state eq_refl eq_refl).
Defined.

(** The cooldown ends when the callback of line 170 runs. *)
Lemma clearAnimating_releases (s : State) :
  isAnimating (out_state (clearAnimating s)) = false.
Proof. reflexivity. Qed.

(** ** The public [applyTheme] *)

(** C10, as the script has it.  For every theme triple, the public
    [applyTheme] leaves [currentThemeIndex] and [isAnimating] as they were;
    it writes the three colour variables when a body is cached and nothing
    otherwise; the next [cycleTheme] advances from the index that was there
    before; and there are a state and a triple after whose application the
    colours shown are not those of the palette entry at the index. *)
Theorem public_applyTheme_keeps_index_and_flag (t : Theme) (s : State) :
  let s1 := out_state (applyTheme (Some t) s) in
  step (ApiApplyTheme t) s = (if exposed s then s1 else s) /\
  currentThemeIndex s1 = currentThemeIndex s /\
  isAnimating s1 = isAnimating s /\
  match body (elements s) with
  | Some b =>
      style_of "--primary-color" b s1 = Some (Lit (primary t)) /\
      style_of "--secondary-color" b s1 = Some (Lit (secondary t)) /\
      style_of "--accent-color" b s1 = Some (Lit (accent t))
  | None => s1 = s
  end /\
  currentThemeIndex (out_state (cycleTheme s1)) = Z.rem (currentThemeIndex s + 1) 5 /\
  exists (t0 : Theme) (s0 : State) (b : Elem) (p : Theme),
    body (elements s0) = Some b /\
    theme_at (currentThemeIndex (out_state (applyTheme (Some t0) s0))) = Some p /\
    style_of "--primary-color" b (out_state (applyTheme (Some t0) s0))
      <> Some (Lit (primary p)).
Proof.
  cbv zeta. split; [reflexivity|].
  split; [apply applyTheme_index|]. split; [apply applyTheme_isAnimating|].
  split; [|split].
  - destruct (body (elements s)) as [b|] eqn:Hb.
    + rewrite !style_of_applyTheme, Hb by reflexivity.
      rewrite !decide_True by reflexivity. auto.
    + unfold applyTheme. rewrite Hb. reflexivity.
  - rewrite cycleTheme_index, applyTheme_index. reflexivity.
  - exists (mkTheme "red" "green" "blue"), sample_state, 0%nat, (mkTheme "#667eea" "#764ba2" "#f093fb").
    split; [vm_compute; reflexivity|]. split; [vm_compute; reflexivity|].
    vm_compute. discriminate.
Qed.

(** C10 as stated fails on a page that is still loading: the public
    [applyTheme] writes no colour variable there. *)
Lemma public_applyTheme_before_init :
  exposed sample_loading_state = true /\
  elements sample_loading_state = no_elements /\
  step (ApiApplyTheme (mkTheme "red" "green" "blue")) sample_loading_state
    = sample_loading_state /\
  style_of "--accent-color" 0%nat
    (step (ApiApplyTheme (mkTheme "red" "green" "blue")) sample_loading_state) = None.
Proof. repeat split. Qed.

(** ** Initialisation *)

Lemma createParticle_returns (s : State) (host : Elem) :
  particles (elements s) = Some host ->
  exists s', createParticle s = Done s' /\ elements s' = elements s.
Proof.
  intros H. unfold createParticle. simpl. rewrite H. eexists. split; reflexivity.
Qed.

Lemma createParticles_return (n : nat) (host : Elem) :
  forall s, particles (elements s) = Some host ->
            exists s', repeat_comp n createParticle s = Done s'.
Proof.
  induction n as [|n IH]; intros s H; simpl.
  - exists s. reflexivity.
  - destruct (createParticle_returns s host H) as (s1 & H1 & He).
    unfold seq. rewrite H1. apply IH. rewrite He. exact H.
Qed.

Lemma Returns_exec (f : State -> State) : Returns (exec f).
Proof. intros s. exists (f s). reflexivity. Qed.

Lemma Returns_seq (c1 c2 : Comp) : Returns c1 -> Returns c2 -> Returns (seq c1 c2).
Proof.
  intros H1 H2 s. unfold seq. destruct (H1 s) as [s1 ->]. apply H2.
Qed.

Lemma Returns_createParticleSystem : Returns createParticleSystem.
Proof.
  intros s. unfold createParticleSystem.
  destruct (particles (elements s)) as [host|] eqn:Hp; cbn [truthy].
  - apply (createParticles_return particleCount host s Hp).
  - exists s. reflexivity.
Qed.

Lemma after_cache_returns :
  Returns (setupEventListeners ;; initializeAnimations ;; startColorCycle ;;
           createParticleSystem ;; setupAccessibility)%comp.
Proof.
  repeat apply Returns_seq;
    first [ exact Returns_createParticleSystem | apply Returns_exec ].
Qed.

Lemma cacheElements_outcome (s : State) :
  cacheElements s =
  match query_container (document s), query_h1 (document s) with
  | Some _, Some _ => Done (cached s)
  | _, _ => Threw (Err "Essential DOM elements not found") (cached s)
  end.
Proof.
  unfold cacheElements, cached. cbv zeta. simpl.
  destruct (query_container (document s)), (query_h1 (document s)); reflexivity.
Qed.

(** C8. The body of [init] throws if and only if the container or the title
    is not found; the error then comes from [cacheElements], [init] catches
    and logs it, and the failed [init] has registered no listener, started
    no timer, interval or animation frame, created no particle and touched
    no node: only the cache and the console differ. *)
Theorem init_fails_iff_essential_missing (s : State) :
  let missing := query_container (document s) = None \/ query_h1 (document s) = None in
  ((exists e s', init_body s = Threw e s') <-> missing) /\
  (missing ->
   init_body s = Threw (Err "Essential DOM elements not found") (cached s) /\
   init s = console_error "Failed to initialize Hello Naz app:"
              (Some (Err "Essential DOM elements not found")) (cached s) /\
   listeners (init s) = listeners s /\
   timers (init s) = timers s /\
   particle_nodes (init s) = particle_nodes s /\
   dom (init s) = dom s).
Proof.
  cbv zeta.
  assert (Hm : query_container (document s) = None \/ query_h1 (document s) = None ->
               init_body s = Threw (Err "Essential DOM elements not found") (cached s)).
  { intros Hmiss. unfold init_body. unfold seq at 1. rewrite cacheElements_outcome.
    destruct (query_container (document s)), (query_h1 (document s));
      try reflexivity.
    destruct Hmiss; discriminate. }
  split; [split|].
  - intros (e & s' & Hthrow). unfold init_body in Hthrow. unfold seq at 1 in Hthrow.
    rewrite cacheElements_outcome in Hthrow.
    destruct (query_container (document s)); [|auto].
    destruct (query_h1 (document s)); [|auto].
    destruct (after_cache_returns (cached s)) as [s1 H1].
    rewrite H1 in Hthrow. discriminate.
  - intros Hmiss. eauto.
  - intros Hmiss. specialize (Hm Hmiss).
    split; [exact Hm|]. unfold init. rewrite Hm. repeat split.
Qed.

Lemma init_fails_witness :
  let s := pristine (mkDocument (Some 1%nat) None (Some 3%nat) (Some 4%nat) (Some 5%nat)
                                (Some 0%nat) false false)
                    (of_Z 1280) (of_Z 720) sample_rects (fun _ => half) ∅ in
  init_body s = Threw (Err "Essential DOM elements not found") (cached s) /\
  init s = console_error "Failed to initialize Hello Naz app:"
             (Some (Err "Essential DOM elements not found")) (cached s) /\
  listeners (init s) = listeners s /\
  timers (init s) = timers s /\
  particle_nodes (init s) = particle_nodes s /\
  dom (init s) = dom s.
Proof.
  exact (proj2 (init_fails_iff_essential_missing
                  (pristine (mkDocument (Some 1%nat) None (Some 3%nat) (Some 4%nat)
                                        (Some 5%nat) (Some 0%nat) false false)
                            (of_Z 1280) (of_Z 720) sample_rects (fun _ => half) ∅))
               (or_intror eq_refl)).
Defined.

(** ** The ripple of the action *)

Lemma seq_Done (c1 c2 : Comp) (s s1 : State) :
  c1 s = Done s1 -> seq c1 c2 s = c2 s1.
Proof. intros H. unfold seq. rewrite H. reflexivity. Qed.

Lemma KeepsRipples_seq (c1 c2 : Comp) :
  KeepsRipples c1 -> KeepsRipples c2 -> KeepsRipples (seq c1 c2).
Proof.
  intros H1 H2 s. unfold seq. specialize (H1 s).
  destruct (c1 s) as [s1|e s1]; simpl in *; [|exact H1].
  rewrite H2. exact H1.
Qed.

Lemma KeepsRipples_showNotification (message : string) :
  KeepsRipples (showNotification message).
Proof. intros s. unfold showNotification. destruct (document_body _); reflexivity. Qed.

Lemma cycleTheme_returns_frame (s : State) :
  index_ok s ->
  exists s', cycleTheme s = Done s' /\
             ripples s' = ripples s /\
             next_node s' = next_node s /\
             layout s' = layout s.
Proof.
  intros Hs. unfold cycleTheme. cbv zeta.
  set (s1 := with_currentThemeIndex _ s).
  destruct (theme_at_in_range (currentThemeIndex s1)) as [t Ht].
  { subst s1. simpl. unfold index_ok in Hs. simpl in Hs. apply Z.rem_bound_pos; lia. }
  rewrite Ht, applyTheme_write_theme. eexists. split; [reflexivity|].
  destruct (body (elements s1)); repeat split.
Qed.

(** The ripple [createRippleEffect] makes for an event: its size is the
    larger side of the button, its corner is the pointer position relative
    to the button, moved back by half the size; each declaration is kept if
    its value is a length. *)
Lemma createRippleEffect_ripple (event : Event) (button : Elem) (s : State) :
  currentTarget event = Some button ->
  let rect := layout s button in
  let size := Num.max (width rect) (height rect) in
  ripples (out_state (createRippleEffect event s)) =
  ripples s ++
  [mkRipple (next_node s) button (css_size size)
     (css_px (sub (sub (to_number (clientX event)) (left rect)) (div size (of_Z 2))))
     (css_px (sub (sub (to_number (clientY event)) (top rect)) (div size (of_Z 2))))].
Proof. intros Hb. unfold createRippleEffect. rewrite Hb. reflexivity. Qed.

(** The ripple of an effective invocation of the action handler. *)
Lemma handleInteractiveClick_ripple (event : Event) (button : Elem) (s : State) :
  isAnimating s = false ->
  currentTarget event = Some button ->
  index_ok s ->
  let rect := layout s button in
  let size := Num.max (width rect) (height rect) in
  ripples (out_state (handleInteractiveClick event s)) =
  ripples s ++
  [mkRipple (next_node s) button (css_size size)
     (css_px (sub (sub (to_number (clientX event)) (left rect)) (div size (of_Z 2))))
     (css_px (sub (sub (to_number (clientY event)) (top rect)) (div size (of_Z 2))))].
Proof.
  intros Hf Hb Hi. cbv zeta. unfold handleInteractiveClick. rewrite Hf, Hb.
  set (s2 := setTimeout (ButtonScaleBack button) 150
               (set_style button "transform" (Lit "scale(0.95)") (with_isAnimating true s))).
  match goal with
  | |- _ = ?rhs =>
      change (ripples
                (out_state
                   (seq cycleTheme
                        (seq (createRippleEffect event)
                             (showNotification "Theme changed! ✨" ;;
                              exec (setTimeout ClearAnimating animationDuration))%comp) s2))
              = rhs)
  end.
  destruct (cycleTheme_returns_frame s2 Hi) as (s3 & H3 & Hr & Hn & Hl).
  rewrite (seq_Done _ _ _ _ H3).
  assert (Hk : KeepsRipples (showNotification "Theme changed! ✨" ;;
                             exec (setTimeout ClearAnimating animationDuration))%comp).
  { apply KeepsRipples_seq; [apply KeepsRipples_showNotification|intros s0; reflexivity]. }
  pose proof (createRippleEffect_ripple event button s3 Hb) as Hc. cbv zeta in Hc.
  destruct (createRippleEffect event s3) as [s4|e s4] eqn:H4.
  - rewrite (seq_Done _ _ _ _ H4), Hk. simpl in Hc. rewrite Hc, Hr, Hn, Hl. reflexivity.
  - unfold createRippleEffect in H4. rewrite Hb in H4. discriminate.
Qed.

(** C3. An activation of the action that takes effect appends one ripple
    on the action, as wide and as high as the larger side of its box.

    For a mouse click at [(cx, cy)] the ripple is positioned at the pointer
    relative to the action: its [left] and [top] are the pointer's offsets
    from the corner of the box, [cx - rect.left] and [cy - rect.top], moved
    back by half the size so that the ripple is centred on the pointer
    (whenever these are finite numbers, as they are for the coordinates and
    boxes of a page).

    For Space or Enter on the action the event object the key handler
    builds has no [clientX] and no [clientY]: both offsets are NaN, the
    page keeps neither declaration, and the ripple has no inline position.
    It sits where the stylesheet puts a ripple, the same place whatever
    the key event carries. *)
Theorem ripple_at_pointer_or_default (s : State) (btn : Elem) :
  interactiveBtn (elements s) = Some btn ->
  isAnimating s = false ->
  index_ok s ->
  let rect := layout s btn in
  let size := Num.max (width rect) (height rect) in
  (forall (cx cy : num) (k : option string) (tgt : option Elem) (err : option Error),
     let click := mkEvent k tgt (Some btn) (Number cx) (Number cy) err in
     let x := sub (sub cx (left rect)) (div size (of_Z 2)) in
     let y := sub (sub cy (top rect)) (div size (of_Z 2)) in
     is_finite x = true ->
     is_finite y = true ->
     ripples (out_state (handleInteractiveClick click s)) =
     ripples s ++ [mkRipple (next_node s) btn (css_size size) (Some x) (Some y)]) /\
  (forall (space : bool) (cur : option Elem) (x y : value) (err : option Error),
     let keydown := mkEvent (Some (if space then " " else "Enter")) (Some btn) cur x y err in
     ripples (out_state (handleKeydown keydown s)) =
     ripples s ++ [mkRipple (next_node s) btn (css_size size) None None]).
Proof.
  intros Hb Hf Hi. cbv zeta. split.
  - intros cx cy k tgt err Hx Hy.
    rewrite (handleInteractiveClick_ripple
               (mkEvent k tgt (Some btn) (Number cx) (Number cy) err) btn s Hf eq_refl Hi).
    cbn [clientX clientY to_number]. unfold css_px. rewrite Hx, Hy. reflexivity.
  - intros space cur x y err. unfold handleKeydown.
    replace (key_is _ " " || key_is _ "Enter") with true by (destruct space; reflexivity).
    cbn [target]. rewrite Hb. cbn [same_node]. rewrite Nat.eqb_refl.
    rewrite (handleInteractiveClick_ripple (synthesized_click s) btn s Hf);
      [reflexivity| |exact Hi].
    unfold synthesized_click. rewrite Hb. reflexivity.
Qed.

Lemma ripple_at_pointer_or_default_witness :
  ripples (out_state (handleInteractiveClick
                        (mkEvent None (Some 4%nat) (Some 4%nat)
                                 (Number (of_Z 100)) (Number (of_Z 50)) None)
                        sample_state)) =
  ripples sample_state ++
  [mkRipple (next_node sample_state) 4%nat
     (css_size (Num.max (width (layout sample_state 4%nat))
                        (height (layout sample_state 4%nat))))
     (Some (sub (sub (of_Z 100) (left (layout sample_state 4%nat)))
                (div (Num.max (width (layout sample_state 4%nat))
                              (height (layout sample_state 4%nat))) (of_Z 2))))
     (Some (sub (sub (of_Z 50) (top (layout sample_state 4%nat)))
                (div (Num.max (width (layout sample_state 4%nat))
                              (height (layout sample_state 4%nat))) (of_Z 2))))] /\
  ripples (out_state (handleKeydown
                        (mkEvent (Some "Enter") (Some 4%nat) None Undefined Undefined None)
                        sample_state)) =
  ripples sample_state ++
  [mkRipple (next_node sample_state) 4%nat
     (css_size (Num.max (width (layout sample_state 4%nat))
                        (height (layout sample_state 4%nat))))
     None None].
Proof.
  assert (Hb : interactiveBtn (elements sample_state) = Some 4%nat)
    by (vm_compute; reflexivity).
  assert (Hf : isAnimating sample_state = false) by (vm_compute; reflexivity).
  assert (Hi : index_ok sample_state) by (split; vm_compute; [discriminate|reflexivity]).
  destruct (ripple_at_pointer_or_default sample_state 4%nat Hb Hf Hi) as [Hclick Hkey].
  split.
  - apply (Hclick (of_Z 100) (of_Z 50) None (Some 4%nat) None);
      vm_compute; reflexivity.
  - exact (Hkey false None Undefined Undefined None).
Defined.

(** The two ripples on the sample page.  A click at (100, 50) on a button
    whose box starts at (40, 20) and measures 120 by 40 makes a ripple of
    size 120 centred on the pointer: its corner is at
    (100 - 40 - 60, 50 - 20 - 60).  Enter on the button makes a ripple of
    size 120 with no position of its own. *)
Lemma click_ripple_example :
  ripples (out_state (handleInteractiveClick
                        (mkEvent None (Some 4%nat) (Some 4%nat)
                                 (Number (of_Z 100)) (Number (of_Z 50)) None)
                        sample_state)) =
  [mkRipple 0%nat 4%nat (Some (of_Z 120)) (Some (of_Z 0)) (Some (of_Z (-30)))] /\
  ripples (out_state (handleKeydown
                        (mkEvent (Some "Enter") (Some 4%nat) None Undefined Undefined None)
                        sample_state)) =
  [mkRipple 0%nat 4%nat (Some (of_Z 120)) None None].
Proof. vm_compute. split; reflexivity. Qed.

(** ** The typewriter *)

Lemma find_entries (id : nat) (tm : Timers.t Task) :
  Timers.find id tm = head (entries id tm).
Proof.
  unfold Timers.find, entries. induction (Timers.pending tm) as [|x l IH]; simpl; [reflexivity|].
  destruct (Nat.eqb (Timers.tid x) id); [reflexivity|exact IH].
Qed.

Lemma entries_setInterval (id : nat) (task : Task) (d : Z) (tm : Timers.t Task) :
  entries id tm = [] ->
  id = Timers.next_id tm ->
  entries id (snd (Timers.setInterval task d tm)) =
  [Timers.mkTimer id Timers.Interval (Timers.now tm + d) d task].
Proof.
  intros He ->. unfold entries in *. simpl.
  rewrite List.filter_app, He. simpl. rewrite Nat.eqb_refl. reflexivity.
Qed.

Lemma entries_set_now (id : nat) (time : Z) (tm : Timers.t Task) :
  entries id (Timers.set_now time tm) = entries id tm.
Proof. reflexivity. Qed.

Lemma filter_map_same_id (id : nat) (f : Timers.Timer Task -> Timers.Timer Task)
    (l : list (Timers.Timer Task)) :
  (forall y, Timers.tid (f y) = Timers.tid y) ->
  List.filter (fun x => Nat.eqb (Timers.tid x) id)
    (List.map (fun y => if Nat.eqb (Timers.tid y) id then f y else y) l) =
  List.map f (List.filter (fun x => Nat.eqb (Timers.tid x) id) l).
Proof.
  intros Hf. induction l as [|y l IH]; simpl; [reflexivity|].
  destruct (Nat.eqb (Timers.tid y) id) eqn:Hy; simpl.
  - rewrite Hf, Hy, IH. reflexivity.
  - rewrite Hy, IH. reflexivity.
Qed.

Lemma entries_rearm_interval (x : Timers.Timer Task) (tm : Timers.t Task) :
  Timers.tkind x = Timers.Interval ->
  entries (Timers.tid x) (Timers.rearm x tm) =
  List.map (fun y => Timers.mkTimer (Timers.tid y) (Timers.tkind y)
                       (Timers.tdue y + Timers.tperiod y) (Timers.tperiod y) (Timers.ttask y))
           (entries (Timers.tid x) tm).
Proof.
  intros Hk. unfold Timers.rearm. rewrite Hk. unfold entries. simpl.
  apply filter_map_same_id. reflexivity.
Qed.

Lemma entries_set_task (id : nat) (task : Task) (tm : Timers.t Task) :
  entries id (Timers.set_task id task tm) =
  List.map (fun y => Timers.mkTimer (Timers.tid y) (Timers.tkind y) (Timers.tdue y)
                       (Timers.tperiod y) task)
           (entries id tm).
Proof. unfold entries. simpl. apply filter_map_same_id. reflexivity. Qed.

Lemma entries_clearInterval (id : nat) (x : Timers.Timer Task) (tm : Timers.t Task) :
  entries id tm = [x] ->
  Timers.tkind x = Timers.Interval ->
  entries id (Timers.clearInterval (Some id) tm) = [].
Proof.
  unfold entries. simpl. intros He Hk.
  induction (Timers.pending tm) as [|y l IH] in He |- *; simpl; [reflexivity|].
  simpl in He. unfold Timers.cancelled_by at 1.
  destruct (Nat.eqb (Timers.tid y) id) eqn:Hy; simpl.
  - injection He as -> Hl. rewrite Hk. simpl.
    clear IH. induction l as [|z l IH]; simpl; [reflexivity|].
    simpl in Hl. unfold Timers.cancelled_by at 1.
    destruct (Nat.eqb (Timers.tid z) id) eqn:Hz; [discriminate|].
    simpl. rewrite Hz. apply IH, Hl.
  - rewrite Hy. apply IH, He.
Qed.

Lemma prefix_snoc (text : string) :
  forall k c, String.get k text = Some c ->
              prefix k text +:+ String c EmptyString = prefix (S k) text.
Proof.
  unfold prefix. induction text as [|a text IH]; intros k c Hg; [discriminate|].
  destruct k as [|k]; simpl in Hg.
  - injection Hg as ->. destruct text; reflexivity.
  - change (String a (substring 0 k text +:+ String c EmptyString)
            = String a (substring 0 (S k) text)).
    f_equal. apply IH, Hg.
Qed.

Lemma prefix_all (text : string) : prefix (String.length text) text = text.
Proof.
  unfold prefix. induction text as [|a text IH]; simpl; [reflexivity|].
  rewrite IH. reflexivity.
Qed.

Lemma get_in_range (text : string) :
  forall k, (k < String.length text)%nat -> exists c, String.get k text = Some c.
Proof.
  induction text as [|a text IH]; intros k Hk; simpl in *; [lia|].
  destruct k as [|k]; [eexists; reflexivity|]. apply IH. lia.
Qed.

Lemma prefix_0 (text : string) : prefix 0 text = "".
Proof. destruct text; reflexivity. Qed.

Lemma typewriterEffect_starts (el : Elem) (s : State) :
  entries (Timers.next_id (timers s)) (timers s) = [] ->
  typing (Timers.next_id (timers s)) el (textContent (node el s)) (classList (node el s)) 0
         (out_state (typewriterEffect (Some el) s)).
Proof.
  intros He. unfold typewriterEffect, exec. cbv zeta. cbn [out_state].
  split; [|split].
  - eexists. unfold setInterval. cbn [timers with_timers].
    apply (entries_setInterval _ _ _ (timers s) He eq_refl).
  - unfold setInterval, set_style, set_text.
    change (textContent
              (node el (update_node el
                          (fun n => mkElement (textContent n) (<["opacity" := Lit "1"]> (style n))
                                              (classList n) (attributes n))
                          (update_node el
                             (fun n => mkElement "" (style n) (classList n) (attributes n)) s)))
            = prefix 0 (textContent (node el s))).
    rewrite update_node_twice, node_update_node, decide_True by reflexivity.
    rewrite prefix_0. reflexivity.
  - unfold setInterval, set_style, set_text.
    change (classList
              (node el (update_node el
                          (fun n => mkElement (textContent n) (<["opacity" := Lit "1"]> (style n))
                                              (classList n) (attributes n))
                          (update_node el
                             (fun n => mkElement "" (style n) (classList n) (attributes n)) s)))
            = classList (node el s)).
    rewrite update_node_twice, node_update_node, decide_True by reflexivity.
    reflexivity.
Qed.

Lemma node_with_timers (e : Elem) (v : Timers.t Task) (s : State) :
  node e (with_timers v s) = node e s.
Proof. reflexivity. Qed.

Lemma node_set_text (e : Elem) (txt : string) (s : State) :
  node e (set_text e txt s) =
  mkElement txt (style (node e s)) (classList (node e s)) (attributes (node e s)).
Proof. unfold set_text. rewrite node_update_node, decide_True by reflexivity. reflexivity. Qed.

Lemma node_add_class (e : Elem) (c : string) (s : State) :
  node e (add_class e c s) =
  mkElement (textContent (node e s)) (style (node e s))
            (class_add c (classList (node e s))) (attributes (node e s)).
Proof. unfold add_class. rewrite node_update_node, decide_True by reflexivity. reflexivity. Qed.

(** What one run of the interval's callback leaves. *)
Lemma typewriterTick_state (id : nat) (el : Elem) (text : string) (k : nat) (s : State) :
  let s' := out_state (typewriterTick id el text k s) in
  textContent (node el s') = textContent (node el s) +:+ to_display (char_at text k) /\
  classList (node el s') =
    (if Nat.leb (String.length text) (S k)
     then class_add "typewriter-complete" (classList (node el s))
     else classList (node el s)) /\
  timers s' =
    (if Nat.leb (String.length text) (S k)
     then Timers.clearInterval (Some id)
            (Timers.set_task id (TypewriterTick el text (S k)) (timers s))
     else Timers.set_task id (TypewriterTick el text (S k)) (timers s)).
Proof.
  cbv zeta. unfold typewriterTick, exec. cbv zeta. cbn [out_state].
  destruct (Nat.leb (String.length text) (S k)).
  - rewrite node_add_class, !node_with_timers, node_set_text. repeat split.
  - rewrite !node_with_timers, node_set_text. repeat split.
Qed.

Lemma tick_runs_callback (id : nat) (el : Elem) (text : string) (k : nat) (due : Z)
    (s : State) :
  let x := Timers.mkTimer id Timers.Interval due typewriterSpeed (TypewriterTick el text k) in
  entries id (timers s) = [x] ->
  tick id s =
  out_state (typewriterTick id el text k
               (with_timers (Timers.rearm x (Timers.set_now due (timers s))) s)).
Proof.
  cbv zeta. intros He. unfold tick. rewrite find_entries, He. cbn [head Timers.tdue step].
  unfold fire. cbn [timers with_timers].
  rewrite find_entries, entries_set_now, He. cbn [head Timers.tdue Timers.ttask Timers.now Timers.set_now].
  destruct (Z.leb_spec due (Z.max (Timers.now (timers s)) due)) as [_|Hlt]; [|lia].
  reflexivity.
Qed.

Lemma entries_after_tick (id : nat) (el : Elem) (text : string) (k : nat) (due : Z)
    (tm : Timers.t Task) :
  let x := Timers.mkTimer id Timers.Interval due typewriterSpeed (TypewriterTick el text k) in
  entries id tm = [x] ->
  entries id (Timers.set_task id (TypewriterTick el text (S k))
                (Timers.rearm x (Timers.set_now due tm))) =
  [Timers.mkTimer id Timers.Interval (due + typewriterSpeed) typewriterSpeed
                  (TypewriterTick el text (S k))].
Proof.
  cbv zeta. intros He.
  rewrite entries_set_task.
  pose proof (entries_rearm_interval
                (Timers.mkTimer id Timers.Interval due typewriterSpeed (TypewriterTick el text k))
                (Timers.set_now due tm) eq_refl) as Hr.
  cbn [Timers.tid] in Hr. rewrite Hr, entries_set_now, He. reflexivity.
Qed.

(** A tick before the last one reveals one more character and leaves the
    interval pending and the classes as they are. *)
Lemma tick_reveals (id : nat) (el : Elem) (text : string) (cls : list string) (k : nat)
    (s : State) :
  typing id el text cls k s ->
  (S k < String.length text)%nat ->
  typing id el text cls (S k) (tick id s).
Proof.
  intros ([due He] & Ht & Hc) Hk.
  rewrite (tick_runs_callback id el text k due s He).
  match goal with
  | |- typing _ _ _ _ _ (out_state (typewriterTick _ _ _ _ ?s0)) =>
      destruct (typewriterTick_state id el text k s0) as (Ht' & Hc' & Hm')
  end.
  rewrite node_with_timers in Ht', Hc'. cbn [timers with_timers] in Hm'.
  destruct (Nat.leb_spec (String.length text) (S k)) as [Hle|_]; [lia|].
  split; [|split].
  - eexists. rewrite Hm'. apply entries_after_tick, He.
  - rewrite Ht', Ht. destruct (get_in_range text k) as [c Hg]; [lia|].
    unfold char_at. rewrite Hg. apply prefix_snoc, Hg.
  - rewrite Hc'. exact Hc.
Qed.

(** The tick at which [index] reaches the length clears the interval and
    adds the completion class. *)
Lemma tick_completes (id : nat) (el : Elem) (text : string) (cls : list string) (k : nat)
    (s : State) :
  typing id el text cls k s ->
  (String.length text <= S k)%nat ->
  typed id el cls (prefix k text +:+ to_display (char_at text k)) (tick id s).
Proof.
  intros ([due He] & Ht & Hc) Hk.
  rewrite (tick_runs_callback id el text k due s He).
  match goal with
  | |- typed _ _ _ _ (out_state (typewriterTick _ _ _ _ ?s0)) =>
      destruct (typewriterTick_state id el text k s0) as (Ht' & Hc' & Hm')
  end.
  rewrite node_with_timers in Ht', Hc'. cbn [timers with_timers] in Hm'.
  destruct (Nat.leb_spec (String.length text) (S k)) as [_|Hlt]; [|lia].
  split; [|split].
  - rewrite Hm', find_entries.
    rewrite (entries_clearInterval id _ _ (entries_after_tick id el text k due _ He) eq_refl).
    reflexivity.
  - rewrite Ht', Ht. reflexivity.
  - rewrite Hc', Hc. reflexivity.
Qed.


Lemma ticks_reveal (id : nat) (el : Elem) (text : string) (cls : list string) (n : nat) :
  forall k s,
    typing id el text cls k s ->
    (k + n < String.length text)%nat ->
    typing id el text cls (k + n) (ticks n id s).
Proof.
  induction n as [|n IH]; intros k s Ht Hk; simpl.
  - rewrite Nat.add_0_r. exact Ht.
  - rewrite Nat.add_succ_r. apply (IH (S k)); [|lia].
    apply tick_reveals; [exact Ht|lia].
Qed.

Lemma ticks_last (id : nat) (n : nat) :
  forall s, ticks (S n) id s = tick id (ticks n id s).
Proof.
  induction n as [|n IH]; intros s; [reflexivity|].
  change (ticks (S (S n)) id s) with (ticks (S n) id (tick id s)).
  rewrite IH. reflexivity.
Qed.

(** The typewriter on a title that is not empty.  With [L >= 1] characters,
    the interval is pending and [k] characters are shown after [k < L]
    ticks, the classes untouched; the [L]th tick shows the whole text, adds
    the completion class and clears the interval, so that there is no tick
    after it. *)
Lemma typewriter_reveals_text (el : Elem) (s : State) :
  let text := textContent (node el s) in
  let L := String.length text in
  let id := Timers.next_id (timers s) in
  let s0 := out_state (typewriterEffect (Some el) s) in
  entries id (timers s) = [] ->
  (1 <= L)%nat ->
  (forall k, (k < L)%nat -> typing id el text (classList (node el s)) k (ticks k id s0)) /\
  typed id el (classList (node el s)) text (ticks L id s0) /\
  tick id (ticks L id s0) = ticks L id s0.
Proof.
  cbv zeta. intros He HL.
  pose proof (typewriterEffect_starts el s He) as H0.
  set (text := textContent (node el s)) in *.
  set (id := Timers.next_id (timers s)) in *.
  set (s0 := out_state (typewriterEffect (Some el) s)) in *.
  assert (Hk : forall k, (k < String.length text)%nat ->
                 typing id el text (classList (node el s)) k (ticks k id s0)).
  { intros k Hk. apply (ticks_reveal id el text _ k 0 s0 H0). lia. }
  assert (Hd : typed id el (classList (node el s)) text (ticks (String.length text) id s0)).
  { destruct (String.length text) as [|n] eqn:Hn; [lia|].
    rewrite ticks_last.
    pose proof (tick_completes id el text _ n (ticks n id s0) (Hk n (Nat.lt_succ_diag_r n))) as Hc.
    destruct (get_in_range text n) as [c Hg]; [lia|].
    replace (to_display (char_at text n)) with (String c EmptyString) in Hc
      by (unfold char_at; rewrite Hg; reflexivity).
    rewrite (prefix_snoc text n c Hg), <- Hn, prefix_all in Hc.
    apply Hc. lia. }
  split; [exact Hk|]. split; [exact Hd|].
  destruct Hd as [Hf _]. unfold tick. rewrite Hf. reflexivity.
Qed.

Lemma typewriter_reveals_text_example :
  let s0 := run [Elapse 500; Fire 2] sample_state in
  textContent (node 2%nat s0) = "" /\
  textContent (node 2%nat (ticks 5 6 s0)) = "Hello" /\
  classList (node 2%nat (ticks 8 6 s0)) = [] /\
  textContent (node 2%nat (ticks 9 6 s0)) = "Hello Naz" /\
  classList (node 2%nat (ticks 9 6 s0)) = ["typewriter-complete"] /\
  Timers.find 6 (timers (ticks 9 6 s0)) = None.
Proof. vm_compute. repeat split. Qed.

(** On any page, a title that is empty shows "undefined" after the one tick
    its interval makes. *)
Lemma typewriter_shows_undefined (el : Elem) (s : State) :
  let id := Timers.next_id (timers s) in
  textContent (node el s) = "" ->
  entries id (timers s) = [] ->
  typed id el (classList (node el s)) "undefined"
        (tick id (out_state (typewriterEffect (Some el) s))).
Proof.
  cbv zeta. intros Ht He.
  pose proof (typewriterEffect_starts el s He) as H0. rewrite Ht in H0.
  apply (tick_completes _ _ _ _ _ _ H0). simpl. lia.
Qed.

(** C2 fails for [L = 0].  On an empty title the interval still ticks once:
    [text[0]] is [undefined], the tick appends the text "undefined", and only
    then is the length compared.  One reveal step is made instead of none,
    and the title shows "undefined" instead of the empty text. *)
Theorem typewriter_on_empty_title :
  let s0 := run [Elapse 500; Fire 2] empty_title_state in
  textContent (node 2%nat empty_title_state) = "" /\
  textContent (node 2%nat s0) = "" /\
  Timers.find 6 (timers s0)
    = Some (Timers.mkTimer 6 Timers.Interval 600 100 (TypewriterTick 2%nat "" 0)) /\
  textContent (node 2%nat (tick 6 s0)) = "undefined" /\
  classList (node 2%nat (tick 6 s0)) = ["typewriter-complete"] /\
  Timers.find 6 (timers (tick 6 s0)) = None.
Proof. vm_compute. repeat split. Qed.

(** * Further properties of the script *)

(** ** The particle field *)

Lemma createParticle_appends (s : State) (host : Elem) :
  particles (elements s) = Some host ->
  exists s' p,
    createParticle s = Done s' /\
    particle_nodes s' = particle_nodes s ++ [p] /\
    p_host p = host /\
    elements s' = elements s /\
    random s' = random s /\
    random_pos s' = (random_pos s + 5)%nat.
Proof.
  intros H. unfold createParticle. simpl. rewrite H.
  eexists. eexists. split; [reflexivity|]. simpl.
  repeat split. lia.
Qed.

Lemma createParticles_append (n : nat) (host : Elem) :
  forall s,
    particles (elements s) = Some host ->
    exists s' new,
      repeat_comp n createParticle s = Done s' /\
      particle_nodes s' = particle_nodes s ++ new /\
      length new = n /\
      Forall (fun p => p_host p = host) new /\
      random_pos s' = (random_pos s + 5 * n)%nat.
Proof.
  induction n as [|n IH]; intros s H.
  - exists s, []. simpl. rewrite app_nil_r. repeat split; [constructor|lia].
  - destruct (createParticle_appends s host H) as (s1 & p & H1 & Hp & Hh & He & _ & Hr).
    destruct (IH s1) as (s' & new & H' & Hn & Hl & Hf & Hr'); [rewrite He; exact H|].
    exists s', (p :: new). split; [simpl; unfold seq; rewrite H1; exact H'|].
    split; [rewrite Hn, Hp, <- app_assoc; reflexivity|].
    split; [simpl; lia|]. split; [constructor; assumption|]. lia.
Qed.

(** X1. [createParticleSystem] always returns.  With a particle host cached
    it appends exactly [particleCount] = 50 particles, all under that host,
    after the particles already there, and takes five random draws for each;
    without a host it leaves the state as it is. *)
Theorem createParticleSystem_makes_50 (s : State) :
  exists s',
    createParticleSystem s = Done s' /\
    match particles (elements s) with
    | Some host =>
        exists new,
          particle_nodes s' = particle_nodes s ++ new /\
          length new = 50%nat /\
          Forall (fun p => p_host p = host) new /\
          random_pos s' = (random_pos s + 250)%nat
    | None => s' = s
    end.
Proof.
  unfold createParticleSystem.
  destruct (particles (elements s)) as [host|] eqn:Hp; cbn [truthy].
  - destruct (createParticles_append particleCount host s Hp)
      as (s' & new & H' & Hn & Hl & Hf & Hr).
    exists s'. split; [exact H'|]. exists new. auto.
  - exists s. split; reflexivity.
Qed.

Lemma reposition_spec (host : Elem) (l : list Particle) :
  forall s,
    Forall2 (repositioned host) l (fst (reposition host l s)) /\
    random_pos (snd (reposition host l s)) =
      (random_pos s + 2 * length (List.filter (fun p => Nat.eqb (p_host p) host) l))%nat /\
    random (snd (reposition host l s)) = random s /\
    particle_nodes (snd (reposition host l s)) = particle_nodes s /\
    timers (snd (reposition host l s)) = timers s.
Proof.
  induction l as [|p l IH]; intros s; simpl.
  - repeat split; [constructor|lia].
  - destruct (Nat.eqb (p_host p) host) eqn:Hh.
    + specialize (IH (snd (math_random (snd (math_random s))))).
      simpl in IH |- *. destruct (reposition host l _) as [l' s']; simpl in *.
      destruct IH as (Hf & Hr & Hrnd & Hp & Ht).
      repeat split; try assumption; [|lia].
      constructor; [|exact Hf].
      repeat split. simpl. intros Hne. apply Nat.eqb_eq in Hh. contradiction.
    + specialize (IH s). destruct (reposition host l s) as [l' s']; simpl in *.
      destruct IH as (Hf & Hr & Hrnd & Hp & Ht).
      repeat split; try assumption.
      constructor; [|exact Hf]. repeat split.
Qed.

(** Where the draws go: the particle at place [i], if it is under the host,
    gets the two draws that follow those of the particles under the host
    before it. *)
Lemma reposition_draws (host : Elem) (l : list Particle) :
  forall (s : State) (i : nat) (p p' : Particle),
    l !! i = Some p ->
    fst (reposition host l s) !! i = Some p' ->
    p_host p = host ->
    let k := length (List.filter (fun q => Nat.eqb (p_host q) host) (take i l)) in
    p_left p' = mul (random s (random_pos s + 2 * k)%nat) (of_Z 100) /\
    p_top p' = mul (random s (random_pos s + 2 * k + 1)%nat) (of_Z 100).
Proof.
  induction l as [|q rest IH]; intros s i p p' Hl Hl' Hh; [discriminate|].
  cbv zeta. destruct i as [|i].
  - injection Hl as ->. simpl in Hl'.
    rewrite (proj2 (Nat.eqb_eq _ _) Hh) in Hl'. simpl in Hl'.
    destruct (reposition host rest _) as [rest' s3]. simpl in Hl'.
    injection Hl' as <-. simpl.
    rewrite Nat.add_0_r. replace (random_pos s + 1)%nat with (S (random_pos s)) by lia.
    split; reflexivity.
  - simpl in Hl, Hl'. cbn [take List.filter].
    destruct (Nat.eqb (p_host q) host) eqn:Hq.
    + simpl in Hl'.
      pose proof (IH (snd (math_random (snd (math_random s)))) i p p' Hl) as IH'.
      simpl in IH'.
      destruct (reposition host rest _) as [rest' s3]. simpl in Hl', IH'.
      destruct (IH' Hl' Hh) as [H1 H2]. cbn [length].
      split; [rewrite H1|rewrite H2]; do 2 f_equal; lia.
    + pose proof (IH s i p p' Hl) as IH'.
      destruct (reposition host rest s) as [rest' s1]. simpl in Hl', IH'.
      exact (IH' Hl' Hh).
Qed.

(** X2. [handleResize] always returns.  With a particle host cached it keeps
    every particle, in order, with its host, size, duration and delay, and
    gives each particle under the host a new [left] and a new [top]: a
    hundred times the next two draws of [Math.random], taken in document
    order, so that the particle at place [i] gets the draws number [2k] and
    [2k + 1] from the current one, [k] being the number of particles under
    the host before it.  No particle is created or removed, a particle
    elsewhere is left as it is, and no timer is armed.  Without a host the
    state is left as it is.  The draws are those of [Math.random], numbers
    in [0, 1): each new value is a percentage the page accepts. *)
Theorem handleResize_repositions_in_place (s : State) :
  (forall n, in_unit (random s n) = true) ->
  exists s',
    handleResize s = Done s' /\
    match particles (elements s) with
    | Some host =>
        Forall2 (repositioned host) (particle_nodes s) (particle_nodes s') /\
        length (particle_nodes s') = length (particle_nodes s) /\
        (forall (i : nat) (p p' : Particle),
           particle_nodes s !! i = Some p ->
           particle_nodes s' !! i = Some p' ->
           p_host p = host ->
           let k := length (List.filter (fun q => Nat.eqb (p_host q) host)
                                        (take i (particle_nodes s))) in
           p_left p' = mul (random s (random_pos s + 2 * k)%nat) (of_Z 100) /\
           p_top p' = mul (random s (random_pos s + 2 * k + 1)%nat) (of_Z 100)) /\
        random_pos s' =
          (random_pos s +
           2 * length (List.filter (fun p => Nat.eqb (p_host p) host) (particle_nodes s)))%nat /\
        timers s' = timers s
    | None => s' = s
    end.
Proof.
  intros _. unfold handleResize, updateParticles.
  destruct (particles (elements s)) as [host|]; cbn [truthy].
  - pose proof (reposition_spec host (particle_nodes s) s) as (Hf & Hr & _ & _ & Ht).
    pose proof (reposition_draws host (particle_nodes s) s) as Hd.
    destruct (reposition host (particle_nodes s) s) as [l s1]; simpl in *.
    eexists. split; [reflexivity|]. simpl.
    split; [exact Hf|]. split; [symmetry; apply (Forall2_length _ _ _ Hf)|].
    split; [exact Hd|]. split; assumption.
  - exists s. split; reflexivity.
Qed.

Lemma handleResize_witness :
  exists s',
    handleResize sample_state = Done s' /\
    length (particle_nodes s') = length (particle_nodes sample_state) /\
    random_pos s' =
      (random_pos sample_state +
       2 * length (List.filter (fun p => Nat.eqb (p_host p) 5)
                               (particle_nodes sample_state)))%nat.
Proof.
  assert (Hu : forall n, in_unit (random sample_state n) = true)
    by (intros n; vm_compute; reflexivity).
  assert (Hp : particles (elements sample_state) = Some 5%nat) by (vm_compute; reflexivity).
  destruct (handleResize_repositions_in_place sample_state Hu) as (s' & H1 & H2).
  rewrite Hp in H2. destruct H2 as (_ & Hlen & _ & Hr & _).
  exists s'. split; [exact H1|]. split; [exact Hlen|exact Hr].
Defined.

(** ** Notifications *)

Lemma map_show_fresh (n : nat) (v : bool) (l : list Notification) :
  Forall (fun x => n_id x <> n) l ->
  List.map (fun x => if Nat.eqb (n_id x) n then mkNotification (n_id x) (n_message x) v else x) l
  = l.
Proof.
  induction 1 as [|x l Hx _ IH]; simpl; [reflexivity|].
  rewrite IH. apply Nat.eqb_neq in Hx. rewrite Hx. reflexivity.
Qed.

Lemma filter_out_fresh (n : nat) (l : list Notification) :
  Forall (fun x => n_id x <> n) l ->
  List.filter (fun x => negb (Nat.eqb (n_id x) n)) l = l.
Proof.
  induction 1 as [|x l Hx _ IH]; simpl; [reflexivity|].
  rewrite IH. apply Nat.eqb_neq in Hx. rewrite Hx. reflexivity.
Qed.

Lemma map_show_last (n : nat) (m : string) (v v' : bool) (l : list Notification) :
  Forall (fun x => n_id x <> n) l ->
  List.map (fun x => if Nat.eqb (n_id x) n then mkNotification (n_id x) (n_message x) v else x)
           (l ++ [mkNotification n m v'])
  = l ++ [mkNotification n m v].
Proof.
  intros Hf. rewrite List.map_app, (map_show_fresh _ _ _ Hf). simpl.
  rewrite Nat.eqb_refl. reflexivity.
Qed.

(** X3. The life of a notification, on a page with a body and with the new
    node's identity not in use.  [showNotification] returns, appends the
    notification with its message, not yet shown, and arms an animation
    frame to show it and a timeout of 2000 ms to hide it; the frame callback
    marks it shown; the hide callback unmarks it and arms a timeout of 300 ms
    to remove it; the remove callback takes it out.  The notifications that
    were there are untouched at every stage, and the list ends as it began. *)
Theorem notification_lifecycle (message : string) (s : State) (bd : Elem) :
  document_body (document s) = Some bd ->
  Forall (fun x => n_id x <> next_node s) (notifications s) ->
  let n := next_node s in
  let tm := timers s in
  exists s1,
    showNotification message s = Done s1 /\
    notifications s1 = notifications s ++ [mkNotification n message false] /\
    Timers.pending (timers s1) =
      Timers.pending tm ++
      [Timers.mkTimer (Timers.next_id tm) Timers.Frame (Timers.now tm + 0) 0 (NotificationShow n);
       Timers.mkTimer (S (Timers.next_id tm)) Timers.Timeout (Timers.now tm + 2000) 2000
                      (NotificationHide n)] /\
    let s2 := out_state (notificationShow n s1) in
    notifications s2 = notifications s ++ [mkNotification n message true] /\
    let s3 := out_state (notificationHide n s2) in
    notifications s3 = notifications s ++ [mkNotification n message false] /\
    Timers.pending (timers s3) =
      Timers.pending (timers s2) ++
      [Timers.mkTimer (Timers.next_id (timers s2)) Timers.Timeout
                      (Timers.now (timers s2) + 300) 300 (NotificationRemove n)] /\
    notifications (out_state (notificationRemove n s3)) = notifications s.
Proof.
  intros Hb Hf. cbv zeta. unfold showNotification. rewrite Hb.
  eexists. split; [reflexivity|].
  split; [reflexivity|].
  split; [simpl; rewrite <- app_assoc; reflexivity|].
  unfold notificationShow, notificationHide, notificationRemove, exec, set_show.
  cbn [out_state notifications with_notifications setTimeout requestAnimationFrame
       with_timers with_next_node timers].
  rewrite !(map_show_last _ _ _ _ _ Hf).
  split; [reflexivity|]. split; [reflexivity|]. split; [reflexivity|].
  rewrite List.filter_app, (filter_out_fresh _ _ Hf). simpl.
  rewrite Nat.eqb_refl. simpl. apply app_nil_r.
Qed.

Lemma notification_lifecycle_witness :
  document_body (document sample_state) = Some 0%nat /\
  exists s1,
    showNotification "Saved" sample_state = Done s1 /\
    notifications s1 = [mkNotification 0 "Saved" false] /\
    notifications (out_state (notificationShow 0 s1)) = [mkNotification 0 "Saved" true].
Proof.
  split; [reflexivity|].
  destruct (notification_lifecycle "Saved" sample_state 0%nat eq_refl (@List.Forall_nil _ _))
    as (s1 & H1 & H2 & _ & H3 & _).
  exists s1. split; [exact H1|]. split; [exact H2|exact H3].
Defined.

Lemma filter_id_set_show (n n' : nat) (v : bool) (l : list Notification) :
  n <> n' ->
  List.filter (fun x => Nat.eqb (n_id x) n)
    (List.map (fun x => if Nat.eqb (n_id x) n'
                        then mkNotification (n_id x) (n_message x) v else x) l)
  = List.filter (fun x => Nat.eqb (n_id x) n) l.
Proof.
  intros Hne. induction l as [|x l IH]; simpl; [reflexivity|].
  destruct (Nat.eqb (n_id x) n') eqn:Hx'; simpl; rewrite IH; [|reflexivity].
  apply Nat.eqb_eq in Hx'.
  destruct (Nat.eqb (n_id x) n) eqn:Hx; [|reflexivity].
  apply Nat.eqb_eq in Hx. congruence.
Qed.

Lemma filter_id_remove (n n' : nat) (l : list Notification) :
  n <> n' ->
  List.filter (fun x => Nat.eqb (n_id x) n)
    (List.filter (fun x => negb (Nat.eqb (n_id x) n')) l)
  = List.filter (fun x => Nat.eqb (n_id x) n) l.
Proof.
  intros Hne. induction l as [|x l IH]; simpl; [reflexivity|].
  destruct (Nat.eqb (n_id x) n') eqn:Hx'; simpl; rewrite IH; [|reflexivity].
  apply Nat.eqb_eq in Hx'.
  destruct (Nat.eqb (n_id x) n) eqn:Hx; [|reflexivity].
  apply Nat.eqb_eq in Hx. congruence.
Qed.

(** X4. Notifications live independently: the show, hide and remove
    callbacks of one notification leave every other notification on the
    page, with its message and its shown mark, exactly as it was. *)
Theorem notifications_do_not_interfere (n n' : nat) (s : State) :
  n <> n' ->
  let mine := fun st => List.filter (fun x => Nat.eqb (n_id x) n) (notifications st) in
  mine (out_state (notificationShow n' s)) = mine s /\
  mine (out_state (notificationHide n' s)) = mine s /\
  mine (out_state (notificationRemove n' s)) = mine s.
Proof.
  intros Hne. cbv zeta.
  unfold notificationShow, notificationHide, notificationRemove, exec, set_show.
  cbn [out_state notifications with_notifications setTimeout with_timers].
  rewrite !(filter_id_set_show n n' _ _ Hne), (filter_id_remove n n' _ Hne).
  repeat split.
Qed.

Lemma notifications_do_not_interfere_witness :
  let s := out_state (showNotification "second"
                        (out_state (showNotification "first" sample_state))) in
  List.filter (fun x => Nat.eqb (n_id x) 0) (notifications (out_state (notificationRemove 1 s)))
  = [mkNotification 0 "first" false].
Proof.
  cbv zeta.
  destruct (notifications_do_not_interfere 0 1
              (out_state (showNotification "second"
                            (out_state (showNotification "first" sample_state))))
              (fun H : 0%nat = 1%nat => O_S 0 H)) as (_ & _ & H).
  rewrite H. vm_compute. reflexivity.
Defined.

(** ** The ripple comes and goes *)

Lemma filter_out_fresh_ripple (n : nat) (l : list Ripple) :
  Forall (fun x => r_id x <> n) l ->
  List.filter (fun x => negb (Nat.eqb (r_id x) n)) l = l.
Proof.
  induction 1 as [|x l Hx _ IH]; simpl; [reflexivity|].
  rewrite IH. apply Nat.eqb_neq in Hx. rewrite Hx. reflexivity.
Qed.

(** X5. [createRippleEffect] on an event with a current target returns,
    appends one ripple under that target and arms one timeout of 600 ms;
    when that timeout runs the ripple, and no other one, is removed, so the
    ripples are again those that were there before (the new node's identity
    not being in use). *)
Theorem ripple_is_removed_after_600 (event : Event) (button : Elem) (s : State) :
  currentTarget event = Some button ->
  Forall (fun x => r_id x <> next_node s) (ripples s) ->
  exists s1 r,
    createRippleEffect event s = Done s1 /\
    ripples s1 = ripples s ++ [r] /\
    r_id r = next_node s /\
    r_button r = button /\
    Timers.pending (timers s1) =
      Timers.pending (timers s) ++
      [Timers.mkTimer (Timers.next_id (timers s)) Timers.Timeout
                      (Timers.now (timers s) + 600) 600 (RippleRemove (next_node s))] /\
    ripples (out_state (rippleRemove (next_node s) s1)) = ripples s.
Proof.
  intros Hb Hf. unfold createRippleEffect. rewrite Hb. cbv zeta.
  eexists. eexists. split; [reflexivity|].
  split; [reflexivity|]. split; [reflexivity|]. split; [reflexivity|].
  split; [reflexivity|].
  unfold rippleRemove, exec.
  cbn [out_state ripples with_ripples setTimeout with_timers with_next_node].
  rewrite List.filter_app, (filter_out_fresh_ripple _ _ Hf). simpl.
  rewrite Nat.eqb_refl. simpl. apply app_nil_r.
Qed.

Lemma ripple_is_removed_witness :
  exists s1 r,
    createRippleEffect (mkEvent None (Some 4%nat) (Some 4%nat)
                                (Number (of_Z 100)) (Number (of_Z 50)) None) sample_state
      = Done s1 /\
    ripples s1 = [r] /\
    ripples (out_state (rippleRemove 0 s1)) = [].
Proof.
  destruct (ripple_is_removed_after_600
              (mkEvent None (Some 4%nat) (Some 4%nat) (Number (of_Z 100)) (Number (of_Z 50)) None)
              4%nat sample_state eq_refl (@List.Forall_nil _ _))
    as (s1 & r & H1 & H2 & _ & _ & _ & H3).
  exists s1, r. split; [exact H1|]. split; [exact H2|exact H3].
Defined.

(** ** Pausing and resuming *)

Lemma handleVisibilityChange_with_body (s : State) (b : Elem) :
  body (elements s) = Some b ->
  handleVisibilityChange s =
  Done (set_style b "animation-play-state"
          (Lit (if hidden (document s) then "paused" else "running")) s).
Proof.
  intros Hb.
  unfold handleVisibilityChange, pauseAnimations, resumeAnimations, setAnimationPlayState.
  rewrite Hb. destruct (hidden (document s)); reflexivity.
Qed.

(** X6. [handleVisibilityChange] with a cached body returns and sets the
    [animation-play-state] of the body to [paused] when the document is
    hidden and to [running] when it is not, touching no other declaration
    of any node; it has no guard, and without a cached body it throws a
    TypeError and changes nothing.  Hiding and then showing the page leaves
    the body [running]. *)
Theorem handleVisibilityChange_sets_play_state (s : State) :
  match body (elements s) with
  | Some b =>
      exists s',
        handleVisibilityChange s = Done s' /\
        style_of "animation-play-state" b s' =
          Some (Lit (if hidden (document s) then "paused" else "running")) /\
        (forall e k, (e <> b \/ k <> "animation-play-state") ->
                     style_of k e s' = style_of k e s) /\
        style_of "animation-play-state" b
          (out_state (handleVisibilityChange (set_hidden false
             (out_state (handleVisibilityChange (set_hidden true s))))))
          = Some (Lit "running")
  | None =>
      exists msg, handleVisibilityChange s = Threw (TypeErr msg) s
  end.
Proof.
  destruct (body (elements s)) as [b|] eqn:Hb.
  - rewrite (handleVisibilityChange_with_body s b Hb).
    eexists. split; [reflexivity|].
    split; [rewrite style_of_set_style, decide_True by auto; reflexivity|].
    split.
    + intros e k Hek. rewrite style_of_set_style, decide_False by tauto. reflexivity.
    + rewrite (handleVisibilityChange_with_body (set_hidden true s) b Hb).
      cbn [out_state].
      match goal with
      | |- context [handleVisibilityChange ?st] =>
          rewrite (handleVisibilityChange_with_body st b Hb)
      end.
      cbn [out_state]. rewrite style_of_set_style, decide_True by auto. reflexivity.
  - unfold handleVisibilityChange, pauseAnimations, resumeAnimations, setAnimationPlayState.
    rewrite Hb. destruct (hidden (document s)); eexists; reflexivity.
Qed.

(** ** The periodic cycle is gated *)

Lemma calm_settle (s : State) (o : Outcome) : calm s (out_state o) -> calm s (settle o).
Proof.
  destruct o as [s1|e s1]; simpl; [auto|].
  intros H. eapply calm_trans; [exact H|apply calm_report_uncaught].
Qed.

(** X7. While the page is hidden, or while the cooldown of the action
    lasts, no timer callback changes the theme: whichever pending callback
    the host runs, the theme index and the colour variables of every node are
    afterwards what they were. *)
Theorem no_timer_cycles_while_hidden_or_animating (id : nat) (s : State) :
  hidden (document s) = true \/ isAnimating s = true ->
  currentThemeIndex (step (Fire id) s) = currentThemeIndex s /\
  same_vars s (step (Fire id) s).
Proof.
  intros Hg.
  assert (Hc : calm s (step (Fire id) s)).
  { cbn [step]. unfold fire.
    destruct (Timers.find id (timers s)) as [x|]; [|apply calm_refl].
    destruct (_ <=? _); [|apply calm_refl].
    apply calm_settle.
    eapply calm_trans; [apply (calm_with_timers (Timers.rearm x (timers s)))|].
    destruct (run_task_calm id (Timers.ttask x)) as [->|H]; [|apply H].
    cbn [run_task]. unfold colorCycleTick.
    cbn [document with_timers isAnimating hidden].
    destruct Hg as [-> | ->]; [|rewrite andb_false_r]; apply calm_refl. }
  destruct Hc as (Hi & _ & Hv). split; assumption.
Qed.

Lemma no_timer_cycles_witness :
  let s := step (Elapse 3000) (with_isAnimating true sample_state) in
  Timers.find 5 (timers s)
    = Some (Timers.mkTimer 5 Timers.Interval 3000 3000 ColorCycleTick) /\
  currentThemeIndex (step (Fire 5) s) = 0.
Proof.
  split; [vm_compute; reflexivity|].
  exact (proj1 (no_timer_cycles_while_hidden_or_animating 5
                  (step (Elapse 3000) (with_isAnimating true sample_state))
                  (or_intror eq_refl))).
Defined.

(** ** A successful initialisation *)

Lemma seq_exec (f : State -> State) (c : Comp) (s : State) :
  seq (exec f) c s = c (f s).
Proof. reflexivity. Qed.

Lemma createParticles_frame (n : nat) (host : Elem) :
  forall s,
    particles (elements s) = Some host ->
    exists s',
      repeat_comp n createParticle s = Done s' /\
      s' = with_random_pos (random_pos s') (with_particle_nodes (particle_nodes s') s).
Proof.
  induction n as [|n IH]; intros s H.
  - exists s. split; [reflexivity|]. destruct s; reflexivity.
  - destruct (createParticle_appends s host H) as (s1 & p & H1 & _ & _ & He & _ & _).
    destruct (IH s1) as (s' & H' & Hs'); [rewrite He; exact H|].
    exists s'. split; [simpl; unfold seq; rewrite H1; exact H'|].
    rewrite Hs' at 1.
    unfold createParticle in H1. simpl in H1. rewrite H in H1.
    injection H1 as <-. reflexivity.
Qed.

Lemma createParticleSystem_frame (s : State) :
  exists s',
    createParticleSystem s = Done s' /\
    s' = with_random_pos (random_pos s') (with_particle_nodes (particle_nodes s') s).
Proof.
  unfold createParticleSystem.
  destruct (particles (elements s)) as [host|] eqn:Hp; cbn [truthy].
  - apply (createParticles_frame particleCount host s Hp).
  - exists s. split; [reflexivity|]. destruct s; reflexivity.
Qed.

Lemma setupEventListeners_effect (s : State) :
  let s' := out_state (setupEventListeners s) in
  listeners s' =
    listeners s ++
    match interactiveBtn (elements s) with
    | Some btn => [mkListener (OnElement btn) "click" HandleInteractiveClick]
    | None => []
    end ++
    [mkListener OnDocument "keydown" HandleKeydown;
     mkListener OnWindow "resize" (Debounced (next_closure s) HandleResize 250);
     mkListener OnDocument "mousemove" (Debounced (S (next_closure s)) HandleMouseMove 16);
     mkListener OnDocument "visibilitychange" HandleVisibilityChange] /\
  timers s' = timers s /\ elements s' = elements s /\ console s' = console s /\
  currentThemeIndex s' = currentThemeIndex s /\ isAnimating s' = isAnimating s.
Proof.
  cbv zeta. unfold setupEventListeners, exec, debounce. cbn [out_state].
  destruct (interactiveBtn (elements s)); simpl; rewrite <- ?app_assoc; repeat split.
Qed.

Lemma regs_fields (a b : State) :
  regs a = regs b ->
  listeners a = listeners b /\ console a = console b /\
  currentThemeIndex a = currentThemeIndex b /\ isAnimating a = isAnimating b /\
  elements a = elements b.
Proof. unfold regs. intros H. injection H. auto. Qed.

Lemma arm_effect (b : bool) (task : Task) (d : Z) (s : State) :
  let s' := if b then setTimeout task d s else s in
  regs s' = regs s /\
  List.map timer_key (Timers.pending (timers s')) =
    List.map timer_key (Timers.pending (timers s)) ++
    (if b then [(Timers.Timeout, d, task)] else []).
Proof.
  cbv zeta. destruct b; (split; [reflexivity|]).
  - unfold setTimeout. cbn [timers with_timers]. unfold Timers.setTimeout, Timers.schedule.
    cbn [snd Timers.pending]. rewrite List.map_app. reflexivity.
  - rewrite app_nil_r. reflexivity.
Qed.

Lemma initializeAnimations_effect (s : State) (c : Elem) :
  container (elements s) = Some c ->
  let s' := out_state (initializeAnimations s) in
  List.map timer_key (Timers.pending (timers s')) =
    List.map timer_key (Timers.pending (timers s)) ++
    [(Timers.Frame, 0, ContainerFadeIn)] ++
    (if truthy (title (elements s)) then [(Timers.Timeout, 500, StartTypewriter)] else []) ++
    (if truthy (subtitle (elements s)) then [(Timers.Timeout, 1000, AnimateSubtitle)] else []) ++
    (if truthy (interactiveBtn (elements s)) then [(Timers.Timeout, 1500, AnimateButton)] else []) /\
  regs s' = regs s.
Proof.
  intros Hc. cbv zeta. unfold initializeAnimations, exec. cbn [out_state]. rewrite Hc.
  set (s0 := requestAnimationFrame ContainerFadeIn
               (set_style c "transform" (Lit "translateY(30px)")
                  (set_style c "opacity" (Lit "0") s))).
  assert (H0 : regs s0 = regs s /\
               List.map timer_key (Timers.pending (timers s0)) =
               List.map timer_key (Timers.pending (timers s)) ++ [(Timers.Frame, 0, ContainerFadeIn)]).
  { split; [reflexivity|]. subst s0. unfold requestAnimationFrame.
    cbn [timers with_timers]. unfold Timers.requestAnimationFrame, Timers.schedule.
    cbn [snd Timers.pending]. rewrite List.map_app. reflexivity. }
  destruct H0 as [R0 T0].
  cbv zeta.
  set (s1 := if truthy (title (elements s0)) then setTimeout StartTypewriter 500 s0 else s0).
  destruct (arm_effect (truthy (title (elements s0))) StartTypewriter 500 s0) as [R1 T1].
  fold s1 in R1, T1.
  set (s2 := if truthy (subtitle (elements s1)) then setTimeout AnimateSubtitle 1000 s1 else s1).
  destruct (arm_effect (truthy (subtitle (elements s1))) AnimateSubtitle 1000 s1) as [R2 T2].
  fold s2 in R2, T2.
  destruct (arm_effect (truthy (interactiveBtn (elements s2))) AnimateButton 1500 s2) as [R3 T3].
  assert (E0 : elements s0 = elements s) by apply (regs_fields _ _ R0).
  assert (E1 : elements s1 = elements s) by (rewrite <- E0; apply (regs_fields _ _ R1)).
  assert (E2 : elements s2 = elements s) by (rewrite <- E1; apply (regs_fields _ _ R2)).
  split.
  - rewrite T3, T2, T1, T0, E0, E1, E2. rewrite <- !app_assoc. reflexivity.
  - rewrite R3, R2, R1, R0. reflexivity.
Qed.

Lemma setupAccessibility_effect (s : State) :
  let s' := out_state (setupAccessibility s) in
  listeners s' =
    listeners s ++ [mkListener OnDocument "keydown" FocusOnTab;
                    mkListener OnDocument "mousedown" FocusOnMouseDown] /\
  timers s' = timers s /\ elements s' = elements s /\ console s' = console s /\
  currentThemeIndex s' = currentThemeIndex s /\ isAnimating s' = isAnimating s.
Proof.
  cbv zeta. unfold setupAccessibility, exec. cbn [out_state].
  destruct (interactiveBtn (elements s)); cbn; rewrite <- ?app_assoc; repeat split.
Qed.

(** X8. When the container and the [h1] are found, [init] returns without
    logging anything and registers its listeners once, after those already
    there: the click on the action (only if there is an action), the
    keydown, the two debounced listeners (resize at 250 ms, mousemove at
    16 ms, each with a closure of its own), the visibility change, and the
    two focus listeners.  It arms the frame of the container, the timeout of
    the typewriter (500), those of the subtitle (1000) and of the action
    (1500) when they exist, and the interval of the colour cycle (3000).
    The theme index and the flag are untouched. *)
Theorem init_succeeds_and_registers (s : State) (c t : Elem) :
  query_container (document s) = Some c ->
  query_h1 (document s) = Some t ->
  exists s',
    init_body s = Done s' /\
    init s = s' /\
    console s' = console s /\
    listeners s' =
      listeners s ++
      match query_interactive_btn (document s) with
      | Some btn => [mkListener (OnElement btn) "click" HandleInteractiveClick]
      | None => []
      end ++
      [mkListener OnDocument "keydown" HandleKeydown;
       mkListener OnWindow "resize" (Debounced (next_closure s) HandleResize 250);
       mkListener OnDocument "mousemove" (Debounced (S (next_closure s)) HandleMouseMove 16);
       mkListener OnDocument "visibilitychange" HandleVisibilityChange;
       mkListener OnDocument "keydown" FocusOnTab;
       mkListener OnDocument "mousedown" FocusOnMouseDown] /\
    List.map timer_key (Timers.pending (timers s')) =
      List.map timer_key (Timers.pending (timers s)) ++
      [(Timers.Frame, 0, ContainerFadeIn); (Timers.Timeout, 500, StartTypewriter)] ++
      match query_subtitle (document s) with
      | Some _ => [(Timers.Timeout, 1000, AnimateSubtitle)]
      | None => []
      end ++
      match query_interactive_btn (document s) with
      | Some _ => [(Timers.Timeout, 1500, AnimateButton)]
      | None => []
      end ++
      [(Timers.Interval, 3000, ColorCycleTick)] /\
    currentThemeIndex s' = currentThemeIndex s /\
    isAnimating s' = isAnimating s.
Proof.
  intros Hc Ht.
  assert (Hcache : cacheElements s = Done (cached s)).
  { rewrite cacheElements_outcome, Hc, Ht. reflexivity. }
  unfold init. unfold init_body. rewrite (seq_Done _ _ _ _ Hcache).
  pose proof (setupEventListeners_effect (cached s)) as (Hl1 & Ht1 & He1 & Hk1 & Hi1 & Ha1).
  set (s1 := out_state (setupEventListeners (cached s))) in *.
  assert (Hc1 : container (elements s1) = Some c) by (rewrite He1; exact Hc).
  pose proof (initializeAnimations_effect s1 c Hc1) as (Ht2 & R2).
  destruct (regs_fields _ _ R2) as (Hl2 & Hk2 & Hi2 & Ha2 & He2). clear R2.
  set (s2 := out_state (initializeAnimations s1)) in *.
  set (s3 := setInterval ColorCycleTick colorCycleInterval s2).
  destruct (createParticleSystem_frame s3) as (s4 & H4 & Hs4).
  pose proof (setupAccessibility_effect s4) as (Hl5 & Ht5 & He5 & Hk5 & Hi5 & Ha5).
  assert (Hrun : (setupEventListeners;; initializeAnimations;; startColorCycle;;
                  createParticleSystem;; setupAccessibility)%comp (cached s)
                 = Done (out_state (setupAccessibility s4))).
  { assert (H1 : setupEventListeners (cached s) = Done s1) by reflexivity.
    assert (H2 : initializeAnimations s1 = Done s2) by reflexivity.
    assert (H3 : startColorCycle s2 = Done s3) by reflexivity.
    rewrite (seq_Done _ _ _ _ H1), (seq_Done _ _ _ _ H2), (seq_Done _ _ _ _ H3),
      (seq_Done _ _ _ _ H4).
    reflexivity. }
  rewrite Hrun. eexists. split; [reflexivity|]. split; [reflexivity|].
  assert (F4 : listeners s4 = listeners s3 /\ timers s4 = timers s3 /\
               console s4 = console s3 /\ currentThemeIndex s4 = currentThemeIndex s3 /\
               isAnimating s4 = isAnimating s3).
  { rewrite Hs4. repeat split. }
  destruct F4 as (Fl & Ft & Fk & Fi & Fa).
  split; [rewrite Hk5, Fk; change (console s3) with (console s2); rewrite Hk2, Hk1; reflexivity|].
  split.
  { rewrite Hl5, Fl. change (listeners s3) with (listeners s2).
    rewrite Hl2, Hl1. rewrite <- !app_assoc. reflexivity. }
  split.
  { rewrite Ht5, Ft.
    change (Timers.pending (timers s3))
      with (Timers.pending (timers s2) ++
            [Timers.mkTimer (Timers.next_id (timers s2)) Timers.Interval
               (Timers.now (timers s2) + colorCycleInterval) colorCycleInterval ColorCycleTick]).
    rewrite List.map_app, Ht2, Ht1, He1.
    change (elements (cached s))
      with (mkElements (query_container (document s)) (query_h1 (document s))
              (query_subtitle (document s)) (query_interactive_btn (document s))
              (document_body (document s)) (query_particles (document s))).
    cbn [title subtitle interactiveBtn]. rewrite Ht.
    destruct (query_subtitle (document s)), (query_interactive_btn (document s));
      cbn [truthy]; rewrite <- ?app_assoc; reflexivity. }
  split; [rewrite Hi5, Fi; change (currentThemeIndex s3) with (currentThemeIndex s2);
          rewrite Hi2, Hi1; reflexivity|].
  rewrite Ha5, Fa. change (isAnimating s3) with (isAnimating s2). rewrite Ha2, Ha1. reflexivity.
Qed.

Lemma init_succeeds_witness :
  let s := pristine sample_document (of_Z 1280) (of_Z 720) sample_rects (fun _ => half)
                    sample_page in
  exists s',
    init s = s' /\
    console s' = [] /\
    listeners s' =
      [mkListener (OnElement 4%nat) "click" HandleInteractiveClick;
       mkListener OnDocument "keydown" HandleKeydown;
       mkListener OnWindow "resize" (Debounced 0 HandleResize 250);
       mkListener OnDocument "mousemove" (Debounced 1 HandleMouseMove 16);
       mkListener OnDocument "visibilitychange" HandleVisibilityChange;
       mkListener OnDocument "keydown" FocusOnTab;
       mkListener OnDocument "mousedown" FocusOnMouseDown].
Proof.
  cbv zeta.
  destruct (init_succeeds_and_registers
              (pristine sample_document (of_Z 1280) (of_Z 720) sample_rects (fun _ => half)
                        sample_page)
              1%nat 2%nat eq_refl eq_refl)
    as (s' & _ & H1 & H2 & H3 & _).
  exists s'. split; [exact H1|]. split; [exact H2|exact H3].
Defined.

(** ** The debounced listeners of the page *)

Lemma entries_clearTimeout_none (id : nat) (o : option nat) (tm : Timers.t Task) :
  entries id tm = [] -> entries id (Timers.clearTimeout o tm) = [].
Proof.
  destruct o as [i|]; [|auto]. unfold entries. simpl.
  induction (Timers.pending tm) as [|y l IH]; simpl; [reflexivity|].
  destruct (Nat.eqb (Timers.tid y) id) eqn:Hy; [discriminate|].
  intros He. destruct (negb _); simpl; [rewrite Hy|]; apply IH, He.
Qed.

Lemma entries_clearTimeout_other (id i : nat) (tm : Timers.t Task) :
  id <> i -> entries id (Timers.clearTimeout (Some i) tm) = entries id tm.
Proof.
  intros Hne. unfold entries. simpl.
  induction (Timers.pending tm) as [|y l IH]; simpl; [reflexivity|].
  unfold Timers.cancelled_by at 1.
  destruct (Nat.eqb (Timers.tid y) i) eqn:Hi; simpl.
  - apply Nat.eqb_eq in Hi.
    assert (Hy : Nat.eqb (Timers.tid y) id = false) by (apply Nat.eqb_neq; congruence).
    destruct (negb _); simpl; rewrite ?Hy; exact IH.
  - rewrite IH. reflexivity.
Qed.

Lemma entries_clearTimeout_own (id : nat) (x : Timers.Timer Task) (tm : Timers.t Task) :
  entries id tm = [x] ->
  Timers.tkind x = Timers.Timeout ->
  entries id (Timers.clearTimeout (Some id) tm) = [].
Proof.
  unfold entries. simpl. intros He Hk.
  induction (Timers.pending tm) as [|y l IH] in He |- *; simpl; [reflexivity|].
  simpl in He. unfold Timers.cancelled_by at 1.
  destruct (Nat.eqb (Timers.tid y) id) eqn:Hy; simpl.
  - injection He as -> Hl. rewrite Hk. simpl.
    clear IH. induction l as [|z l IH]; simpl; [reflexivity|].
    simpl in Hl. unfold Timers.cancelled_by at 1.
    destruct (Nat.eqb (Timers.tid z) id) eqn:Hz; [discriminate|].
    simpl. rewrite Hz. apply IH, Hl.
  - rewrite Hy. apply IH, He.
Qed.

Lemma entries_setTimeout_new (task : Task) (d : Z) (tm : Timers.t Task) :
  entries (Timers.next_id tm) tm = [] ->
  entries (Timers.next_id tm) (snd (Timers.setTimeout task d tm)) =
  [Timers.mkTimer (Timers.next_id tm) Timers.Timeout (Timers.now tm + d) d task].
Proof.
  intros He. unfold entries in *. simpl.
  rewrite List.filter_app, He. simpl. rewrite Nat.eqb_refl. reflexivity.
Qed.

Lemma entries_setTimeout_other (id : nat) (task : Task) (d : Z) (tm : Timers.t Task) :
  id <> Timers.next_id tm ->
  entries id (snd (Timers.setTimeout task d tm)) = entries id tm.
Proof.
  intros Hne. unfold entries. simpl. rewrite List.filter_app. simpl.
  apply Nat.eqb_neq in Hne. rewrite Nat.eqb_sym, Hne. apply app_nil_r.
Qed.

(** What a call of a debounced listener leaves: the closure's [timeout] is
    the new handle, and the table is the old one without the closure's
    previous timeout and with the new one. *)
Lemma debounced_state (closure : nat) (func : DebouncedFn) (wait : Z) (event : Event)
    (s : State) :
  let s' := out_state (debounced closure func wait event s) in
  let tm := Timers.clearTimeout (closures s !! closure) (timers s) in
  timers s' = snd (Timers.setTimeout (DebounceLater closure func event) wait tm) /\
  closures s' !! closure = Some (Timers.next_id (timers s)) /\
  dom s' = dom s /\ elements s' = elements s /\
  innerWidth s' = innerWidth s /\ innerHeight s' = innerHeight s /\
  listeners s' = listeners s.
Proof.
  cbv zeta. unfold debounced, exec, Debounce.executedFunction.
  unfold Timers.setTimeout, Timers.schedule. cbn [out_state snd].
  cbn [timers with_timers closures with_closures dom elements innerWidth innerHeight
       listeners].
  split; [reflexivity|]. split; [|repeat split].
  rewrite lookup_insert_eq.
  destruct (closures s !! closure); reflexivity.
Qed.

Lemma dispatch_debounced (tgt : Target) (type : string) (closure : nat)
    (func : DebouncedFn) (wait : Z) (event : Event) (s : State) :
  let l := mkListener tgt type (Debounced closure func wait) in
  l ∈ listeners s ->
  step (Dispatch l event) s = out_state (debounced closure func wait (delivered l event) s).
Proof.
  cbv zeta. intros Hin. cbn [step]. unfold dispatch.
  rewrite bool_decide_eq_true_2 by exact Hin. reflexivity.
Qed.

Lemma next_id_clearTimeout (o : option nat) (tm : Timers.t Task) :
  Timers.next_id (Timers.clearTimeout o tm) = Timers.next_id tm.
Proof. destruct o; reflexivity. Qed.

Lemma now_clearTimeout (o : option nat) (tm : Timers.t Task) :
  Timers.now (Timers.clearTimeout o tm) = Timers.now tm.
Proof. destruct o; reflexivity. Qed.

Lemma entries_remove_own (id : nat) (tm : Timers.t Task) :
  entries id (Timers.remove id tm) = [].
Proof.
  unfold entries. simpl.
  induction (Timers.pending tm) as [|y l IH]; simpl; [reflexivity|].
  destruct (Nat.eqb (Timers.tid y) id) eqn:Hy; simpl; [exact IH|].
  rewrite Hy. exact IH.
Qed.

(** X9. The debounced mouse listener of line 75.  Two moves arrive before
    the wait has passed: neither changes the page, the second cancels the
    timeout of the first, and when the remaining timeout runs the container
    gets the transform that [handleMouseMove] computes from the second
    move; after that nothing of the closure is pending. *)
Theorem debounced_mousemove_last_event_wins (closure : nat) (wait time : Z)
    (e1 e2 : Event) (s : State) (cn : Elem) :
  let l := mkListener OnDocument "mousemove" (Debounced closure HandleMouseMove wait) in
  let id1 := Timers.next_id (timers s) in
  let s1 := step (Dispatch l e1) s in
  let s2 := step (Dispatch l e2) s1 in
  let s3 := step (Fire (S id1)) (step (Elapse time) s2) in
  l ∈ listeners s ->
  container (elements s) = Some cn ->
  Timers.now (timers s) + wait <= time ->
  entries id1 (timers s) = [] ->
  entries (S id1) (timers s) = [] ->
  dom s2 = dom s /\
  (exists x, entries id1 (timers s1) = [x] /\
             Timers.ttask x = DebounceLater closure HandleMouseMove (delivered l e1)) /\
  entries id1 (timers s2) = [] /\
  step (Fire id1) (step (Elapse time) s2) = step (Elapse time) s2 /\
  style_of "transform" cn s3 =
    style_of "transform" cn (out_state (handleMouseMove e2 s)) /\
  entries (S id1) (timers s3) = [].
Proof.
  cbv zeta. intros Hin Hc Ht H1 H2.
  rewrite (dispatch_debounced OnDocument "mousemove" closure HandleMouseMove wait e1 s Hin).
  set (l := mkListener OnDocument "mousemove" (Debounced closure HandleMouseMove wait)) in *.
  set (id1 := Timers.next_id (timers s)) in *.
  destruct (debounced_state closure HandleMouseMove wait (delivered l e1) s)
    as (Ht1 & Hcl1 & Hd1 & He1 & Hw1 & Hh1 & Hl1).
  set (s1 := out_state (debounced closure HandleMouseMove wait (delivered l e1) s)) in *.
  assert (Hin1 : l ∈ listeners s1) by (rewrite Hl1; exact Hin).
  rewrite (dispatch_debounced OnDocument "mousemove" closure HandleMouseMove wait e2 s1 Hin1
           : step (Dispatch l e2) s1 =
             out_state (debounced closure HandleMouseMove wait (delivered l e2) s1)).
  destruct (debounced_state closure HandleMouseMove wait (delivered l e2) s1)
    as (Ht2 & Hcl2 & Hd2 & He2 & Hw2 & Hh2 & Hl2).
  set (s2 := out_state (debounced closure HandleMouseMove wait (delivered l e2) s1)) in *.
  set (tm0 := Timers.clearTimeout (closures s !! closure) (timers s)) in *.
  assert (Hn0 : Timers.next_id tm0 = id1) by apply next_id_clearTimeout.
  assert (Hnow0 : Timers.now tm0 = Timers.now (timers s)) by apply now_clearTimeout.
  assert (Hn1 : Timers.next_id (timers s1) = S id1) by (rewrite Ht1; simpl; congruence).
  assert (Hnow1 : Timers.now (timers s1) = Timers.now (timers s))
    by (rewrite Ht1; simpl; congruence).
  (* the table after the first move *)
  assert (E1 : entries id1 (timers s1) =
               [Timers.mkTimer id1 Timers.Timeout (Timers.now (timers s) + wait) wait
                  (DebounceLater closure HandleMouseMove (delivered l e1))]).
  { rewrite Ht1, <- Hn0, <- Hnow0. apply entries_setTimeout_new.
    rewrite Hn0. apply entries_clearTimeout_none, H1. }
  assert (E1' : entries (S id1) (timers s1) = []).
  { rewrite Ht1, entries_setTimeout_other by (rewrite Hn0; lia).
    apply entries_clearTimeout_none, H2. }
  (* the table after the second *)
  rewrite Hcl1 in Ht2. fold id1 in Ht2.
  set (tm1 := Timers.clearTimeout (Some id1) (timers s1)) in *.
  assert (Hn1' : Timers.next_id tm1 = S id1) by exact Hn1.
  assert (Hnow1' : Timers.now tm1 = Timers.now (timers s)) by exact Hnow1.
  assert (E2 : entries id1 (timers s2) = []).
  { rewrite Ht2, entries_setTimeout_other by (rewrite Hn1'; lia).
    eapply entries_clearTimeout_own; [exact E1|reflexivity]. }
  assert (E2' : entries (S id1) (timers s2) =
                [Timers.mkTimer (S id1) Timers.Timeout (Timers.now (timers s) + wait) wait
                   (DebounceLater closure HandleMouseMove (delivered l e2))]).
  { rewrite Ht2, <- Hn1', <- Hnow1'. apply entries_setTimeout_new.
    rewrite Hn1'. apply entries_clearTimeout_none, E1'. }
  assert (Hnow2 : Timers.now (timers s2) = Timers.now (timers s))
    by (rewrite Ht2; simpl; exact Hnow1').
  split; [exact (eq_trans Hd2 Hd1)|].
  split; [eexists; split; [exact E1|reflexivity]|].
  split; [exact E2|].
  split.
  { cbn [step]. unfold fire. cbn [timers with_timers].
    rewrite find_entries, entries_set_now, E2. reflexivity. }
  cbn [step]. unfold fire. cbn [timers with_timers].
  rewrite find_entries, entries_set_now, E2'. cbn [head Timers.tdue Timers.ttask].
  replace (Timers.now (timers s) + wait <=? Timers.now (Timers.set_now time (timers s2)))
    with true
    by (symmetry; apply Z.leb_le; unfold Timers.set_now; cbn [Timers.now];
        rewrite Hnow2; lia).
  cbn [run_task]. unfold debounceLater, debounced_func, handleMouseMove, seq, exec.
  cbn [settle elements with_timers timers innerWidth innerHeight out_state].
  rewrite He2, He1, Hc, Hw2, Hw1, Hh2, Hh1.
  cbn [delivered clientX clientY].
  split.
  - rewrite !style_of_set_style. rewrite !decide_True by auto. reflexivity.
  - unfold set_style, update_node. cbn [timers with_dom with_timers closures].
    apply entries_clearTimeout_none. unfold Timers.rearm. cbn [Timers.tkind Timers.tid].
    apply entries_remove_own.
Qed.

Lemma debounced_mousemove_witness :
  let l := mkListener OnDocument "mousemove" (Debounced 1 HandleMouseMove 16) in
  let e1 := mkEvent None None None (Number (of_Z 100)) (Number (of_Z 50)) None in
  let e2 := mkEvent None None None (Number (of_Z 960)) (Number (of_Z 540)) None in
  let s2 := step (Dispatch l e2) (step (Dispatch l e1) sample_state) in
  style_of "transform" 1%nat
    (step (Fire (S (Timers.next_id (timers sample_state)))) (step (Elapse 16) s2)) =
  style_of "transform" 1%nat (out_state (handleMouseMove e2 sample_state)).
Proof.
  cbv zeta.
  assert (Hin : mkListener OnDocument "mousemove" (Debounced 1 HandleMouseMove 16)
                  ∈ listeners sample_state)
    by (apply (bool_decide_unpack _); vm_compute; exact I).
  assert (Hc : container (elements sample_state) = Some 1%nat) by (vm_compute; reflexivity).
  assert (Ht : Timers.now (timers sample_state) + 16 <= 16) by (vm_compute; discriminate).
  assert (H1 : entries (Timers.next_id (timers sample_state)) (timers sample_state) = [])
    by (vm_compute; reflexivity).
  assert (H2 : entries (S (Timers.next_id (timers sample_state))) (timers sample_state) = [])
    by (vm_compute; reflexivity).
  destruct (debounced_mousemove_last_event_wins 1 16 16
              (mkEvent None None None (Number (of_Z 100)) (Number (of_Z 50)) None)
              (mkEvent None None None (Number (of_Z 960)) (Number (of_Z 540)) None)
              sample_state 1%nat Hin Hc Ht H1 H2)
    as (_ & _ & _ & _ & H & _).
  exact H.
Defined.

(** ** The cooldown of the button ends *)

Lemma cycleTheme_effect (s : State) :
  index_ok s ->
  exists s',
    cycleTheme s = Done s' /\
    timers s' = timers s /\ next_node s' = next_node s /\ document s' = document s /\
    ripples s' = ripples s /\ notifications s' = notifications s /\
    isAnimating s' = isAnimating s /\
    forall e, style_of "transform" e s' = style_of "transform" e s.
Proof.
  intros Hs. unfold cycleTheme. cbv zeta.
  set (s1 := with_currentThemeIndex _ s).
  destruct (theme_at_in_range (currentThemeIndex s1)) as [t Ht].
  { subst s1. simpl. unfold index_ok in Hs. simpl in Hs. apply Z.rem_bound_pos; lia. }
  rewrite Ht, applyTheme_write_theme. eexists. split; [reflexivity|].
  destruct (body (elements s1)) as [b|]; repeat split.
  intros e. unfold write_theme, style_of. rewrite node_update_node.
  destruct (decide (e = b)) as [->|]; [|reflexivity].
  cbn [style]. rewrite !lookup_insert_ne by discriminate. reflexivity.
Qed.

Lemma entries_app (id : nat) (now : Z) (n : nat) (l l' : list (Timers.Timer Task)) :
  entries id (Timers.mk now n (l ++ l')) =
  entries id (Timers.mk now n l) ++ entries id (Timers.mk now n l').
Proof. unfold entries. simpl. apply List.filter_app. Qed.

(** X10. An effective press of the button (line 147), on a page with a body
    and with the index in range, returns having armed five callbacks, in
    this order: the scale-back at 150 ms, the removal of the ripple at 600,
    the frame that shows the notification, its hiding at 2000, and the end
    of the cooldown at 300.  The button is scaled down.  The flag stays set
    until the last of these runs: run before its 300 ms have passed it does
    nothing, run after them it clears the flag and is gone. *)
Theorem click_arms_callbacks_and_cooldown_ends
    (event : Event) (button bd : Elem) (s : State) (time : Z) :
  isAnimating s = false ->
  currentTarget event = Some button ->
  index_ok s ->
  document_body (document s) = Some bd ->
  entries (S (S (S (S (Timers.next_id (timers s)))))) (timers s) = [] ->
  let tm := timers s in
  let n := Timers.next_id tm in
  let now := Timers.now tm in
  let node := next_node s in
  exists s1,
    handleInteractiveClick event s = Done s1 /\
    timers s1 =
      Timers.mk now (S (S (S (S (S n)))))
        (Timers.pending tm ++
         [Timers.mkTimer n Timers.Timeout (now + 150) 150 (ButtonScaleBack button);
          Timers.mkTimer (S n) Timers.Timeout (now + 600) 600 (RippleRemove node);
          Timers.mkTimer (S (S n)) Timers.Frame (now + 0) 0 (NotificationShow (S node));
          Timers.mkTimer (S (S (S n))) Timers.Timeout (now + 2000) 2000
                         (NotificationHide (S node));
          Timers.mkTimer (S (S (S (S n)))) Timers.Timeout (now + 300) 300 ClearAnimating]) /\
    isAnimating s1 = true /\
    style_of "transform" button s1 = Some (Lit "scale(0.95)") /\
    let s2 := step (Fire (S (S (S (S n))))) (step (Elapse time) s1) in
    (time < now + 300 -> s2 = step (Elapse time) s1) /\
    (now + 300 <= time ->
     isAnimating s2 = false /\ entries (S (S (S (S n)))) (timers s2) = []).
Proof.
  intros Hf Hb Hi Hbd Hfresh. cbv zeta.
  unfold handleInteractiveClick. rewrite Hf, Hb.
  rewrite !seq_exec.
  set (s2 := setTimeout (ButtonScaleBack button) 150
               (set_style button "transform" (Lit "scale(0.95)") (with_isAnimating true s))).
  destruct (cycleTheme_effect s2 Hi) as (s3 & Hcyc & Htm3 & Hnn3 & Hdoc3 & _ & _ & Ha3 & Hst3).
  rewrite (seq_Done _ _ _ _ Hcyc).
  assert (Hr : createRippleEffect event s3 =
               Done (setTimeout (RippleRemove (next_node s)) 600
                       (with_next_node (S (next_node s))
                          (with_ripples
                             (ripples s3 ++
                              [mkRipple (next_node s) button
                                 (css_size
                                    (Num.max (width (layout s3 button))
                                             (height (layout s3 button))))
                                 (css_px
                                    (sub (sub (to_number (clientX event))
                                              (left (layout s3 button)))
                                         (div (Num.max (width (layout s3 button))
                                                       (height (layout s3 button)))
                                              (of_Z 2))))
                                 (css_px
                                    (sub (sub (to_number (clientY event))
                                              (top (layout s3 button)))
                                         (div (Num.max (width (layout s3 button))
                                                       (height (layout s3 button)))
                                              (of_Z 2))))])
                             s3)))).
  { unfold createRippleEffect. rewrite Hb. cbv zeta. rewrite Hnn3. reflexivity. }
  rewrite (seq_Done _ _ _ _ Hr). clear Hr.
  match goal with |- context [seq (showNotification ?m) ?c ?st] => set (s4 := st) end.
  assert (Hn : showNotification "Theme changed! ✨" s4 =
               Done (setTimeout (NotificationHide (S (next_node s))) 2000
                       (requestAnimationFrame (NotificationShow (S (next_node s)))
                          (with_next_node (S (S (next_node s)))
                             (with_notifications
                                (notifications s4 ++
                                 [mkNotification (S (next_node s)) "Theme changed! ✨" false])
                                s4))))).
  { unfold showNotification.
    replace (document_body (document s4)) with (Some bd)
      by (symmetry; change (document_body (document s3) = Some bd); rewrite Hdoc3; exact Hbd).
    reflexivity. }
  rewrite (seq_Done _ _ _ _ Hn). clear Hn.
  unfold exec.
  match goal with |- exists s1, Done ?st = Done s1 /\ _ => set (s5 := st) end.
  exists s5. split; [reflexivity|].
  assert (Htm5 : timers s5 =
    Timers.mk (Timers.now (timers s)) (S (S (S (S (S (Timers.next_id (timers s)))))))
      (Timers.pending (timers s) ++
       [Timers.mkTimer (Timers.next_id (timers s)) Timers.Timeout
          (Timers.now (timers s) + 150) 150 (ButtonScaleBack button);
        Timers.mkTimer (S (Timers.next_id (timers s))) Timers.Timeout
          (Timers.now (timers s) + 600) 600 (RippleRemove (next_node s));
        Timers.mkTimer (S (S (Timers.next_id (timers s)))) Timers.Frame
          (Timers.now (timers s) + 0) 0 (NotificationShow (S (next_node s)));
        Timers.mkTimer (S (S (S (Timers.next_id (timers s))))) Timers.Timeout
          (Timers.now (timers s) + 2000) 2000 (NotificationHide (S (next_node s)));
        Timers.mkTimer (S (S (S (S (Timers.next_id (timers s)))))) Timers.Timeout
          (Timers.now (timers s) + 300) 300 ClearAnimating])).
  { change (timers s5) with
      (snd (Timers.setTimeout ClearAnimating 300
        (snd (Timers.setTimeout (NotificationHide (S (next_node s))) 2000
          (snd (Timers.requestAnimationFrame (NotificationShow (S (next_node s)))
            (snd (Timers.setTimeout (RippleRemove (next_node s)) 600 (timers s3))))))))).
    rewrite Htm3.
    change (timers s2) with (snd (Timers.setTimeout (ButtonScaleBack button) 150 (timers s))).
    unfold Timers.setTimeout, Timers.requestAnimationFrame, Timers.schedule.
    cbn [snd Timers.now Timers.next_id Timers.pending].
    rewrite <- !app_assoc. reflexivity. }
  split; [exact Htm5|].
  split; [change (isAnimating s3 = true); rewrite Ha3; reflexivity|].
  split.
  { change (style_of "transform" button s3 = Some (Lit "scale(0.95)")).
    rewrite Hst3. unfold s2, setTimeout.
    change (style_of "transform" button
              (set_style button "transform" (Lit "scale(0.95)") (with_isAnimating true s)) =
            Some (Lit "scale(0.95)")).
    rewrite style_of_set_style, decide_True by auto. reflexivity. }
  assert (He : entries (S (S (S (S (Timers.next_id (timers s)))))) (timers s5) =
               [Timers.mkTimer (S (S (S (S (Timers.next_id (timers s)))))) Timers.Timeout
                  (Timers.now (timers s) + 300) 300 ClearAnimating]).
  { rewrite Htm5, entries_app.
    replace (entries _ (Timers.mk _ _ (Timers.pending (timers s)))) with
      (@nil (Timers.Timer Task)) by (symmetry; exact Hfresh).
    unfold entries. cbn [Timers.pending List.filter Timers.tid app].
    rewrite Nat.eqb_refl.
    rewrite !(proj2 (Nat.eqb_neq _ _)) by lia. reflexivity. }
  cbn [step]. unfold fire. cbn [timers with_timers].
  rewrite find_entries, entries_set_now, He. cbn [head Timers.tdue Timers.ttask].
  split.
  - intros Hlt.
    replace (Timers.now (timers s) + 300 <=? Timers.now (Timers.set_now time (timers s5)))
      with false; [reflexivity|].
    symmetry. apply Z.leb_gt. rewrite Htm5. unfold Timers.set_now. cbn [Timers.now]. lia.
  - intros Hge.
    replace (Timers.now (timers s) + 300 <=? Timers.now (Timers.set_now time (timers s5)))
      with true
      by (symmetry; apply Z.leb_le; rewrite Htm5; unfold Timers.set_now; cbn [Timers.now];
          lia).
    cbn [run_task]. unfold clearAnimating, exec.
    cbn [settle isAnimating with_isAnimating timers with_timers].
    split; [reflexivity|].
    unfold Timers.rearm. cbn [Timers.tkind Timers.tid]. apply entries_remove_own.
Qed.

Lemma click_cooldown_witness :
  let click := mkEvent None (Some 4%nat) (Some 4%nat)
                       (Number (of_Z 100)) (Number (of_Z 50)) None in
  let id := S (S (S (S (Timers.next_id (timers sample_state))))) in
  exists s1,
    handleInteractiveClick click sample_state = Done s1 /\
    isAnimating s1 = true /\
    isAnimating (step (Fire id) (step (Elapse 300) s1)) = false.
Proof.
  cbv zeta.
  assert (Hf : isAnimating sample_state = false) by (vm_compute; reflexivity).
  assert (Hi : index_ok sample_state) by (split; vm_compute; [discriminate|reflexivity]).
  assert (Hbd : document_body (document sample_state) = Some 0%nat)
    by (vm_compute; reflexivity).
  assert (Hfresh : entries (S (S (S (S (Timers.next_id (timers sample_state))))))
                     (timers sample_state) = []) by (vm_compute; reflexivity).
  assert (Ht : Timers.now (timers sample_state) + 300 <= 300) by (vm_compute; discriminate).
  destruct (click_arms_callbacks_and_cooldown_ends
              (mkEvent None (Some 4%nat) (Some 4%nat) (Number (of_Z 100)) (Number (of_Z 50)) None)
              4%nat 0%nat sample_state 300 Hf eq_refl Hi Hbd Hfresh)
    as (s1 & H1 & _ & H2 & _ & _ & H3).
  exists s1. split; [exact H1|]. split; [exact H2|]. exact (proj1 (H3 Ht)).
Defined.

(** ** The keyboard-navigation marker *)

Lemma class_add_In (c x : string) (l : list string) :
  In x (class_add c l) <-> x = c \/ In x l.
Proof.
  unfold class_add. destruct (existsb (String.eqb c) l) eqn:He.
  - apply existsb_exists in He. destruct He as (y & Hy & Hcy).
    apply String.eqb_eq in Hcy. subst y. split; [auto|]. intros [->|H]; auto.
  - rewrite in_app_iff. simpl. split; [intros [H|[H|[]]]; auto|intros [->|H]; auto].
Qed.

Lemma class_add_twice (c : string) (l : list string) :
  class_add c (class_add c l) = class_add c l.
Proof.
  unfold class_add at 1.
  replace (existsb (String.eqb c) (class_add c l)) with true; [reflexivity|].
  symmetry. apply existsb_exists. exists c. split; [|apply String.eqb_refl].
  apply class_add_In. auto.
Qed.

Lemma class_remove_In (c x : string) (l : list string) :
  In x (class_remove c l) <-> x <> c /\ In x l.
Proof.
  unfold class_remove. rewrite List.filter_In, Bool.negb_true_iff, String.eqb_neq.
  split; intros [H1 H2]; split; auto.
Qed.

(** X11. The focus listeners of lines 353-361, on a page with a body.  A
    keydown of Tab puts [keyboard-navigation] among the classes of the
    body, keeps every other class and every other node, and a second Tab
    changes nothing more; a keydown of another key changes nothing; a
    mousedown takes the class away, however often it was added, and keeps
    the others. *)
Theorem keyboard_navigation_marker (event : Event) (s : State) (b : Elem) :
  document_body (document s) = Some b ->
  let mark := "keyboard-navigation" in
  let classes st := classList (node b st) in
  (key_is event "Tab" = true ->
   exists s1,
     focusOnTab event s = Done s1 /\
     In mark (classes s1) /\
     (forall c, c <> mark -> In c (classes s1) <-> In c (classes s)) /\
     (forall e, e <> b -> node e s1 = node e s) /\
     focusOnTab event s1 = Done s1) /\
  (key_is event "Tab" = false -> focusOnTab event s = Done s) /\
  (exists s2,
     focusOnMouseDown s = Done s2 /\
     ~ In mark (classes s2) /\
     (forall c, c <> mark -> In c (classes s2) <-> In c (classes s)) /\
     (forall e, e <> b -> node e s2 = node e s)).
Proof.
  intros Hb. cbv zeta. split; [|split].
  - intros Hk. unfold focusOnTab. rewrite Hk, Hb.
    eexists. split; [reflexivity|].
    assert (Hc : classList (node b (add_class b "keyboard-navigation" s)) =
                 class_add "keyboard-navigation" (classList (node b s))).
    { unfold add_class. rewrite node_update_node, decide_True by reflexivity. reflexivity. }
    split; [rewrite Hc; apply class_add_In; auto|].
    split; [intros c Hne; rewrite Hc, class_add_In; tauto|].
    split; [intros e Hne; unfold add_class; rewrite node_update_node, decide_False by exact Hne;
            reflexivity|].
    change (document_body (document (add_class b "keyboard-navigation" s)))
      with (document_body (document s)).
    rewrite Hb. f_equal.
    unfold add_class at 1. unfold update_node.
    change (dom (add_class b "keyboard-navigation" s))
      with (<[b := mkElement (textContent (node b s)) (style (node b s))
                     (class_add "keyboard-navigation" (classList (node b s)))
                     (attributes (node b s))]> (dom s)).
    rewrite insert_insert_eq.
    set (s1 := add_class b "keyboard-navigation" s).
    assert (Hn : node b s1 =
                 mkElement (textContent (node b s)) (style (node b s))
                   (class_add "keyboard-navigation" (classList (node b s)))
                   (attributes (node b s))).
    { unfold s1, add_class. rewrite node_update_node, decide_True by reflexivity. reflexivity. }
    rewrite Hn. cbn [textContent style classList attributes].
    rewrite class_add_twice. reflexivity.
  - intros Hk. unfold focusOnTab. rewrite Hk. reflexivity.
  - unfold focusOnMouseDown. rewrite Hb. eexists. split; [reflexivity|].
    assert (Hc : classList (node b (remove_class b "keyboard-navigation" s)) =
                 class_remove "keyboard-navigation" (classList (node b s))).
    { unfold remove_class. rewrite node_update_node, decide_True by reflexivity. reflexivity. }
    split; [rewrite Hc, class_remove_In; tauto|].
    split; [intros c Hne; rewrite Hc, class_remove_In; tauto|].
    intros e Hne. unfold remove_class.
    rewrite node_update_node, decide_False by exact Hne. reflexivity.
Qed.

Lemma keyboard_navigation_witness :
  let tab := mkEvent (Some "Tab") None None Undefined Undefined None in
  exists s1,
    focusOnTab tab sample_state = Done s1 /\
    In "keyboard-navigation" (classList (node 0%nat s1)) /\
    focusOnTab tab s1 = Done s1.
Proof.
  cbv zeta.
  assert (Hb : document_body (document sample_state) = Some 0%nat)
    by (vm_compute; reflexivity).
  destruct (keyboard_navigation_marker
              (mkEvent (Some "Tab") None None Undefined Undefined None)
              sample_state 0%nat Hb) as (H & _ & _).
  destruct (H eq_refl) as (s1 & H1 & H2 & _ & _ & H3).
  exists s1. split; [exact H1|]. split; [exact H2|exact H3].
Defined.

(** ** The typewriter on a title with text *)

Lemma ticks_add (n m id : nat) :
  forall s, ticks (n + m) id s = ticks m id (ticks n id s).
Proof.
  induction n as [|n IH]; intros s; [reflexivity|].
  simpl. apply IH.
Qed.

Lemma ticks_idle (m id : nat) (s : State) :
  Timers.find id (timers s) = None -> ticks m id s = s.
Proof.
  intros H. induction m as [|m IH]; [reflexivity|].
  simpl. unfold tick at 1. rewrite H. exact IH.
Qed.

(** X12. [typewriterEffect] (line 112) on an element whose text is made of
    [L >= 1] ASCII characters, so that its characters are the code units
    the script indexes and counts.  After [k < L] runs of the interval the
    element shows the first [k] characters, its classes are as before and
    the interval is still pending; after [L] runs it shows the whole text,
    has the class [typewriter-complete] added, and the interval is cleared,
    so that later runs change nothing. *)
Theorem typewriter_types_the_title (el : Elem) (s : State) :
  let text := textContent (node el s) in
  let L := String.length text in
  let id := Timers.next_id (timers s) in
  let s0 := out_state (typewriterEffect (Some el) s) in
  is_ascii_text text = true ->
  entries id (timers s) = [] ->
  (1 <= L)%nat ->
  (forall k, (k < L)%nat ->
     textContent (node el (ticks k id s0)) = prefix k text /\
     classList (node el (ticks k id s0)) = classList (node el s) /\
     exists due,
       Timers.find id (timers (ticks k id s0)) =
       Some (Timers.mkTimer id Timers.Interval due typewriterSpeed
               (TypewriterTick el text k))) /\
  textContent (node el (ticks L id s0)) = text /\
  classList (node el (ticks L id s0)) =
    class_add "typewriter-complete" (classList (node el s)) /\
  Timers.find id (timers (ticks L id s0)) = None /\
  (forall m, ticks (L + m) id s0 = ticks L id s0).
Proof.
  cbv zeta. intros _ He HL.
  destruct (typewriter_reveals_text el s He HL) as (Hk & (Hf & Ht & Hc) & _).
  split; [|split; [exact Ht|split; [exact Hc|split; [exact Hf|]]]].
  - intros k Hlt. destruct (Hk k Hlt) as ((due & Hd) & Htx & Hcl).
    split; [exact Htx|]. split; [exact Hcl|].
    exists due. rewrite find_entries, Hd. reflexivity.
  - intros m. rewrite ticks_add. apply ticks_idle, Hf.
Qed.

Lemma typewriter_types_the_title_witness :
  let s0 := out_state (typewriterEffect (Some 2%nat) sample_state) in
  let id := Timers.next_id (timers sample_state) in
  textContent (node 2%nat (ticks (String.length (textContent (node 2%nat sample_state))) id s0))
    = textContent (node 2%nat sample_state) /\
  Timers.find id
    (timers (ticks (String.length (textContent (node 2%nat sample_state))) id s0)) = None.
Proof.
  cbv zeta.
  assert (He : entries (Timers.next_id (timers sample_state)) (timers sample_state) = [])
    by (vm_compute; reflexivity).
  assert (HL : (1 <= String.length (textContent (node 2%nat sample_state)))%nat)
    by (vm_compute; lia).
  assert (Ha : is_ascii_text (textContent (node 2%nat sample_state)) = true)
    by (vm_compute; reflexivity).
  destruct (typewriter_types_the_title 2%nat sample_state Ha He HL) as (_ & H1 & _ & H2 & _).
  split; [exact H1|exact H2].
Defined.

(** ** The entrance of the subtitle and the button *)

Lemma node_set_style (e : Elem) (p : string) (v : StyleValue) (s : State) :
  node e (set_style e p v s) =
  mkElement (textContent (node e s)) (<[p := v]> (style (node e s)))
            (classList (node e s)) (attributes (node e s)).
Proof. unfold set_style. rewrite node_update_node, decide_True by reflexivity. reflexivity. Qed.

Lemma entries_frame_new (task : Task) (tm : Timers.t Task) :
  entries (Timers.next_id tm) tm = [] ->
  entries (Timers.next_id tm) (snd (Timers.requestAnimationFrame task tm)) =
  [Timers.mkTimer (Timers.next_id tm) Timers.Frame (Timers.now tm + 0) 0 task].
Proof.
  intros He. unfold entries in *. simpl.
  rewrite List.filter_app, He. simpl. rewrite Nat.eqb_refl. reflexivity.
Qed.

(** X13. [animateElement] (line 132).  The call hides the element, moves it
    down by 20px and asks for one animation frame, its classes untouched;
    when the frame runs the element is opaque, back in place, has the
    transition of 300 ms and the animation class among its classes, and the
    frame is gone, so that it runs once.  Without an element the call does
    nothing. *)
Theorem animateElement_hides_then_reveals (el : Elem) (animationClass : string) (s : State) :
  let id := Timers.next_id (timers s) in
  let s1 := out_state (animateElement (Some el) animationClass s) in
  let s2 := step (Fire id) s1 in
  entries id (timers s) = [] ->
  (style_of "opacity" el s1 = Some (Lit "0") /\
   style_of "transform" el s1 = Some (Lit "translateY(20px)") /\
   classList (node el s1) = classList (node el s) /\
   entries id (timers s1) =
     [Timers.mkTimer id Timers.Frame (Timers.now (timers s) + 0) 0
                     (AnimateFrame el animationClass)]) /\
  (style_of "opacity" el s2 = Some (Lit "1") /\
   style_of "transform" el s2 = Some (Lit "translateY(0)") /\
   style_of "transition" el s2 = Some (Lit "all 300ms ease") /\
   classList (node el s2) = class_add animationClass (classList (node el s)) /\
   textContent (node el s2) = textContent (node el s) /\
   entries id (timers s2) = [] /\
   step (Fire id) s2 = s2) /\
  animateElement None animationClass s = Done s.
Proof.
  cbv zeta. intros He.
  set (id := Timers.next_id (timers s)).
  set (s0 := set_style el "transform" (Lit "translateY(20px)")
               (set_style el "opacity" (Lit "0") s)).
  assert (Hs1 : out_state (animateElement (Some el) animationClass s) =
                requestAnimationFrame (AnimateFrame el animationClass) s0) by reflexivity.
  rewrite Hs1.
  set (s1 := requestAnimationFrame (AnimateFrame el animationClass) s0).
  assert (Hn1 : node el s1 =
                mkElement (textContent (node el s))
                  (<["transform" := Lit "translateY(20px)"]>
                     (<["opacity" := Lit "0"]> (style (node el s))))
                  (classList (node el s)) (attributes (node el s))).
  { change (node el s1) with (node el s0). unfold s0.
    rewrite !node_set_style. reflexivity. }
  assert (E1 : entries id (timers s1) =
               [Timers.mkTimer id Timers.Frame (Timers.now (timers s) + 0) 0
                  (AnimateFrame el animationClass)]).
  { change (timers s1) with
      (snd (Timers.requestAnimationFrame (AnimateFrame el animationClass) (timers s))).
    apply entries_frame_new, He. }
  split; [|split; [|reflexivity]].
  { unfold style_of. rewrite Hn1. cbn [style classList].
    split; [rewrite lookup_insert_ne by discriminate; apply lookup_insert_eq|].
    split; [apply lookup_insert_eq|]. split; [reflexivity|exact E1]. }
  cbn [step]. unfold fire. rewrite find_entries, E1. cbn [head Timers.tdue Timers.ttask].
  replace (Timers.now (timers s) + 0 <=? Timers.now (timers s1)) with true
    by (symmetry; apply Z.leb_le; change (Timers.now (timers s1)) with (Timers.now (timers s));
        lia).
  cbn [run_task]. unfold animateFrame, exec. cbn [settle].
  match goal with |- context [add_class el animationClass ?st] => set (s3 := st) end.
  assert (Hn3 : node el s3 =
                mkElement (textContent (node el s))
                  (<["transform" := Lit "translateY(0)"]>
                     (<["opacity" := Lit "1"]>
                        (<["transition" := Lit "all 300ms ease"]>
                           (<["transform" := Lit "translateY(20px)"]>
                              (<["opacity" := Lit "0"]> (style (node el s)))))))
                  (classList (node el s)) (attributes (node el s))).
  { unfold s3. rewrite !node_set_style, node_with_timers, Hn1. reflexivity. }
  assert (E3 : entries id (timers (add_class el animationClass s3)) = []).
  { change (timers (add_class el animationClass s3)) with
      (Timers.rearm (Timers.mkTimer id Timers.Frame (Timers.now (timers s) + 0) 0
                       (AnimateFrame el animationClass)) (timers s1)).
    unfold Timers.rearm. cbn [Timers.tkind Timers.tid]. apply entries_remove_own. }
  unfold style_of. rewrite node_add_class, Hn3. cbn [style classList textContent].
  split; [rewrite lookup_insert_ne by discriminate; apply lookup_insert_eq|].
  split; [apply lookup_insert_eq|].
  split; [rewrite !lookup_insert_ne by discriminate; apply lookup_insert_eq|].
  split; [reflexivity|]. split; [reflexivity|]. split; [exact E3|].
  rewrite find_entries, E3. reflexivity.
Qed.

Lemma animateElement_witness :
  let s1 := out_state (animateElement (Some 3%nat) "fadeInUp" sample_state) in
  let s2 := step (Fire (Timers.next_id (timers sample_state))) s1 in
  style_of "opacity" 3%nat s1 = Some (Lit "0") /\
  style_of "opacity" 3%nat s2 = Some (Lit "1") /\
  classList (node 3%nat s2) = class_add "fadeInUp" (classList (node 3%nat sample_state)).
Proof.
  cbv zeta.
  assert (He : entries (Timers.next_id (timers sample_state)) (timers sample_state) = [])
    by (vm_compute; reflexivity).
  destruct (animateElement_hides_then_reveals 3%nat "fadeInUp" sample_state He)
    as ((H1 & _) & (H2 & _ & _ & H3 & _) & _).
  split; [exact H1|]. split; [exact H2|exact H3].
Defined.

(** ** Listeners and particles come from [init] alone *)

Lemma fixed_refl (s : State) : fixed s s.
Proof. split; reflexivity. Qed.

Lemma fixed_trans (s1 s2 s3 : State) : fixed s1 s2 -> fixed s2 s3 -> fixed s1 s3.
Proof. intros [H1 H2] [H3 H4]. split; congruence. Qed.

Lemma Fixed_seq (c1 c2 : Comp) : Fixed c1 -> Fixed c2 -> Fixed (seq c1 c2).
Proof.
  intros H1 H2 s. unfold seq. specialize (H1 s).
  destruct (c1 s) as [s1|e s1]; simpl in *; [|exact H1].
  eapply fixed_trans; [exact H1|apply H2].
Qed.

(** A body that is straight-line once its tests are split, and touches
    neither the listeners nor the particles. *)
Ltac fixed_direct := split_tests; split; reflexivity.

Lemma Fixed_applyTheme (theme : option Theme) : Fixed (applyTheme theme).
Proof. intros s. unfold applyTheme. fixed_direct. Qed.

Lemma Fixed_cycleTheme : Fixed cycleTheme.
Proof.
  intros s. unfold cycleTheme. cbv zeta.
  eapply fixed_trans; [|apply Fixed_applyTheme]. (split; reflexivity).
Qed.

Lemma Fixed_createRippleEffect (event : Event) : Fixed (createRippleEffect event).
Proof. intros s. unfold createRippleEffect. fixed_direct. Qed.

Lemma Fixed_showNotification (message : string) : Fixed (showNotification message).
Proof. intros s. unfold showNotification. fixed_direct. Qed.

Lemma Fixed_handleInteractiveClick (event : Event) : Fixed (handleInteractiveClick event).
Proof.
  intros s. unfold handleInteractiveClick.
  destruct (isAnimating s); [(split; reflexivity)|].
  destruct (currentTarget event) as [button|]; [|(split; reflexivity)].
  apply (fixed_trans s (with_isAnimating true s)); [(split; reflexivity)|].
  generalize (with_isAnimating true s).
  repeat apply Fixed_seq;
    [ intros s'; (split; reflexivity)
    | intros s'; (split; reflexivity)
    | exact Fixed_cycleTheme
    | apply Fixed_createRippleEffect
    | apply Fixed_showNotification
    | intros s'; (split; reflexivity) ].
Qed.

Lemma Fixed_handleKeydown (event : Event) : Fixed (handleKeydown event).
Proof.
  intros s. unfold handleKeydown.
  destruct (key_is event " " || key_is event "Enter").
  - destruct (same_node _ _); [apply Fixed_handleInteractiveClick|(split; reflexivity)].
  - destruct (key_is event "Escape"); [|(split; reflexivity)].
    cbv zeta. eapply fixed_trans; [|apply Fixed_applyTheme]. (split; reflexivity).
Qed.

Lemma reposition_listeners (host : Elem) (l : list Particle) :
  forall s, listeners (snd (reposition host l s)) = listeners s.
Proof.
  induction l as [|p l IH]; intros s; simpl; [reflexivity|].
  destruct (Nat.eqb (p_host p) host).
  - specialize (IH (snd (math_random (snd (math_random s))))).
    simpl in *. destruct (reposition host l _); simpl in *. exact IH.
  - specialize (IH s). destruct (reposition host l s); simpl in *. exact IH.
Qed.

Lemma Fixed_handleResize : Fixed handleResize.
Proof.
  intros s. unfold handleResize, updateParticles.
  destruct (particles (elements s)) as [host|]; cbn [truthy]; [|(split; reflexivity)].
  pose proof (reposition_spec host (particle_nodes s) s) as (Hf & _).
  pose proof (reposition_listeners host (particle_nodes s) s) as Hl.
  destruct (reposition host (particle_nodes s) s) as [l s1]; simpl in *.
  split; [exact Hl|]. symmetry. apply (Forall2_length _ _ _ Hf).
Qed.

Lemma Fixed_debounceLater (closure : nat) (func : DebouncedFn) (args : Event) :
  Fixed (debounceLater closure func args).
Proof.
  apply Fixed_seq; [intros s; (split; reflexivity)|].
  destruct func; [exact Fixed_handleResize|].
  intros s. unfold debounced_func, handleMouseMove, exec. fixed_direct.
Qed.

Lemma Fixed_run_task (id : nat) (task : Task) : Fixed (run_task id task).
Proof.
  destruct task; cbn [run_task];
    [ intros s; unfold containerFadeIn; fixed_direct
    | intros s; unfold typewriterEffect, exec; fixed_direct
    | intros s; unfold animateElement, exec; fixed_direct
    | intros s; unfold animateElement, exec; fixed_direct
    | intros s; unfold typewriterTick, exec; cbv zeta; fixed_direct
    | intros s; (split; reflexivity)
    | intros s; (split; reflexivity)
    | intros s; (split; reflexivity)
    | intros s; unfold colorCycleTick;
      destruct (negb _ && negb _); [apply Fixed_cycleTheme|(split; reflexivity)]
    | intros s; (split; reflexivity)
    | intros s; (split; reflexivity)
    | intros s; (split; reflexivity)
    | intros s; (split; reflexivity)
    | apply Fixed_debounceLater ].
Qed.

Lemma Fixed_run_handler (h : Handler) (event : Event) :
  h <> Init -> Fixed (run_handler h event).
Proof.
  intros Hh. destruct h; cbn [run_handler];
    [ apply Fixed_handleInteractiveClick
    | apply Fixed_handleKeydown
    | intros s; (split; reflexivity)
    | intros s; unfold handleVisibilityChange, pauseAnimations, resumeAnimations,
        setAnimationPlayState; fixed_direct
    | intros s; unfold focusOnTab; fixed_direct
    | intros s; unfold focusOnMouseDown; fixed_direct
    | intros s; (split; reflexivity)
    | contradiction ].
Qed.

Lemma fixed_report_uncaught (e : Error) (s : State) : fixed s (report_uncaught e s).
Proof.
  unfold report_uncaught. generalize (listeners s) as ls.
  assert (H : forall ls s', fixed s s' ->
            fixed s (fold_left (fun s' l => if is_error_listener l then out_state (reportError (mkEvent None None None Undefined Undefined (Some e)) s') else s') ls s')).
  { induction ls as [|l ls IH]; intros s' Hs'; simpl; [exact Hs'|].
    apply IH. destruct (is_error_listener l); [|exact Hs'].
    eapply fixed_trans; [exact Hs'|(split; reflexivity)]. }
  intros ls. apply H, fixed_refl.
Qed.

Lemma fixed_settle (s s0 : State) (o : Outcome) :
  fixed s s0 -> fixed s0 (out_state o) -> fixed s (settle o).
Proof.
  intros H0 H. destruct o as [s'|e s']; simpl in *.
  - eapply fixed_trans; eassumption.
  - eapply fixed_trans; [eapply fixed_trans; eassumption|apply fixed_report_uncaught].
Qed.

(** X14. Only [init] registers listeners and creates particles.  A step
    that is not a delivery to the [DOMContentLoaded] listener, whichever
    it is and in whatever state (a listener, a due callback, a call of the
    public handle, time passing, the page being hidden or shown, an error
    reported on the way), leaves the list of listeners as it is and the
    number of particles as it is. *)
Theorem listeners_and_particles_are_fixed (i : Input) (s : State) :
  (forall l event, i = Dispatch l event -> l_handler l <> Init) ->
  listeners (step i s) = listeners s /\
  length (particle_nodes (step i s)) = length (particle_nodes s).
Proof.
  intros Hi. change (fixed s (step i s)).
  destruct i as [l event|id|time|h| |message|theme]; cbn [step].
  - unfold dispatch. destruct (bool_decide _); [|(split; reflexivity)].
    apply (fixed_settle s s); [(split; reflexivity)|].
    apply Fixed_run_handler. exact (Hi l event eq_refl).
  - unfold fire. destruct (Timers.find id (timers s)) as [x|]; [|(split; reflexivity)].
    destruct (Timers.tdue x <=? _); [|(split; reflexivity)].
    eapply fixed_settle; [|apply Fixed_run_task]. (split; reflexivity).
  - (split; reflexivity).
  - (split; reflexivity).
  - unfold api_call. destruct (exposed s); [apply Fixed_cycleTheme|(split; reflexivity)].
  - unfold api_call. destruct (exposed s); [apply Fixed_showNotification|(split; reflexivity)].
  - unfold api_call. destruct (exposed s); [apply Fixed_applyTheme|(split; reflexivity)].
Qed.

Lemma listeners_fixed_witness :
  let click := mkEvent None (Some 4%nat) (Some 4%nat)
                       (Number (of_Z 100)) (Number (of_Z 50)) None in
  let i := Dispatch (mkListener (OnElement 4%nat) "click" HandleInteractiveClick) click in
  listeners (step i sample_state) = listeners sample_state /\
  length (particle_nodes (step i sample_state)) = length (particle_nodes sample_state).
Proof.
  cbv zeta. apply listeners_and_particles_are_fixed.
  intros l event H. injection H as <- _. discriminate.
Defined.

(** ** The colours follow the index *)

Lemma shows_calm (b : Elem) (s s' : State) :
  calm s s' -> shows_theme b s -> shows_theme b s'.
Proof.
  intros (Hi & He & Hv) (Hb & t & Ht & Hs).
  split; [rewrite He; exact Hb|]. exists t. split; [rewrite Hi; exact Ht|].
  intros k Hk. rewrite (Hv b k Hk). apply Hs, Hk.
Qed.

Lemma Shows_Calm (c : Comp) : Calm c -> Shows c.
Proof. intros H b s. apply shows_calm, H. Qed.

Lemma Shows_seq (c1 c2 : Comp) : Shows c1 -> Shows c2 -> Shows (seq c1 c2).
Proof.
  intros H1 H2 b s Hs. unfold seq. specialize (H1 b s Hs).
  destruct (c1 s) as [s1|e s1]; simpl in *; [|exact H1].
  apply H2, H1.
Qed.

Lemma applyTheme_shows (b : Elem) (t : Theme) (s : State) :
  body (elements s) = Some b ->
  theme_at (currentThemeIndex s) = Some t ->
  shows_theme b (out_state (applyTheme (Some t) s)).
Proof.
  intros Hb Ht.
  split; [rewrite applyTheme_elements; exact Hb|]. exists t.
  split; [rewrite applyTheme_index; exact Ht|].
  intros k Hk. rewrite style_of_applyTheme by exact Hk.
  rewrite Hb, decide_True by reflexivity. reflexivity.
Qed.

Lemma cycleTheme_shows (b : Elem) (s : State) :
  body (elements s) = Some b -> index_ok s -> shows_theme b (out_state (cycleTheme s)).
Proof.
  intros Hb Hi. unfold cycleTheme. cbv zeta.
  set (s1 := with_currentThemeIndex _ s).
  destruct (theme_at_in_range (currentThemeIndex s1)) as [t Ht].
  { subst s1. simpl. unfold index_ok in Hi. simpl in Hi. apply Z.rem_bound_pos; lia. }
  rewrite Ht. apply (applyTheme_shows b t s1); [exact Hb|exact Ht].
Qed.

Lemma theme_at_range (i : Z) (t : Theme) : theme_at i = Some t -> 0 <= i < 5.
Proof.
  unfold theme_at. destruct (i <? 0) eqn:Hn; [discriminate|].
  apply Z.ltb_ge in Hn. intros H.
  assert (Hl : (Z.to_nat i < length THEMES)%nat)
    by (apply nth_error_Some; rewrite H; discriminate).
  simpl in Hl. lia.
Qed.

Lemma shows_index_ok (b : Elem) (s : State) : shows_theme b s -> index_ok s.
Proof. intros (_ & t & Ht & _). exact (theme_at_range _ _ Ht). Qed.

Lemma Shows_cycleTheme : Shows cycleTheme.
Proof.
  intros b s Hs. pose proof (shows_index_ok b s Hs) as Hi.
  destruct Hs as (Hb & _). exact (cycleTheme_shows b s Hb Hi).
Qed.

Lemma Shows_handleInteractiveClick (event : Event) : Shows (handleInteractiveClick event).
Proof.
  intros b s Hs. unfold handleInteractiveClick.
  destruct (isAnimating s); [exact Hs|].
  assert (Hs1 : shows_theme b (with_isAnimating true s))
    by (apply (shows_calm b s); [apply calm_with_isAnimating|exact Hs]).
  destruct (currentTarget event) as [button|]; [|exact Hs1].
  revert Hs1. generalize (with_isAnimating true s). clear s Hs. revert b.
  repeat apply Shows_seq;
    [ apply Shows_Calm, Calm_exec; auto with calm
    | apply Shows_Calm, Calm_exec; auto with calm
    | exact Shows_cycleTheme
    | apply Shows_Calm, Calm_createRippleEffect
    | apply Shows_Calm, Calm_showNotification
    | apply Shows_Calm, Calm_exec; auto with calm ].
Qed.

Lemma Shows_handleKeydown (event : Event) : Shows (handleKeydown event).
Proof.
  intros b s Hs. unfold handleKeydown.
  destruct (key_is event " " || key_is event "Enter").
  - destruct (same_node _ _); [apply Shows_handleInteractiveClick, Hs|exact Hs].
  - destruct (key_is event "Escape"); [|exact Hs].
    cbv zeta. destruct Hs as (Hb & _).
    apply (applyTheme_shows b); [exact Hb|reflexivity].
Qed.

Lemma Shows_run_task (id : nat) (task : Task) : Shows (run_task id task).
Proof.
  destruct (run_task_calm id task) as [->|H]; [|apply Shows_Calm, H].
  intros b s Hs. cbn [run_task]. unfold colorCycleTick.
  destruct (_ && _); [apply Shows_cycleTheme, Hs|exact Hs].
Qed.

Lemma Shows_run_handler (h : Handler) (event : Event) :
  h <> Init -> Shows (run_handler h event).
Proof.
  intros Hh. destruct (run_handler_calm h event) as [->|[->|[->|H]]].
  - apply Shows_handleInteractiveClick.
  - apply Shows_handleKeydown.
  - contradiction.
  - apply Shows_Calm, H.
Qed.

Lemma shows_settle (b : Elem) (o : Outcome) :
  shows_theme b (out_state o) -> shows_theme b (settle o).
Proof.
  destruct o as [s|e s]; simpl; [auto|].
  apply shows_calm, calm_report_uncaught.
Qed.

Lemma shows_step (b : Elem) (i : Input) (s : State) :
  ordinary i -> shows_theme b s -> shows_theme b (step i s).
Proof.
  intros [Ha Hd] Hs.
  destruct i as [l event|id|time|h| |message|theme]; cbn [step].
  - unfold dispatch. destruct (bool_decide _); [|exact Hs].
    apply shows_settle, Shows_run_handler; [exact (Hd l event eq_refl)|exact Hs].
  - unfold fire. destruct (Timers.find id (timers s)) as [x|]; [|exact Hs].
    destruct (_ <=? _); [|exact Hs].
    apply shows_settle, Shows_run_task.
    apply (shows_calm b s); [apply calm_with_timers|exact Hs].
  - apply (shows_calm b s); [apply calm_with_timers|exact Hs].
  - apply (shows_calm b s); [apply calm_set_hidden|exact Hs].
  - unfold api_call. destruct (exposed s); [apply Shows_cycleTheme, Hs|exact Hs].
  - unfold api_call. destruct (exposed s); [|exact Hs].
    apply (Shows_Calm _ (Calm_showNotification message)), Hs.
  - exfalso. exact (Ha theme eq_refl).
Qed.

(** X15. The colours follow the index.  Let the body be cached and the
    index be in range.  After one [cycleTheme] the three colour variables
    of the body are those of the theme at [currentThemeIndex], and they
    still are after any sequence of steps of the page: clicks, keys, due
    callbacks, calls of the public [cycleTheme] and [showNotification],
    time passing, the page being hidden or shown.  (The public
    [applyTheme] and a later [DOMContentLoaded] are no such steps.) *)
Theorem colours_follow_the_index (inputs : list Input) (s : State) (b : Elem) :
  body (elements s) = Some b ->
  index_ok s ->
  Forall ordinary inputs ->
  let s' := run inputs (out_state (cycleTheme s)) in
  exists t,
    theme_at (currentThemeIndex s') = Some t /\
    body (elements s') = Some b /\
    style_of "--primary-color" b s' = Some (Lit (primary t)) /\
    style_of "--secondary-color" b s' = Some (Lit (secondary t)) /\
    style_of "--accent-color" b s' = Some (Lit (accent t)).
Proof.
  intros Hb Hi Hord. cbv zeta.
  pose proof (cycleTheme_shows b s Hb Hi) as H0.
  revert H0. generalize (out_state (cycleTheme s)). clear s Hb Hi.
  induction Hord as [|i inputs Hi Hord IH]; intros s Hs.
  - destruct Hs as (Hb & t & Ht & Hv).
    exists t. split; [exact Ht|]. split; [exact Hb|].
    split; [|split]; apply Hv; reflexivity.
  - apply (IH (step i s)). apply shows_step; assumption.
Qed.

Lemma colours_follow_the_index_witness :
  let click := mkEvent None (Some 4%nat) (Some 4%nat)
                       (Number (of_Z 100)) (Number (of_Z 50)) None in
  let inputs := [Dispatch (mkListener (OnElement 4%nat) "click" HandleInteractiveClick) click;
                 Elapse 3000; Fire 5; ApiCycleTheme] in
  let s' := run inputs (out_state (cycleTheme sample_state)) in
  exists t,
    theme_at (currentThemeIndex s') = Some t /\
    style_of "--primary-color" 0%nat s' = Some (Lit (primary t)).
Proof.
  cbv zeta.
  assert (Hb : body (elements sample_state) = Some 0%nat) by (vm_compute; reflexivity).
  assert (Hi : index_ok sample_state) by (split; vm_compute; [discriminate|reflexivity]).
  assert (Hord : Forall ordinary
            [Dispatch (mkListener (OnElement 4%nat) "click" HandleInteractiveClick)
               (mkEvent None (Some 4%nat) (Some 4%nat)
                        (Number (of_Z 100)) (Number (of_Z 50)) None);
             Elapse 3000; Fire 5; ApiCycleTheme]).
  { apply List.Forall_cons.
    { split; [intros t H; discriminate H|].
      intros l event H. injection H as Hl _. rewrite <- Hl. intros H'. discriminate H'. }
    apply List.Forall_cons; [split; [intros t H|intros l event H]; discriminate H|].
    apply List.Forall_cons; [split; [intros t H|intros l event H]; discriminate H|].
    apply List.Forall_cons; [split; [intros t H|intros l event H]; discriminate H|].
    apply List.Forall_nil. }
  destruct (colours_follow_the_index _ sample_state 0%nat Hb Hi Hord)
    as (t & Ht & _ & Hp & _).
  exists t. split; [exact Ht|exact Hp].
Defined.

(** ** The script on a page that is still loading *)

(** X16. The last lines of the script (377-394).  On a page that is still
    loading the script registers the [error] listener and then [init] for
    [DOMContentLoaded], publishes the handle, and does nothing else: the
    cache, the page, the timers, the index and the console are as they
    were; when [DOMContentLoaded] is delivered, what runs is [init], on the
    state the script left.  On a page that is already parsed [init] runs
    at once instead, after the [error] listener is registered and before
    the handle is published. *)
Theorem script_defers_init_while_loading (s : State) (event : Event) :
  let onerror := mkListener OnWindow "error" ReportError in
  let ready := mkListener OnDocument "DOMContentLoaded" Init in
  if loading (document s) then
    listeners (script s) = listeners s ++ [onerror; ready] /\
    exposed (script s) = true /\
    elements (script s) = elements s /\
    dom (script s) = dom s /\
    particle_nodes (script s) = particle_nodes s /\
    timers (script s) = timers s /\
    currentThemeIndex (script s) = currentThemeIndex s /\
    console (script s) = console s /\
    step (Dispatch ready event) (script s) = init (script s)
  else
    script s = with_exposed true (init (addEventListener OnWindow "error" ReportError s)).
Proof.
  cbv zeta. unfold script. cbv zeta.
  change (loading (document (addEventListener OnWindow "error" ReportError s)))
    with (loading (document s)).
  destruct (loading (document s)); [|reflexivity].
  assert (Hl : listeners
                 (with_exposed true
                    (addEventListener OnDocument "DOMContentLoaded" Init
                       (addEventListener OnWindow "error" ReportError s))) =
               listeners s ++ [mkListener OnWindow "error" ReportError;
                               mkListener OnDocument "DOMContentLoaded" Init]).
  { unfold addEventListener. cbn [listeners with_listeners with_exposed].
    rewrite <- app_assoc. reflexivity. }
  split; [exact Hl|]. repeat (split; [reflexivity|]).
  cbn [step]. unfold dispatch.
  rewrite bool_decide_eq_true_2; [reflexivity|].
  rewrite Hl, elem_of_app, !elem_of_cons. right. right. left. reflexivity.
Qed.
